(** * The ReAct agent core of aipr_py_agent

    A shallow embedding of [agent/agent.py] (the loop controller
    [ReActAgent.run]), [cli/ui.py] (the confirmation prompt
    [TUI.get_user_confirmation] and the session loop [TUI.start]),
    [main.py] and the tools of [tools/], followed by the properties of the
    control core.

    Text is modelled by [string]; a character stands for the code point of
    the same number, so the model covers Python strings over the code points
    0..255.  Everything outside the repository (the completion service, the
    operator's terminal, the operating system, the search client and the
    JSON deserializer) is an oracle that answers from the events so far.
    The console of rich is an oracle too: it prints a text or raises.  The
    sources print run-time text through its markup in five places (the goal,
    a response that does not parse, the thought, the panel of the
    confirmation, the report of [main]); each of them is a step of the
    model that can raise. *)

From Stdlib Require Import String Ascii List Bool Arith ZArith Lia DecimalString.
From Stdlib Require Import Sorted Permutation.
Import ListNotations.
Open Scope string_scope.

(** ** Python string methods used by the sources *)

Module PyStr.

(** [str.isspace] on one character: the code points 9..13, 28..32, 133
    and 160. *)
Definition isspace (c : ascii) : bool :=
  let n := nat_of_ascii c in
  (((9 <=? n) && (n <=? 13)) || ((28 <=? n) && (n <=? 32))
   || (n =? 133) || (n =? 160))%nat.

(** [str.lstrip()] *)
Fixpoint lstrip (s : string) : string :=
  match s with
  | String c s' => if isspace c then lstrip s' else s
  | EmptyString => EmptyString
  end.

(** [str.rstrip()]: a suffix of white space is dropped. *)
Fixpoint rstrip (s : string) : string :=
  match s with
  | EmptyString => EmptyString
  | String c s' =>
      match rstrip s' with
      | EmptyString => if isspace c then EmptyString else String c EmptyString
      | r => String c r
      end
  end.

(** [str.strip()] *)
Definition strip (s : string) : string := rstrip (lstrip s).

(** [s.startswith(p)] *)
Fixpoint startswith (p s : string) : bool :=
  match p, s with
  | EmptyString, _ => true
  | String a p', String b s' => Ascii.eqb a b && startswith p' s'
  | String _ _, EmptyString => false
  end.

(** [p in s] for strings: [p] occurs in [s]. *)
Fixpoint contains (p s : string) : bool :=
  startswith p s ||
  match s with
  | EmptyString => false
  | String _ s' => contains p s'
  end.

(** The scan of [str.replace]: [skip] characters of the match found last
    are still to be passed over; otherwise a match of [old] at the current
    position is replaced by [new] and the scan resumes behind it. *)
Fixpoint replace_from (old new : string) (skip : nat) (s : string) : string :=
  match s with
  | EmptyString => EmptyString
  | String c s' =>
      match skip with
      | S k => replace_from old new k s'
      | O =>
          if startswith old s
          then new ++ replace_from old new (String.length old - 1) s'
          else String c (replace_from old new 0 s')
      end
  end.

(** [s.replace(old, new)] for a non-empty [old]; with an empty [old] Python
    puts [new] before every character and at the end. *)
Fixpoint intersperse (new s : string) : string :=
  match s with
  | EmptyString => new
  | String c s' => new ++ String c (intersperse new s')
  end.

Definition replace (old new s : string) : string :=
  match old with
  | EmptyString => intersperse new s
  | _ => replace_from old new 0 s
  end.

(** [str.lower] on one character: A..Z and the capital letters 192..222
    (215, the multiplication sign, apart) move up by 32. *)
Definition lower_char (c : ascii) : ascii :=
  let n := nat_of_ascii c in
  if (((65 <=? n) && (n <=? 90))
      || ((192 <=? n) && (n <=? 222) && negb (n =? 215)))%nat
  then ascii_of_nat (n + 32) else c.

Fixpoint lower (s : string) : string :=
  match s with
  | EmptyString => EmptyString
  | String c s' => String (lower_char c) (lower s')
  end.

End PyStr.

(** ** Python values and exceptions *)

(** What [json.loads] can hand back: [None], [bool], [int], [float], [str],
    [list] and [dict] with string keys.  A float is the text Python prints
    for it ([repr]); a dict is the list of its items in insertion order. *)
#[local] Set Warnings "-register-all".

Inductive value : Type :=
| VNone
| VBool (b : bool)
| VInt (n : Z)
| VFloat (text : string)
| VStr (s : string)
| VList (l : list value)
| VDict (d : list (string * value)).

(** The exception classes the sources tell apart in an [except] clause.
    [MarkupError] is the error of rich for a console text whose tags do not
    match, [OtherException] stands for every other subclass of [Exception]
    and [NonException] for the classes that [except Exception] lets through
    ([KeyboardInterrupt], [SystemExit]). *)
Inductive exn_class : Type :=
| JSONDecodeError
| AttributeError
| TypeError
| KeyError
| FileNotFoundError
| TimeoutExpired
| MarkupError
| OtherException
| NonException.

(** An exception with the text of [str(e)]. *)
Record exn : Type := Exn { exn_cls : exn_class; exn_str : string }.

Inductive result (A : Type) : Type :=
| Ok (a : A)
| Raise (e : exn).
Arguments Ok {A} a.
Arguments Raise {A} e.

Definition exn_class_eqb (a b : exn_class) : bool :=
  match a, b with
  | JSONDecodeError, JSONDecodeError | AttributeError, AttributeError
  | TypeError, TypeError | KeyError, KeyError
  | FileNotFoundError, FileNotFoundError
  | TimeoutExpired, TimeoutExpired | MarkupError, MarkupError
  | OtherException, OtherException
  | NonException, NonException => true
  | _, _ => false
  end.

(** [isinstance(e, Exception)] *)
Definition is_Exception (e : exn) : bool :=
  negb (exn_class_eqb (exn_cls e) NonException).

Definition is_a (c : exn_class) (e : exn) : bool := exn_class_eqb (exn_cls e) c.

(** ** Dictionaries *)

(** [d.get(key)] on the items of a dict. *)
Fixpoint dict_lookup (key : string) (d : list (string * value)) : option value :=
  match d with
  | [] => None
  | (k, v) :: d' => if String.eqb key k then Some v else dict_lookup key d'
  end.

(** [key in d] *)
Definition dict_has (key : string) (d : list (string * value)) : bool :=
  match dict_lookup key d with Some _ => true | None => false end.

(** [d.get(key, default)] *)
Definition dict_get (key : string) (default : value) (d : list (string * value))
  : value :=
  match dict_lookup key d with Some w => w | None => default end.

(** [d[key] = v]: an existing key keeps its place. *)
Fixpoint dict_set (key : string) (v : value) (d : list (string * value))
  : list (string * value) :=
  match d with
  | [] => [(key, v)]
  | (k, w) :: d' =>
      if String.eqb key k then (k, v) :: d' else (k, w) :: dict_set key v d'
  end.

(** ** [str] and [repr] of a value *)

Definition hex_digit (n : nat) : ascii :=
  nth n (list_ascii_of_string "0123456789abcdef") "0"%char.

(** One character inside [repr] of a string delimited by [quote]. *)
Definition repr_char (quote c : ascii) : string :=
  let n := nat_of_ascii c in
  if Ascii.eqb c quote then String "\" (String c "")
  else if (n =? 92)%nat then "\\"
  else if (n =? 9)%nat then "\t"
  else if (n =? 10)%nat then "\n"
  else if (n =? 13)%nat then "\r"
  else if ((n <? 32) || ((127 <=? n) && (n <=? 160)) || (n =? 173))%nat
  then String "\" (String "x" (String (hex_digit (n / 16))
                                       (String (hex_digit (n mod 16)) "")))
  else String c "".

Fixpoint repr_chars (quote : ascii) (s : string) : string :=
  match s with
  | EmptyString => EmptyString
  | String c s' => repr_char quote c ++ repr_chars quote s'
  end.

Definition single_quote : ascii := ascii_of_nat 39.
Definition double_quote : ascii := ascii_of_nat 34.

(** [repr(s)]: single quotes, unless [s] has a single quote and no double
    quote. *)
Definition repr_str (s : string) : string :=
  let quote :=
    if PyStr.contains (String single_quote "") s
       && negb (PyStr.contains (String double_quote "") s)
    then double_quote else single_quote in
  String quote (repr_chars quote s ++ String quote "").

Definition str_of_Z (n : Z) : string := NilZero.string_of_int (Z.to_int n).

Fixpoint py_repr (v : value) : string :=
  match v with
  | VNone => "None"
  | VBool true => "True"
  | VBool false => "False"
  | VInt n => str_of_Z n
  | VFloat text => text
  | VStr s => repr_str s
  | VList l => "[" ++ String.concat ", " (map py_repr l) ++ "]"
  | VDict d =>
      "{" ++ String.concat ", "
               (map (fun '(k, w) => repr_str k ++ ": " ++ py_repr w) d) ++ "}"
  end.

(** [str(v)], which is what an f-string puts in place of [{v}]. *)
Definition py_str (v : value) : string :=
  match v with
  | VStr s => s
  | _ => py_repr v
  end.

(** [type(v).__name__] *)
Definition type_name (v : value) : string :=
  match v with
  | VNone => "NoneType"
  | VBool _ => "bool"
  | VInt _ => "int"
  | VFloat _ => "float"
  | VStr _ => "str"
  | VList _ => "list"
  | VDict _ => "dict"
  end.

(** ** A model of [json.loads]

    The deserializer of Python's standard library on the texts of the
    model, for the examples; the properties of the loop take the
    deserializer as a parameter.  White space is space, tab, line feed and carriage return; the
    literals are [null], [true], [false], [NaN], [Infinity] and
    [-Infinity]; a number with a fraction or an exponent is a float, kept
    as it is written (which is the text Python prints for it when it is
    written like [1.5]); a control character inside a string is refused; a
    repeated key keeps its last value; text after the value is refused.  A
    [\u] escape above [00ff] has no character in the model and is refused
    too.  The messages carry no position. *)

Module Json.

Definition decode_error {A} (msg : string) : result A :=
  Raise (Exn JSONDecodeError msg).

Definition is_ws (c : ascii) : bool :=
  let n := nat_of_ascii c in
  ((n =? 32) || (n =? 9) || (n =? 10) || (n =? 13))%nat.

Fixpoint skip_ws (s : string) : string :=
  match s with
  | String c s' => if is_ws c then skip_ws s' else s
  | EmptyString => EmptyString
  end.

Definition is_digit (c : ascii) : bool :=
  let n := nat_of_ascii c in ((48 <=? n) && (n <=? 57))%nat.

Definition hex_value (c : ascii) : option nat :=
  let n := nat_of_ascii c in
  if ((48 <=? n) && (n <=? 57))%nat then Some (n - 48)
  else if ((97 <=? n) && (n <=? 102))%nat then Some (n - 87)
  else if ((65 <=? n) && (n <=? 70))%nat then Some (n - 55)
  else None.

(** The four hexadecimal digits behind [\u]. *)
Definition hex4 (s : string) : option (nat * string) :=
  match s with
  | String a (String b (String c (String d rest))) =>
      match hex_value a, hex_value b, hex_value c, hex_value d with
      | Some x, Some y, Some z, Some w =>
          Some (((x * 16 + y) * 16 + z) * 16 + w, rest)
      | _, _, _, _ => None
      end
  | _ => None
  end.

(** The characters of a string behind its opening quote, up to the closing
    one. *)
Fixpoint scanstring (fuel : nat) (s : string) : result (string * string) :=
  match fuel with
  | O => decode_error "Unterminated string"
  | S fuel' =>
      match s with
      | EmptyString => decode_error "Unterminated string"
      | String c rest =>
          if Ascii.eqb c double_quote then Ok (EmptyString, rest)
          else if (nat_of_ascii c =? 92)%nat then
            match rest with
            | EmptyString => decode_error "Unterminated string"
            | String e rest' =>
                let plain (ch : ascii) :=
                  match scanstring fuel' rest' with
                  | Ok (str, r) => Ok (String ch str, r)
                  | Raise x => Raise x
                  end in
                if Ascii.eqb e double_quote then plain double_quote
                else if Ascii.eqb e "\"%char then plain "\"%char
                else if Ascii.eqb e "/"%char then plain "/"%char
                else if Ascii.eqb e "b"%char then plain (ascii_of_nat 8)
                else if Ascii.eqb e "f"%char then plain (ascii_of_nat 12)
                else if Ascii.eqb e "n"%char then plain (ascii_of_nat 10)
                else if Ascii.eqb e "r"%char then plain (ascii_of_nat 13)
                else if Ascii.eqb e "t"%char then plain (ascii_of_nat 9)
                else if Ascii.eqb e "u"%char then
                  match hex4 rest' with
                  | Some (n, r) =>
                      if (n <? 256)%nat then
                        match scanstring fuel' r with
                        | Ok (str, r') => Ok (String (ascii_of_nat n) str, r')
                        | Raise x => Raise x
                        end
                      else decode_error "Escape outside the characters of the model"
                  | None => decode_error "Invalid \uXXXX escape"
                  end
                else decode_error "Invalid \escape"
            end
          else if (nat_of_ascii c <? 32)%nat
          then decode_error "Invalid control character"
          else
            match scanstring fuel' rest with
            | Ok (str, r) => Ok (String c str, r)
            | Raise x => Raise x
            end
      end
  end.

(** The longest prefix of digits. *)
Fixpoint digits (s : string) : string * string :=
  match s with
  | String c s' =>
      if is_digit c then let '(d, r) := digits s' in (String c d, r)
      else (EmptyString, s)
  | EmptyString => (EmptyString, EmptyString)
  end.

Definition nat_of_digits (d : string) : nat :=
  fold_left (fun acc c => acc * 10 + (nat_of_ascii c - 48))
            (list_ascii_of_string d) 0.

(** The integer part of a number: [0], or a digit from 1 to 9 and more
    digits. *)
Definition int_part (s : string) : option (string * string) :=
  match s with
  | String c s' =>
      if Ascii.eqb c "0"%char then Some ("0", s')
      else if is_digit c then let '(d, r) := digits s' in Some (String c d, r)
      else None
  | EmptyString => None
  end.

(** [\.\d+] *)
Definition frac_part (s : string) : string * string :=
  match s with
  | String c s' =>
      if Ascii.eqb c "."%char then
        match digits s' with
        | (EmptyString, _) => (EmptyString, s)
        | (d, r) => (String c d, r)
        end
      else (EmptyString, s)
  | EmptyString => (EmptyString, s)
  end.

(** [[eE][-+]?\d+] *)
Definition exp_part (s : string) : string * string :=
  match s with
  | String c s' =>
      if Ascii.eqb c "e"%char || Ascii.eqb c "E"%char then
        let '(sign, s'') :=
          match s' with
          | String g t =>
              if Ascii.eqb g "-"%char || Ascii.eqb g "+"%char
              then (String g EmptyString, t) else (EmptyString, s')
          | EmptyString => (EmptyString, s')
          end in
        match digits s'' with
        | (EmptyString, _) => (EmptyString, s)
        | (d, r) => (String c (sign ++ d), r)
        end
      else (EmptyString, s)
  | EmptyString => (EmptyString, s)
  end.

Definition number (s : string) : option (value * string) :=
  let '(neg, s1) :=
    match s with
    | String c t => if Ascii.eqb c "-"%char then (true, t) else (false, s)
    | EmptyString => (false, s)
    end in
  match int_part s1 with
  | None => None
  | Some (i, s2) =>
      let '(f, s3) := frac_part s2 in
      let '(e, s4) := exp_part s3 in
      let sign := if neg then "-" else "" in
      match f, e with
      | EmptyString, EmptyString =>
          let n := Z.of_nat (nat_of_digits i) in
          Some (VInt (if neg then (- n)%Z else n), s4)
      | _, _ => Some (VFloat (sign ++ i ++ f ++ e), s4)
      end
  end.

(** [s] with the prefix [p] taken off. *)
Fixpoint after (p s : string) : option string :=
  match p, s with
  | EmptyString, _ => Some s
  | String a p', String b s' => if Ascii.eqb a b then after p' s' else None
  | String _ _, EmptyString => None
  end.

(** A value other than a string, an object or an array. *)
Definition scalar (s : string) : result (value * string) :=
  match after "null" s with Some r => Ok (VNone, r) | None =>
  match after "true" s with Some r => Ok (VBool true, r) | None =>
  match after "false" s with Some r => Ok (VBool false, r) | None =>
  match number s with Some vr => Ok vr | None =>
  match after "NaN" s with Some r => Ok (VFloat "nan", r) | None =>
  match after "Infinity" s with Some r => Ok (VFloat "inf", r) | None =>
  match after "-Infinity" s with Some r => Ok (VFloat "-inf", r) | None =>
  decode_error "Expecting value"
  end end end end end end end.

(** [scan_once] reads one value; [members] reads the items of an object
    from the quote of a key on; [elements] reads the elements of an array
    from the first character of an element on. *)
Fixpoint scan_once (fuel : nat) (s : string) : result (value * string) :=
  match fuel with
  | O => decode_error "Expecting value"
  | S fuel' =>
      match s with
      | EmptyString => decode_error "Expecting value"
      | String c rest =>
          if Ascii.eqb c double_quote then
            match scanstring (String.length rest) rest with
            | Ok (str, r) => Ok (VStr str, r)
            | Raise x => Raise x
            end
          else if Ascii.eqb c "{"%char then
            match skip_ws rest with
            | String c' r' =>
                if Ascii.eqb c' "}"%char then Ok (VDict [], r')
                else members fuel' [] (String c' r')
            | EmptyString =>
                decode_error "Expecting property name enclosed in double quotes"
            end
          else if Ascii.eqb c "["%char then
            match skip_ws rest with
            | String c' r' =>
                if Ascii.eqb c' "]"%char then Ok (VList [], r')
                else elements fuel' [] (String c' r')
            | EmptyString => decode_error "Expecting value"
            end
          else scalar s
      end
  end

with members (fuel : nat) (acc : list (string * value)) (s : string)
  : result (value * string) :=
  match fuel with
  | O => decode_error "Expecting value"
  | S fuel' =>
      match s with
      | String c rest =>
          if Ascii.eqb c double_quote then
            match scanstring (String.length rest) rest with
            | Raise x => Raise x
            | Ok (key, r) =>
                match skip_ws r with
                | String c1 r1 =>
                    if Ascii.eqb c1 ":"%char then
                      match scan_once fuel' (skip_ws r1) with
                      | Raise x => Raise x
                      | Ok (v, r2) =>
                          let acc' := dict_set key v acc in
                          match skip_ws r2 with
                          | String c3 r3 =>
                              if Ascii.eqb c3 "}"%char then Ok (VDict acc', r3)
                              else if Ascii.eqb c3 ","%char
                              then members fuel' acc' (skip_ws r3)
                              else decode_error "Expecting ',' delimiter"
                          | EmptyString => decode_error "Expecting ',' delimiter"
                          end
                      end
                    else decode_error "Expecting ':' delimiter"
                | EmptyString => decode_error "Expecting ':' delimiter"
                end
            end
          else decode_error "Expecting property name enclosed in double quotes"
      | EmptyString =>
          decode_error "Expecting property name enclosed in double quotes"
      end
  end

with elements (fuel : nat) (acc : list value) (s : string)
  : result (value * string) :=
  match fuel with
  | O => decode_error "Expecting value"
  | S fuel' =>
      match scan_once fuel' s with
      | Raise x => Raise x
      | Ok (v, r) =>
          let acc' := (acc ++ [v])%list in
          match skip_ws r with
          | String c1 r1 =>
              if Ascii.eqb c1 "]"%char then Ok (VList acc', r1)
              else if Ascii.eqb c1 ","%char
              then elements fuel' acc' (skip_ws r1)
              else decode_error "Expecting ',' delimiter"
          | EmptyString => decode_error "Expecting ',' delimiter"
          end
      end
  end.

(** [json.loads(s)] *)
Definition loads (s : string) : result value :=
  match scan_once (S (String.length s)) (skip_ws s) with
  | Raise x => Raise x
  | Ok (v, r) =>
      match skip_ws r with
      | EmptyString => Ok v
      | _ => decode_error "Extra data"
      end
  end.

(** The examples write a JSON text with ['] where the text has a double
    quote. *)
Fixpoint q (s : string) : string :=
  match s with
  | EmptyString => EmptyString
  | String c s' =>
      String (if Ascii.eqb c single_quote then double_quote else c) (q s')
  end.

End Json.

(** ** The console of rich

    The sources print through [rich.console.Console.print], which reads
    its text as console markup, and ask through [rich.prompt.Prompt.ask].
    The library is outside the repository; this is the part of it that the
    examples run: the scan of the tags ([rich.markup.render]) and the loop
    of the prompt.  Style names are compared after [strip] and [lower]; the
    canonical spelling that rich gives to a valid style, and the parameters
    of an [@] tag, are not modelled. *)

Module Rich.

(** The first character of a tag, [[a-z#/@]]. *)
Definition tag_head (c : ascii) : bool :=
  let n := nat_of_ascii c in
  (((97 <=? n) && (n <=? 122)) || (n =? 35) || (n =? 47) || (n =? 64))%nat.

(** The rest of a tag: the text before the next closing bracket, when no
    opening bracket stands before it. *)
Fixpoint tag_tail (s : string) : option string :=
  match s with
  | EmptyString => None
  | String c s' =>
      if Ascii.eqb c "]" then Some EmptyString
      else if Ascii.eqb c "[" then None
      else option_map (String c) (tag_tail s')
  end.

(** The text of the tag that the characters behind an opening bracket
    begin with. *)
Definition tag_at (s : string) : option string :=
  match s with
  | String c s' =>
      if tag_head c then option_map (String c) (tag_tail s') else None
  | EmptyString => None
  end.

(** [tag_text.partition("=")[0]] *)
Fixpoint tag_name (s : string) : string :=
  match s with
  | EmptyString => EmptyString
  | String c s' => if Ascii.eqb c "=" then EmptyString else String c (tag_name s')
  end.

Definition normalize (style : string) : string :=
  PyStr.lower (PyStr.strip style).

(** [pop_style]: the open tag of this name that was opened last is
    closed. *)
Fixpoint pop_style (name : string) (stack : list string)
  : option (list string) :=
  match stack with
  | [] => None
  | open :: below =>
      if String.eqb open name then Some below
      else option_map (cons open) (pop_style name below)
  end.

(** The scan of a markup text from the position [position] on: [stack] are
    the names of the open tags, the last one first, [escapes] the number of
    backslashes that stand right before, and [skip] characters of the tag
    found last are still to be passed over.  A tag behind an odd number of
    backslashes is text.  A closing tag that closes nothing raises
    [MarkupError]. *)
Fixpoint scan (stack : list string) (escapes skip position : nat)
  (s : string) : result unit :=
  match s with
  | EmptyString => Ok tt
  | String c s' =>
      match skip with
      | S k => scan stack 0 k (S position) s'
      | O =>
          if Ascii.eqb c "\" then scan stack (S escapes) 0 (S position) s'
          else if Ascii.eqb c "["
          then
            match tag_at s' with
            | None => scan stack 0 0 (S position) s'
            | Some tag =>
                let behind stack' :=
                  scan stack' 0 (S (String.length tag)) (S position) s' in
                if Nat.odd escapes then behind stack
                else
                  match tag_name tag with
                  | String "/" closed =>
                      match PyStr.strip closed with
                      | EmptyString =>
                          match stack with
                          | _ :: below => behind below
                          | [] =>
                              Raise (Exn MarkupError
                                       ("closing tag '[/]' at position "
                                        ++ str_of_Z (Z.of_nat position)
                                        ++ " has nothing to close"))
                          end
                      | style_name =>
                          match pop_style (normalize style_name) stack with
                          | Some stack' => behind stack'
                          | None =>
                              Raise (Exn MarkupError
                                       ("closing tag '[" ++ tag
                                        ++ "]' at position "
                                        ++ str_of_Z (Z.of_nat position)
                                        ++ " doesn't match any open tag"))
                          end
                      end
                  | name => behind (normalize name :: stack)
                  end
            end
          else scan stack 0 0 (S position) s'
      end
  end.

(** [console.print(text)]: the text is printed when its tags match. *)
Definition print (text : string) : result unit := scan [] 0 0 0 text.

(** Whether [Prompt.ask] with [choices] takes the line: an empty line
    stands for the default, any other line must be one of the choices once
    white space is trimmed. *)
Definition accepted (choices : list string) (value : string) : bool :=
  String.eqb value "" || existsb (String.eqb (PyStr.strip value)) choices.

(** [Prompt.ask(..., choices=choices, default=default)] when the operator
    types [lines]: a line that is not accepted is refused and the question
    put again; at the end of the input [EOFError] is raised. *)
Fixpoint ask (choices : list string) (default : string) (lines : list string)
  : result string :=
  match lines with
  | [] => Raise (Exn OtherException "EOF when reading a line")
  | value :: rest =>
      if String.eqb value "" then Ok default
      else if existsb (String.eqb (PyStr.strip value)) choices
           then Ok (PyStr.strip value)
           else ask choices default rest
  end.

(** The lines that [ask] leaves unread. *)
Fixpoint unread (choices : list string) (lines : list string) : list string :=
  match lines with
  | [] => []
  | value :: rest =>
      if accepted choices value then rest else unread choices rest
  end.

End Rich.

(** ** Effects: a trace of events, and exceptions *)

(** What the controller does to the outside: a message sent to the
    completion service, a confirmation asked of the operator, a tool
    called. *)
Inductive event : Type :=
| Sent (prompt : string)
| Asked (tool_name args : value)
| Called (tool_name args : value).

(** A computation reads and extends the trace and returns or raises. *)
Definition M (A : Type) : Type := list event -> list event * result A.

Definition ret {A} (a : A) : M A := fun tr => (tr, Ok a).

Definition raise {A} (e : exn) : M A := fun tr => (tr, Raise e).

Definition bind {A B} (m : M A) (k : A -> M B) : M B :=
  fun tr =>
    match m tr with
    | (tr', Ok a) => k a tr'
    | (tr', Raise e) => (tr', Raise e)
    end.

Notation "x <- m ;; k" := (bind m (fun x => k))
  (at level 61, m at next level, right associativity).

Definition lift {A} (r : result A) : M A := fun tr => (tr, r).

Definition emit (e : event) : M unit := fun tr => ((tr ++ [e])%list, Ok tt).

(** An oracle answers from the events so far. *)
Definition consult {A} (oracle : list event -> result A) : M A :=
  fun tr => (tr, oracle tr).

(** [try: body except ...: handler]; [handler e = None] when no clause
    matches [e]. *)
Definition try_except {A} (body : M A) (handler : exn -> option (M A)) : M A :=
  fun tr =>
    match body tr with
    | (tr', Raise e) =>
        match handler e with
        | Some h => h tr'
        | None => (tr', Raise e)
        end
    | r => r
    end.

(** [except Exception as e: return f e] *)
Definition except_Exception {A} (f : exn -> A) (e : exn) : option (M A) :=
  if is_Exception e then Some (ret (f e)) else None.

(** The result of [subprocess.run(..., capture_output=True, text=True)]. *)
Record CompletedProcess : Type :=
  { stdout : string; stderr : string; returncode : Z }.

(** The world outside the repository. *)
Record Env : Type :=
  { (** [chat_session.send_message(prompt).text] *)
    send_message : list event -> string -> result string;
    (** [tui.console.print(text)] for a text that the sources make from
        run-time values: rich reads it as console markup and raises
        [MarkupError] when its tags do not match.  The prints of a fixed
        text are left out of the model: their tags match. *)
    console_print : string -> result unit;
    (** The lines that the operator types from the confirmation on that is
        asked behind these events, as [console.input] hands them to
        [Prompt.ask]; behind them the terminal is closed. *)
    typed : list event -> list string;
    (** [list(ddgs.text(query, max_results=5))] *)
    ddgs_text : list event -> value -> result (list value);
    os_path_isdir : list event -> value -> result bool;
    os_listdir : list event -> value -> result (list string);
    os_path_join : value -> string -> result string;
    os_path_dirname : value -> result string;
    os_makedirs : list event -> string -> result unit;
    (** [open(filepath, 'r', encoding='utf-8').read()] *)
    open_read : list event -> value -> result string;
    (** [open(filepath, 'w', encoding='utf-8').write(content)] *)
    open_write : list event -> value -> value -> result unit;
    (** [subprocess.run(command, shell=True, ..., timeout=60)] *)
    subprocess_run : list event -> value -> result CompletedProcess }.

Definition nl : string := String (ascii_of_nat 10) "".

(** [Prompt.ask("Do you want to execute this action?", choices=["y", "n"],
    default="n")]: the string it hands back. *)
Definition Prompt_ask (env : Env) (tr : list event) : result string :=
  Rich.ask ["y"; "n"] "n" (typed env tr).

(** [if v:] *)
Definition truthy (v : value) : bool :=
  match v with
  | VNone => false
  | VBool b => b
  | VInt n => negb (n =? 0)%Z
  | VFloat text => negb (String.eqb text "0.0" || String.eqb text "-0.0")
  | VStr s => negb (String.eqb s "")
  | VList l => match l with [] => false | _ => true end
  | VDict d => match d with [] => false | _ => true end
  end.

(** [v.get(key, default)]: only a dict has the method. *)
Definition py_get (v : value) (key : string) (default : value) : result value :=
  match v with
  | VDict d => Ok (dict_get key default d)
  | _ =>
      Raise (Exn AttributeError
               ("'" ++ type_name v ++ "' object has no attribute 'get'"))
  end.

(** [key in v]: a key of a dict, a part of a string, an element of a list;
    nothing else can be searched. *)
Definition py_contains (key : string) (v : value) : result bool :=
  match v with
  | VDict d => Ok (dict_has key d)
  | VStr s => Ok (PyStr.contains key s)
  | VList l =>
      Ok (existsb (fun x => match x with
                            | VStr s => String.eqb key s
                            | _ => false
                            end) l)
  | _ =>
      Raise (Exn TypeError
               ("argument of type '" ++ type_name v ++ "' is not iterable"))
  end.

(** [v[key]] for a string [key] *)
Definition py_getitem (v : value) (key : string) : result value :=
  match v with
  | VDict d =>
      match dict_lookup key d with
      | Some w => Ok w
      | None => Raise (Exn KeyError (repr_str key))
      end
  | VStr _ => Raise (Exn TypeError "string indices must be integers")
  | VList _ =>
      Raise (Exn TypeError "list indices must be integers or slices, not str")
  | _ =>
      Raise (Exn TypeError
               ("'" ++ type_name v ++ "' object is not subscriptable"))
  end.

(** [sorted] on strings, by code point. *)
Fixpoint insert_sorted (x : string) (l : list string) : list string :=
  match l with
  | [] => [x]
  | y :: l' => if String.leb x y then x :: l else y :: insert_sorted x l'
  end.

Definition sorted (l : list string) : list string :=
  fold_right insert_sorted [] l.

(** ** The tools: tools/web.py, tools/file_system.py, tools/shell.py *)

Section Tools.

Variable env : Env.

(** The loop of [search_web] over [enumerate(results, 1)]. *)
Fixpoint format_results (i : nat) (results : list value) : result (list string) :=
  match results with
  | [] => Ok []
  | r :: rest =>
      match py_get r "title" (VStr "N/A") with Raise e => Raise e | Ok title =>
      match py_get r "body" (VStr "N/A") with Raise e => Raise e | Ok body =>
      match py_get r "href" (VStr "N/A") with Raise e => Raise e | Ok href =>
      match format_results (S i) rest with Raise e => Raise e | Ok tail =>
        Ok (("Result " ++ str_of_Z (Z.of_nat i) ++ ":" ++ nl
             ++ "  Title: " ++ py_str title ++ nl
             ++ "  Snippet: " ++ py_str body ++ nl
             ++ "  URL: " ++ py_str href ++ nl) :: tail)
      end end end end
  end.

Definition search_web (query : value) : M string :=
  try_except
    (results <- consult (fun tr => ddgs_text env tr query) ;;
     match results with
     | [] => ret "No results found for the query."
     | _ =>
         formatted_results <- lift (format_results 1 results) ;;
         ret (String.concat nl formatted_results)
     end)
    (except_Exception
       (fun e => "An error occurred during web search: " ++ exn_str e)).

(** The loop of [list_files] over [sorted(files)]. *)
Fixpoint mark_directories (directory : value) (files : list string)
  : M (list string) :=
  match files with
  | [] => ret []
  | f :: rest =>
      path <- lift (os_path_join env directory f) ;;
      isdir <- consult (fun tr => os_path_isdir env tr (VStr path)) ;;
      output <- mark_directories directory rest ;;
      ret ((if isdir : bool then f ++ "/" else f) :: output)
  end.

Definition list_files (directory : value) : M string :=
  try_except
    (isdir <- consult (fun tr => os_path_isdir env tr directory) ;;
     if negb isdir
     then ret ("Error: Directory '" ++ py_str directory ++ "' not found.")
     else
       files <- consult (fun tr => os_listdir env tr directory) ;;
       match files with
       | [] => ret "The directory is empty."
       | _ =>
           output <- mark_directories directory (sorted files) ;;
           ret (String.concat nl output)
       end)
    (except_Exception
       (fun e => "An error occurred while listing files: " ++ exn_str e)).

Definition read_file (filepath : value) : M string :=
  try_except
    (consult (fun tr => open_read env tr filepath))
    (fun e =>
       if is_a FileNotFoundError e
       then Some (ret ("Error: File '" ++ py_str filepath ++ "' not found."))
       else except_Exception
              (fun e => "An error occurred while reading the file: "
                        ++ exn_str e) e).

Definition write_file (filepath content : value) : M string :=
  try_except
    (directory <- lift (os_path_dirname env filepath) ;;
     _ <- (if String.eqb directory "" then ret tt
           else consult (fun tr => os_makedirs env tr directory)) ;;
     _ <- consult (fun tr => open_write env tr filepath content) ;;
     ret ("File '" ++ py_str filepath ++ "' written successfully."))
    (except_Exception
       (fun e => "An error occurred while writing the file: " ++ exn_str e)).

Definition execute_shell_command (command : value) : M string :=
  try_except
    (result <- consult (fun tr => subprocess_run env tr command) ;;
     let output := "" in
     let output :=
       if String.eqb (stdout result) "" then output
       else output ++ "STDOUT:" ++ nl ++ "---" ++ nl
            ++ PyStr.strip (stdout result) ++ nl ++ "---" ++ nl in
     let output :=
       if String.eqb (stderr result) "" then output
       else output ++ "STDERR:" ++ nl ++ "---" ++ nl
            ++ PyStr.strip (stderr result) ++ nl ++ "---" ++ nl in
     let output := output ++ "Return Code: " ++ str_of_Z (returncode result) in
     if String.eqb (stdout result) "" && String.eqb (stderr result) ""
     then ret ("Command executed successfully with no output." ++ nl
               ++ "Return Code: " ++ str_of_Z (returncode result))
     else ret (PyStr.strip output))
    (fun e =>
       if is_a TimeoutExpired e
       then Some (ret "Error: Command timed out after 60 seconds.")
       else except_Exception
              (fun e => "An error occurred while executing the shell command: "
                        ++ exn_str e) e).

End Tools.

(** ** Calling a tool with keyword arguments *)

(** A Python function: its module and its name, its parameters with their
    defaults, and its body on the bound arguments, in the order of the
    parameters. *)
Record pyfunction : Type :=
  { fn_module : string;
    fn_name : string;
    fn_params : list (string * option value);
    fn_body : list value -> M string }.

(** ['a'], ['a' and 'b'], ['a', 'b', and 'c'] *)
Fixpoint name_list (names : list string) : string :=
  match names with
  | [] => ""
  | [a] => "'" ++ a ++ "'"
  | [a; b] => "'" ++ a ++ "' and '" ++ b ++ "'"
  | a :: rest =>
      "'" ++ a ++ "', "
      ++ match rest with
         | [b; c] => "'" ++ b ++ "', and '" ++ c ++ "'"
         | _ => name_list rest
         end
  end.

(** The binding of a call that unpacks [kwargs] as keyword arguments, as in
    [tool_function( **tool_args)]: [kwargs] must be a mapping, each of its
    keys a parameter, and each parameter without a default among its keys;
    otherwise the call raises [TypeError] before the body runs. *)
Definition bind_kwargs (f : pyfunction) (kwargs : value) : result (list value) :=
  match kwargs with
  | VDict d =>
      let is_param k := existsb (String.eqb k) (map fst (fn_params f)) in
      match find (fun kv => negb (is_param (fst kv))) d with
      | Some (k, _) =>
          Raise (Exn TypeError
                   (fn_name f ++ "() got an unexpected keyword argument '"
                    ++ k ++ "'"))
      | None =>
          let missing :=
            filter (fun p => match snd p with
                             | None => negb (dict_has (fst p) d)
                             | Some _ => false
                             end) (fn_params f) in
          match missing with
          | [] =>
              Ok (map (fun p => match dict_lookup (fst p) d, snd p with
                                | Some v, _ => v
                                | None, Some default => default
                                | None, None => VNone
                                end) (fn_params f))
          | _ =>
              Raise (Exn TypeError
                       (fn_name f ++ "() missing "
                        ++ str_of_Z (Z.of_nat (List.length missing))
                        ++ " required positional argument"
                        ++ (if (List.length missing =? 1)%nat then "" else "s")
                        ++ ": " ++ name_list (map fst missing)))
          end
      end
  | _ =>
      Raise (Exn TypeError
               (fn_module f ++ "." ++ fn_name f
                ++ "() argument after ** must be a mapping, not "
                ++ type_name kwargs))
  end.

(** The call itself: the arguments are bound, then the body runs. *)
Definition call (f : pyfunction) (kwargs : value) : M string :=
  args <- lift (bind_kwargs f kwargs) ;;
  fn_body f args.

(** ** cli/ui.py: the confirmation prompt *)

Section Agent.

Variable env : Env.

(** [json.loads] *)
Variable loads : string -> result value.

(** The text of the panel of lines 19 to 24. *)
Definition panel_text (tool_name args : value) : string :=
  "[bold]Tool:[/bold] " ++ py_str tool_name ++ nl
  ++ "[bold]Arguments:[/bold] " ++ py_str args.

(** [TUI.get_user_confirmation]: the panel is printed, then the question
    is put. *)
Definition get_user_confirmation (tool_name args : value) : M bool :=
  _ <- lift (console_print env (panel_text tool_name args)) ;;
  _ <- emit (Asked tool_name args) ;;
  confirm <- consult (Prompt_ask env) ;;
  ret (String.eqb (PyStr.lower confirm) "y").

(** ** agent/agent.py: the registry and the loop *)

Definition arg (i : nat) (args : list value) : value := nth i args VNone.

(** [self.tools] *)
Definition tools : list (string * pyfunction) :=
  [ ("search_web",
     {| fn_module := "tools.web";
        fn_name := "search_web";
        fn_params := [("query", None)];
        fn_body := fun a => search_web env (arg 0 a) |});
    ("list_files",
     {| fn_module := "tools.file_system";
        fn_name := "list_files";
        fn_params := [("directory", Some (VStr "."))];
        fn_body := fun a => list_files env (arg 0 a) |});
    ("read_file",
     {| fn_module := "tools.file_system";
        fn_name := "read_file";
        fn_params := [("filepath", None)];
        fn_body := fun a => read_file env (arg 0 a) |});
    ("write_file",
     {| fn_module := "tools.file_system";
        fn_name := "write_file";
        fn_params := [("filepath", None); ("content", None)];
        fn_body := fun a => write_file env (arg 0 a) (arg 1 a) |});
    ("execute_shell_command",
     {| fn_module := "tools.shell";
        fn_name := "execute_shell_command";
        fn_params := [("command", None)];
        fn_body := fun a => execute_shell_command env (arg 0 a) |}) ].

(** [self.dangerous_tools] *)
Definition dangerous_tools : list string :=
  ["write_file"; "execute_shell_command"].

(** [self.tools[name]] *)
Fixpoint registry_lookup (name : string) (reg : list (string * pyfunction))
  : option pyfunction :=
  match reg with
  | [] => None
  | (k, f) :: reg' => if String.eqb name k then Some f else registry_lookup name reg'
  end.

(** [tool_name in self.tools]: the key is hashed, which a list or a dict
    refuses; the keys are strings, so no other value equals one. *)
Definition in_tools (tool_name : value) : result (option pyfunction) :=
  match tool_name with
  | VStr name => Ok (registry_lookup name tools)
  | VList _ | VDict _ =>
      Raise (Exn TypeError ("unhashable type: '" ++ type_name tool_name ++ "'"))
  | _ => Ok None
  end.

(** [tool_name in self.dangerous_tools] *)
Definition in_dangerous_tools (tool_name : value) : bool :=
  match tool_name with
  | VStr name => existsb (String.eqb name) dangerous_tools
  | _ => false
  end.

(** The extraction of line 72:
    [text.strip().replace("```json", "").replace("```", "").strip()] *)
Definition json_text (text : string) : string :=
  PyStr.strip
    (PyStr.replace "```" "" (PyStr.replace "```json" "" (PyStr.strip text))).

Definition invalid_json_prompt : string :=
  "Invalid JSON format. Please check your response and provide it in the correct JSON format as specified in the instructions.".

Definition invalid_response_prompt : string :=
  "Your response was invalid. It must contain either a 'final_answer' or an 'action' in the specified JSON format.".

Definition exhausted_message : string :=
  "Agent could not complete the task within the maximum number of iterations.".

(** How one pass through the body of the loop ends: [continue] or the end
    of the body with the next prompt, or [return]. *)
Inductive step : Type :=
| Continue (next_prompt : string)
| Return (answer : value).

(** Lines 91 to 102: the observation for an action. *)
Definition dispatch (tool_name tool_args : value) : M string :=
  found <- lift (in_tools tool_name) ;;
  match found with
  | None => ret ("Error: Tool '" ++ py_str tool_name ++ "' not found.")
  | Some tool_function =>
      if in_dangerous_tools tool_name
      then
        confirmed <- get_user_confirmation tool_name tool_args ;;
        if negb confirmed
        then ret ("User denied permission for tool '" ++ py_str tool_name ++ "'.")
        else
          _ <- emit (Called tool_name tool_args) ;;
          call tool_function tool_args
      else
        _ <- emit (Called tool_name tool_args) ;;
        call tool_function tool_args
  end.

(** The text of line 81. *)
Definition thought_text (thought : value) : string :=
  "[bold green]Thought:[/bold green] " ++ py_str thought.

(** Lines 80 and 81: [if thought: tui.console.print(...)] *)
Definition show_thought (thought : value) : result unit :=
  if truthy thought then console_print env (thought_text thought) else Ok tt.

(** Lines 79 to 109: what the loop does with a deserialized response.
    Lines 104 and 105 print a fixed text and the observation as Markdown,
    which is not read as console markup. *)
Definition act (parsed_response : value) : M step :=
  thought <- lift (py_get parsed_response "thought" VNone) ;;
  _ <- lift (show_thought thought) ;;
  has_final_answer <- lift (py_contains "final_answer" parsed_response) ;;
  if has_final_answer : bool
  then
    answer <- lift (py_getitem parsed_response "final_answer") ;;
    ret (Return answer)
  else
    has_action <- lift (py_contains "action" parsed_response) ;;
    if has_action : bool
    then
      action <- lift (py_get parsed_response "action" (VDict [])) ;;
      tool_name <- lift (py_get action "tool" VNone) ;;
      tool_args <- lift (py_get action "args" (VDict [])) ;;
      observation <- dispatch tool_name tool_args ;;
      ret (Continue ("Observation: " ++ observation))
    else ret (Continue invalid_response_prompt).

(** The text of line 75. *)
Definition parse_error_text (text : string) (e : exn) : string :=
  "[bold red]Error parsing model response:[/bold red]" ++ nl ++ text ++ nl
  ++ "Error: " ++ exn_str e.

(** The body of the [for] loop, lines 65 to 109. *)
Definition iteration (next_prompt : string) : M step :=
  _ <- emit (Sent next_prompt) ;;
  text <- consult (fun tr => send_message env tr next_prompt) ;;
  parsed <-
    try_except
      (parsed_response <- lift (loads (json_text text)) ;;
       ret (Some parsed_response))
      (fun e =>
         if is_a JSONDecodeError e || is_a AttributeError e
         then Some (_ <- lift (console_print env (parse_error_text text e)) ;;
                    ret None)
         else None) ;;
  match parsed with
  | None => ret (Continue invalid_json_prompt)
  | Some parsed_response => act parsed_response
  end.

(** [max_iterations = 10] *)
Definition max_iterations : nat := 10.

(** [for i in range(n): ...] followed by the [return] of line 111. *)
Fixpoint run_loop (n : nat) (next_prompt : string) : M value :=
  match n with
  | O => ret (VStr exhausted_message)
  | S n' =>
      s <- iteration next_prompt ;;
      match s with
      | Return answer => ret answer
      | Continue next_prompt' => run_loop n' next_prompt'
      end
  end.

(** The text of line 51. *)
Definition goal_text (user_prompt : string) : string :=
  nl ++ "[bold blue]Goal:[/bold blue] " ++ user_prompt.

(** [ReActAgent.run] *)
Definition run (user_prompt : string) : M value :=
  _ <- lift (console_print env (goal_text user_prompt)) ;;
  run_loop max_iterations user_prompt.

End Agent.

(** ** Reading a trace *)

Definition is_sent (e : event) : bool :=
  match e with Sent _ => true | _ => false end.

Definition is_asked (e : event) : bool :=
  match e with Asked _ _ => true | _ => false end.

(** The number of events of one kind. *)
Definition count (p : event -> bool) (tr : list event) : nat :=
  List.length (filter p tr).

(** The completion service answers the prompt [p], sent after the events
    [tr], with a text that deserializes to [v]. *)
Definition answers_with (env : Env) (loads : string -> result value)
  (tr : list event) (p : string) (v : value) : Prop :=
  exists text,
    send_message env (tr ++ [Sent p])%list p = Ok text
    /\ loads (json_text text) = Ok v.

(** The console prints the thought of the object [d], when it has one. *)
Definition thought_shown (env : Env) (d : list (string * value)) : Prop :=
  show_thought env (dict_get "thought" VNone d) = Ok tt.

(** The answer is an object whose thought is printed, without
    [final_answer], and whose [action] is the object [action]. *)
Definition requests (env : Env) (loads : string -> result value)
  (tr : list event) (p : string) (action : list (string * value)) : Prop :=
  exists d,
    answers_with env loads tr p (VDict d)
    /\ thought_shown env d
    /\ dict_lookup "final_answer" d = None
    /\ dict_lookup "action" d = Some (VDict action).

(** The pass for the prompt [p] behind the events [tr] leaves the events
    [tr'] and the prompt [q], and the loop goes on with them: with no pass
    left it returns the exhaustion message, otherwise the next pass sends
    [q]. *)
Definition goes_on (env : Env) (loads : string -> result value)
  (p : string) (tr tr' : list event) (q : string) : Prop :=
  iteration env loads p tr = (tr', Ok (Continue q))
  /\ run_loop env loads 1 p tr = (tr', Ok (VStr exhausted_message))
  /\ forall n,
       run_loop env loads (S (S n)) p tr = run_loop env loads (S n) q tr'
       /\ exists rest,
            fst (run_loop env loads (S (S n)) p tr)
            = (tr' ++ Sent q :: rest)%list.

(** The passes of a loop with a ceiling of [n]: the prompt and the events
    that each of them starts with. *)
Fixpoint passes (env : Env) (loads : string -> result value) (n : nat)
  (p : string) (tr : list event) : list (string * list event) :=
  match n with
  | O => []
  | S n' =>
      (p, tr) ::
        match iteration env loads p tr with
        | (tr', Ok (Continue p')) => passes env loads n' p' tr'
        | _ => []
        end
  end.

(** What the loop makes of the outcome of a call. *)
Definition observed (r : result string) : result step :=
  match r with
  | Ok observation => Ok (Continue ("Observation: " ++ observation))
  | Raise e => Raise e
  end.

(** [action.get("tool")] and [action.get("args", {})] *)
Definition tool_of (action : list (string * value)) : value :=
  dict_get "tool" VNone action.

Definition args_of (action : list (string * value)) : value :=
  dict_get "args" (VDict []) action.

(** The names in the registry. *)
Definition tool_names : list string :=
  ["search_web"; "list_files"; "read_file"; "write_file";
   "execute_shell_command"].

(** The call of the registered tool [name] with the keyword arguments
    [kwargs] binds: the body of the tool is entered. *)
Definition binds (env : Env) (name : string) (kwargs : value) : Prop :=
  exists f args,
    registry_lookup name (tools env) = Some f
    /\ bind_kwargs f kwargs = Ok args.

(** The object [d] has no key outside [names]. *)
Definition keys_within (d : list (string * value)) (names : list string)
  : Prop :=
  forall k, In k (map fst d) -> In k names.

(** The prompt of the confirmation refuses the line and asks again. *)
Definition refuses (line : string) : Prop :=
  Rich.accepted ["y"; "n"] line = false.

(** ** Texts with fence markers *)

(** The two markers that the extraction deletes. *)
Inductive fence : Type := Tagged | Bare.

Definition marker (f : fence) : string :=
  match f with
  | Tagged => "```json"
  | Bare => "```"
  end.

(** The text that begins with [first] and goes on with a marker and a
    piece of text for each entry of [more]. *)
Fixpoint woven (first : string) (more : list (fence * string)) : string :=
  match more with
  | [] => first
  | (f, piece) :: more' => first ++ marker f ++ woven piece more'
  end.

(** The same text without its markers. *)
Fixpoint unfenced (first : string) (more : list (fence * string)) : string :=
  match more with
  | [] => first
  | (_, piece) :: more' => first ++ unfenced piece more'
  end.

(** A piece of text without a backtick. *)
Definition ticks_free (piece : string) : Prop :=
  PyStr.contains "`" piece = false.

(** No piece has a backtick, and no piece behind a bare marker begins with
    [json], which would make the marker a tagged one. *)
Definition well_woven (first : string) (more : list (fence * string)) : Prop :=
  ticks_free first
  /\ Forall (fun fp : fence * string =>
               ticks_free (snd fp)
               /\ (fst fp = Bare -> PyStr.startswith "json" (snd fp) = false))
       more.

(** A string without white space. *)
Fixpoint spaceless (s : string) : bool :=
  match s with
  | EmptyString => true
  | String c s' => negb (PyStr.isspace c) && spaceless s'
  end.

(** ** Notions used in the proofs *)

(** A woven text without its tagged markers. *)
Fixpoint bare_only (first : string) (more : list (fence * string)) : string :=
  match more with
  | [] => first
  | (Tagged, piece) :: more' => first ++ bare_only piece more'
  | (Bare, piece) :: more' => first ++ "```" ++ bare_only piece more'
  end.

(** A computation that adds no event. *)
Definition silent {A} (m : M A) : Prop := forall tr, fst (m tr) = tr.

(** The outside world raises subclasses of [Exception] only. *)
Definition raises_Exceptions_only (env : Env) : Prop :=
  (forall tr v e, ddgs_text env tr v = Raise e -> is_Exception e = true)
  /\ (forall tr v e, os_path_isdir env tr v = Raise e -> is_Exception e = true)
  /\ (forall tr v e, os_listdir env tr v = Raise e -> is_Exception e = true)
  /\ (forall v f e, os_path_join env v f = Raise e -> is_Exception e = true)
  /\ (forall v e, os_path_dirname env v = Raise e -> is_Exception e = true)
  /\ (forall tr d e, os_makedirs env tr d = Raise e -> is_Exception e = true)
  /\ (forall tr v e, open_read env tr v = Raise e -> is_Exception e = true)
  /\ (forall tr v c e, open_write env tr v c = Raise e -> is_Exception e = true)
  /\ (forall tr v e, subprocess_run env tr v = Raise e -> is_Exception e = true).

(** A computation that raises subclasses of [Exception] only. *)
Definition tame {A} (m : M A) : Prop :=
  forall tr tr' e, m tr = (tr', Raise e) -> is_Exception e = true.

Definition tick : ascii := "`"%char.

(** The number of backticks at the head of a string. *)
Fixpoint lead (s : string) : nat :=
  match s with
  | String c s' => if Ascii.eqb tick c then S (lead s') else 0
  | EmptyString => 0
  end.

(** ** Scripted environments for the examples *)

Module Script.

(** The lines that are left of [lines] when [k] confirmations have been
    answered. *)
Fixpoint left_after (k : nat) (lines : list string) : list string :=
  match k with
  | O => lines
  | S k' => left_after k' (Rich.unread ["y"; "n"] lines)
  end.

(** The completion service answers its [i]-th message with the [i]-th of
    [responses] (and with the last one from then on); the operator types
    the lines [answers] one after the other at the confirmations, and an
    empty line when they are used up; the console is the one of [Rich]; the
    file system is empty and a command prints nothing. *)
Definition env (responses answers : list string) : Env :=
  {| send_message := fun tr _ =>
       Ok (nth (count is_sent tr - 1) responses (last responses ""));
     console_print := Rich.print;
     typed := fun tr => (left_after (count is_asked tr - 1) answers ++ [""])%list;
     ddgs_text := fun _ _ => Ok [];
     os_path_isdir := fun _ _ => Ok false;
     os_listdir := fun _ _ => Ok [];
     os_path_join := fun _ f => Ok f;
     os_path_dirname := fun _ => Ok "";
     os_makedirs := fun _ _ => Ok tt;
     open_read := fun _ _ => Raise (Exn FileNotFoundError "No such file or directory");
     open_write := fun _ _ _ => Ok tt;
     subprocess_run := fun _ _ =>
       Ok {| stdout := ""; stderr := ""; returncode := 0 |} |}.

(** [agent.run(user_prompt, tui)] with the deserializer of the model, from
    an empty trace. *)
Definition run (responses answers : list string) (user_prompt : string)
  : list event * result value :=
  run (env responses answers) Json.loads user_prompt [].

(** A completion service that gives the same answer to every message. *)
Definition always (response : string) : Env :=
  {| send_message := fun _ _ => Ok response;
     console_print := console_print (env [] []);
     typed := typed (env [] []);
     ddgs_text := ddgs_text (env [] []);
     os_path_isdir := os_path_isdir (env [] []);
     os_listdir := os_listdir (env [] []);
     os_path_join := os_path_join (env [] []);
     os_path_dirname := os_path_dirname (env [] []);
     os_makedirs := os_makedirs (env [] []);
     open_read := open_read (env [] []);
     open_write := open_write (env [] []);
     subprocess_run := subprocess_run (env [] []) |}.

(** Responses of the completion service used below. *)
Definition final_done : string :=
  Json.q "{'thought': 'ok', 'final_answer': 'done'}".

Definition both_fields : string :=
  Json.q "{'action': {'tool': 'list_files', 'args': {}}, 'final_answer': 'done'}".

Definition neither_field : string := Json.q "{'thought': 'hmm'}".

Definition fenced_final : string :=
  Json.q ("```json" ++ nl ++ "{'final_answer': 'done'}" ++ nl ++ "```").

Definition with_commentary : string :=
  Json.q "Here is my answer: ```json {'final_answer': 'done'} ```".

Definition fence_in_payload : string :=
  Json.q "{'final_answer': 'run ```make``` first'}".

Definition ask_shell : string :=
  Json.q "{'action': {'tool': 'execute_shell_command', 'args': {'command': 'ls'}}}".

Definition ask_write : string :=
  Json.q "{'action': {'tool': 'write_file', 'args': {'filepath': 'a.txt', 'content': 'hi'}}}".

Definition ask_list : string :=
  Json.q "{'thought': 'look', 'action': {'tool': 'list_files', 'args': {}}}".

Definition ask_unknown : string :=
  Json.q "{'action': {'tool': 'delete_file', 'args': {'filepath': 'a.txt'}}}".

Definition ask_read_wrong_keyword : string :=
  Json.q "{'action': {'tool': 'read_file', 'args': {'path': 'notes.txt'}}}".

Definition final_like_exhaustion : string :=
  Json.q "{'final_answer': 'Agent could not complete the task within the maximum number of iterations.'}".

End Script.

(** ** More cases for the examples *)

Module Cases.

(** An environment like [Script.env] whose completion service cannot be
    reached. *)
Definition offline : Env :=
  {| send_message := fun _ _ =>
       Raise (Exn OtherException "503 Service Unavailable");
     console_print := console_print (Script.env [] []);
     typed := typed (Script.env [] []);
     ddgs_text := ddgs_text (Script.env [] []);
     os_path_isdir := os_path_isdir (Script.env [] []);
     os_listdir := os_listdir (Script.env [] []);
     os_path_join := os_path_join (Script.env [] []);
     os_path_dirname := os_path_dirname (Script.env [] []);
     os_makedirs := os_makedirs (Script.env [] []);
     open_read := open_read (Script.env [] []);
     open_write := open_write (Script.env [] []);
     subprocess_run := subprocess_run (Script.env [] []) |}.

Definition a_list : string := "[1, 2]".

Definition action_is_a_string : string :=
  Json.q "{'thought': 'list', 'action': 'list_files'}".

Definition tool_is_a_list : string :=
  Json.q "{'action': {'tool': ['read_file'], 'args': {}}}".

Definition tool_is_missing : string :=
  Json.q "{'action': {'args': {'filepath': 'a.txt'}}}".

End Cases.

(** ** Invariants of the trace *)

Definition is_called (e : event) : bool :=
  match e with Called _ _ => true | _ => false end.

(** The events [pre] end with the question about [name] and [args], and the
    prompt handed back [y] (or [Y], which [lower] would turn into it). *)
Definition approved_at (env : Env) (pre : list event) (name : string)
  (args : value) : Prop :=
  exists before confirm,
    pre = (before ++ [Asked (VStr name) args])%list
    /\ Prompt_ask env pre = Ok confirm
    /\ (confirm = "y" \/ confirm = "Y").

(** Every call of a dangerous tool stands right behind its approved
    question. *)
Definition guarded (env : Env) (tr : list event) : Prop :=
  forall pre post name args,
    tr = (pre ++ Called (VStr name) args :: post)%list ->
    In name dangerous_tools ->
    approved_at env pre name args.

(** Every question is about a dangerous tool and every call is a call of a
    registered tool. *)
Definition well_addressed (tr : list event) : Prop :=
  (forall t a, In (Asked t a) tr ->
               exists name, t = VStr name /\ In name dangerous_tools)
  /\ (forall t a, In (Called t a) tr ->
                  exists name, t = VStr name /\ In name tool_names).

(** The messages that the loop writes itself. *)
Definition feedback (q : string) : Prop :=
  q = invalid_json_prompt \/ q = invalid_response_prompt
  \/ PyStr.startswith "Observation: " q = true.

(** The events that one dispatch can add to the events [tr]. *)
Inductive dispatched (env : Env) (tr : list event) : list event -> Prop :=
| dispatched_nothing : dispatched env tr []
| dispatched_denied name args :
    In name dangerous_tools ->
    dispatched env tr [Asked (VStr name) args]
| dispatched_approved name args confirm :
    In name dangerous_tools ->
    Prompt_ask env (tr ++ [Asked (VStr name) args])%list = Ok confirm ->
    confirm = "y" \/ confirm = "Y" ->
    dispatched env tr [Asked (VStr name) args; Called (VStr name) args]
| dispatched_safe name args :
    In name tool_names ->
    ~ In name dangerous_tools ->
    dispatched env tr [Called (VStr name) args].

(** A string of white space only. *)
Fixpoint blank (s : string) : bool :=
  match s with
  | EmptyString => true
  | String c s' => PyStr.isspace c && blank s'
  end.

Module Cases2.

(** An environment like [Script.env] in which every command runs into the
    time limit. *)
Definition hanging (responses answers : list string) : Env :=
  {| send_message := send_message (Script.env responses answers);
     console_print := console_print (Script.env responses answers);
     typed := typed (Script.env responses answers);
     ddgs_text := ddgs_text (Script.env responses answers);
     os_path_isdir := os_path_isdir (Script.env responses answers);
     os_listdir := os_listdir (Script.env responses answers);
     os_path_join := os_path_join (Script.env responses answers);
     os_path_dirname := os_path_dirname (Script.env responses answers);
     os_makedirs := os_makedirs (Script.env responses answers);
     open_read := open_read (Script.env responses answers);
     open_write := open_write (Script.env responses answers);
     subprocess_run := fun _ _ =>
       Raise (Exn TimeoutExpired
                "Command 'ls' timed out after 60 seconds") |}.

Definition ask_read : string :=
  Json.q "{'action': {'tool': 'read_file', 'args': {'filepath': 'notes.txt'}}}".

End Cases2.

Module Cases3.

(** An environment like [Script.env] in which every command fails with
    exit code 2 and a line on its error stream. *)
Definition failing (responses answers : list string) : Env :=
  {| send_message := send_message (Script.env responses answers);
     console_print := console_print (Script.env responses answers);
     typed := typed (Script.env responses answers);
     ddgs_text := ddgs_text (Script.env responses answers);
     os_path_isdir := os_path_isdir (Script.env responses answers);
     os_listdir := os_listdir (Script.env responses answers);
     os_path_join := os_path_join (Script.env responses answers);
     os_path_dirname := os_path_dirname (Script.env responses answers);
     os_makedirs := os_makedirs (Script.env responses answers);
     open_read := open_read (Script.env responses answers);
     open_write := open_write (Script.env responses answers);
     subprocess_run := fun _ _ =>
       Ok {| stdout := "";
             stderr := "ls: cannot access 'x': No such file or directory" ++ nl;
             returncode := 2 |} |}.

End Cases3.

Module Cases4.

(** An environment like [Script.env] whose current directory holds the
    directory [src] and two files. *)
Definition project : Env :=
  {| send_message := send_message (Script.env [] []);
     console_print := console_print (Script.env [] []);
     typed := typed (Script.env [] []);
     ddgs_text := ddgs_text (Script.env [] []);
     os_path_isdir := fun _ v =>
       Ok match v with
          | VStr s => String.eqb s "." || String.eqb s "src"
          | _ => false
          end;
     os_listdir := fun _ _ => Ok ["src"; "main.py"; "README.md"];
     os_path_join := os_path_join (Script.env [] []);
     os_path_dirname := os_path_dirname (Script.env [] []);
     os_makedirs := os_makedirs (Script.env [] []);
     open_read := open_read (Script.env [] []);
     open_write := open_write (Script.env [] []);
     subprocess_run := subprocess_run (Script.env [] []) |}.

End Cases4.

(** ** cli/ui.py and main.py: the session *)

Section Session.

Variable env : Env.
Variable loads : string -> result value.

(** [self.console.print(Markdown(response))]: what rich makes of the
    response; nothing else of the console is modelled. *)
Variable render : value -> result unit.

(** [prompt.lower() in ["exit", "quit"]] *)
Definition is_exit (prompt : string) : bool :=
  existsb (String.eqb (PyStr.lower prompt)) ["exit"; "quit"].

(** [TUI.start]: [inputs] are the lines that [Prompt.ask] hands back at the
    prompt [You], in order; when they run out the terminal is at its end
    and [Prompt.ask] raises [EOFError].  The value is the list of the
    responses printed as final answers. *)
Fixpoint start (inputs : list string) : M (list value) :=
  match inputs with
  | [] => raise (Exn OtherException "EOF when reading a line")
  | prompt :: rest =>
      if is_exit prompt then ret []
      else
        response <- run env loads prompt ;;
        _ <- lift (render response) ;;
        answers <- start rest ;;
        ret (response :: answers)
  end.

(** What [main] leaves on the console. *)
Inductive outcome : Type :=
| KeyMissing
| Ended (answers : list value)
| Reported (message : string).

(** [ReActAgent.__init__]: the key is read again; [genai] is what
    [genai.configure] and [genai.GenerativeModel] do. *)
Definition ReActAgent_init (api_key : option string) (genai : result unit)
  : result unit :=
  match api_key with
  | None | Some EmptyString =>
      Raise (Exn OtherException
               "GEMINI_API_KEY not found in environment variables.")
  | Some _ => genai
  end.

(** The text of line 27. *)
Definition report_text (e : exn) : string :=
  "[bold red]An error occurred during agent initialization: " ++ exn_str e
  ++ "[/bold red]".

(** [main]: [api_key] is [os.getenv("GEMINI_API_KEY")]. *)
Definition main (api_key : option string) (genai : result unit)
  (inputs : list string) : M outcome :=
  match api_key with
  | None | Some EmptyString => ret KeyMissing
  | Some _ =>
      try_except
        (_ <- lift (ReActAgent_init api_key genai) ;;
         answers <- start inputs ;;
         ret (Ended answers))
        (fun e =>
           if is_Exception e
           then Some (_ <- lift (console_print env (report_text e)) ;;
                      ret (Reported
                             ("An error occurred during agent initialization: "
                              ++ exn_str e)))
           else None)
  end.

End Session.

Module Cases6.

(** Responses whose texts have a closing tag in them. *)
Definition final_behind_tag : string :=
  Json.q "{'thought': '[/b]', 'final_answer': 'done'}".

Definition unknown_behind_tag : string :=
  Json.q "{'thought': '[/b]', 'action': {'tool': 'delete_file', 'args': {}}}".

Definition ask_shell_with_tag : string :=
  Json.q "{'action': {'tool': 'execute_shell_command', 'args': {'command': 'ls [/etc]'}}}".

Definition prose_with_tag : string := "see [/INST] no json".

Definition ask_read_with_tag_key : string :=
  Json.q "{'action': {'tool': 'read_file', 'args': {'[/x]': 1}}}".

End Cases6.

Module Cases5.

(** A console that renders every response. *)
Definition plain (response : value) : result unit := Ok tt.

End Cases5.

(** * Examples *)

Example strip_ex :
  PyStr.strip (String (ascii_of_nat 10) "  a b  ") = "a b".
Proof. reflexivity. Qed.

Example replace_ex1 : PyStr.replace "```" "" "a```b``````c``" = "abc``".
Proof. reflexivity. Qed.

Example replace_ex2 : PyStr.replace "aa" "b" "aaaaa" = "bba".
Proof. reflexivity. Qed.

Example replace_ex3 : PyStr.replace "" "-" "abc" = "-a-b-c-".
Proof. reflexivity. Qed.

Example lower_ex : PyStr.lower "Yes, OK" = "yes, ok".
Proof. reflexivity. Qed.

Example py_str_ex :
  py_str (VList [VStr "ab"; VInt (-3); VDict [("k", VNone)]])
  = "['ab', -3, {'k': None}]".
Proof. reflexivity. Qed.

Example loads_ex1 :
  Json.loads (Json.q " {'thought': 'x', 'action': {'tool': 'list_files', 'args': {}}} ")
  = Ok (VDict [("thought", VStr "x");
               ("action", VDict [("tool", VStr "list_files");
                                 ("args", VDict [])])]).
Proof. reflexivity. Qed.

Example loads_ex2 :
  Json.loads (Json.q "[1, -20, 1.5e3, true, null, 'a\nb', {'k': 1, 'k': 2}]")
  = Ok (VList [VInt 1; VInt (-20); VFloat "1.5e3"; VBool true; VNone;
               VStr ("a" ++ String (ascii_of_nat 10) "b");
               VDict [("k", VInt 2)]]).
Proof. reflexivity. Qed.

Example loads_ex3 : Json.loads "I will now write the file"
                    = Raise (Exn JSONDecodeError "Expecting value").
Proof. reflexivity. Qed.

Example loads_ex4 : Json.loads (Json.q "{'a': 1} trailing")
                    = Raise (Exn JSONDecodeError "Extra data").
Proof. reflexivity. Qed.

Example loads_ex5 : Json.loads (Json.q "{'a': 1,}")
                    = Raise (Exn JSONDecodeError
                               "Expecting property name enclosed in double quotes").
Proof. reflexivity. Qed.

Example markup_ex1 :
  Rich.print "[bold green]Thought:[/bold green] list the [src] files" = Ok tt.
Proof. reflexivity. Qed.

Example markup_ex2 :
  Rich.print "[bold green]Thought:[/bold green] see [/b]"
  = Raise (Exn MarkupError
             "closing tag '[/b]' at position 38 doesn't match any open tag").
Proof. reflexivity. Qed.

Example markup_ex3 : Rich.print "a \[/b] and [i]b[/]" = Ok tt.
Proof. reflexivity. Qed.

Example ask_ex1 : Rich.ask ["y"; "n"] "n" ["maybe"; "Y"; " y "] = Ok "y".
Proof. reflexivity. Qed.

Example ask_ex2 : Rich.ask ["y"; "n"] "n" ["maybe"; ""; "y"] = Ok "n".
Proof. reflexivity. Qed.

(** * Properties of the loop *)

(** ** One pass through the loop, case by case *)

Section Iteration.

Variable env : Env.
Variable loads : string -> result value.

Lemma iteration_act tr p v :
  answers_with env loads tr p v ->
  iteration env loads p tr = act env v (tr ++ [Sent p])%list.
Proof.
  intros [text [Hsend Hload]].
  unfold iteration, bind, emit, consult, try_except, lift, ret.
  rewrite Hsend, Hload. reflexivity.
Qed.

(** An object whose thought is printed: the pass goes on to its fields. *)
Lemma act_shown d tr :
  thought_shown env d ->
  act env (VDict d) tr
  = (has_final_answer <- lift (py_contains "final_answer" (VDict d)) ;;
     if has_final_answer : bool
     then
       answer <- lift (py_getitem (VDict d) "final_answer") ;;
       ret (Return answer)
     else
       has_action <- lift (py_contains "action" (VDict d)) ;;
       if has_action : bool
       then
         action <- lift (py_get (VDict d) "action" (VDict [])) ;;
         tool_name <- lift (py_get action "tool" VNone) ;;
         tool_args <- lift (py_get action "args" (VDict [])) ;;
         observation <- dispatch env tool_name tool_args ;;
         ret (Continue ("Observation: " ++ observation))
       else ret (Continue invalid_response_prompt)) tr.
Proof.
  intros Hshown. unfold thought_shown in Hshown.
  unfold act at 1. unfold bind at 1 2. unfold lift at 1 2.
  cbn [py_get]. rewrite Hshown. reflexivity.
Qed.

(** An object whose thought the console refuses: the pass ends there. *)
Lemma act_thought_raises d e tr :
  show_thought env (dict_get "thought" VNone d) = Raise e ->
  act env (VDict d) tr = (tr, Raise e).
Proof.
  intros Hshown.
  unfold act at 1. unfold bind at 1 2. unfold lift at 1 2.
  cbn [py_get]. rewrite Hshown. reflexivity.
Qed.

Lemma act_final_answer d answer tr :
  thought_shown env d ->
  dict_lookup "final_answer" d = Some answer ->
  act env (VDict d) tr = (tr, Ok (Return answer)).
Proof.
  intros Hshown H. rewrite (act_shown _ _ Hshown).
  unfold bind, lift, ret, py_contains, py_getitem, dict_has; cbn.
  rewrite H. reflexivity.
Qed.

Lemma act_neither d tr :
  thought_shown env d ->
  dict_lookup "final_answer" d = None ->
  dict_lookup "action" d = None ->
  act env (VDict d) tr = (tr, Ok (Continue invalid_response_prompt)).
Proof.
  intros Hshown Hf Ha. rewrite (act_shown _ _ Hshown).
  unfold bind, lift, ret, py_contains, dict_has; cbn.
  rewrite Hf, Ha. reflexivity.
Qed.

Lemma act_action d action tr :
  thought_shown env d ->
  dict_lookup "final_answer" d = None ->
  dict_lookup "action" d = Some (VDict action) ->
  act env (VDict d) tr =
  (observation <- dispatch env (tool_of action) (args_of action) ;;
   ret (Continue ("Observation: " ++ observation))) tr.
Proof.
  intros Hshown Hf Ha. rewrite (act_shown _ _ Hshown).
  unfold bind, lift, ret, py_contains, py_get, dict_has, dict_get; cbn.
  rewrite Hf, Ha. reflexivity.
Qed.

Lemma iteration_requests tr p action :
  requests env loads tr p action ->
  iteration env loads p tr =
  (observation <- dispatch env (tool_of action) (args_of action) ;;
   ret (Continue ("Observation: " ++ observation))) (tr ++ [Sent p])%list.
Proof.
  intros [d [Hans [Hshown [Hf Ha]]]].
  rewrite (iteration_act _ _ _ Hans). now apply act_action.
Qed.

(** What [run_loop] does with the outcome of its first pass. *)
Lemma run_loop_return n p tr tr' answer :
  iteration env loads p tr = (tr', Ok (Return answer)) ->
  run_loop env loads (S n) p tr = (tr', Ok answer).
Proof. intros H. cbn. unfold bind. rewrite H. reflexivity. Qed.

Lemma run_loop_continue n p tr tr' p' :
  iteration env loads p tr = (tr', Ok (Continue p')) ->
  run_loop env loads (S n) p tr = run_loop env loads n p' tr'.
Proof. intros H. cbn. unfold bind. rewrite H. reflexivity. Qed.

Lemma run_loop_raise n p tr tr' e :
  iteration env loads p tr = (tr', Raise e) ->
  run_loop env loads (S n) p tr = (tr', Raise e).
Proof. intros H. cbn. unfold bind. rewrite H. reflexivity. Qed.

Lemma run_loop_unfold n p tr :
  run_loop env loads (S n) p tr
  = match iteration env loads p tr with
    | (tr', Ok (Continue p')) => run_loop env loads n p' tr'
    | (tr', Ok (Return answer)) => (tr', Ok answer)
    | (tr', Raise e) => (tr', Raise e)
    end.
Proof.
  cbn [run_loop]. unfold bind.
  destruct (iteration env loads p tr) as [tr' [[p' | a] | e]]; reflexivity.
Qed.

End Iteration.
(** ** The tools leave the trace alone *)

Lemma silent_eq {A} (m : M A) tr : silent m -> m tr = (tr, snd (m tr)).
Proof.
  intros H. specialize (H tr). destruct (m tr) as [tr' r]. cbn in *.
  now subst.
Qed.

Lemma silent_ret {A} (a : A) : silent (ret a).
Proof. intros tr. reflexivity. Qed.

Lemma silent_raise {A} (e : exn) : silent (@raise A e).
Proof. intros tr. reflexivity. Qed.

Lemma silent_lift {A} (r : result A) : silent (lift r).
Proof. intros tr. reflexivity. Qed.

Lemma silent_consult {A} (oracle : list event -> result A) :
  silent (consult oracle).
Proof. intros tr. reflexivity. Qed.

Lemma silent_bind {A B} (m : M A) (k : A -> M B) :
  silent m -> (forall a, silent (k a)) -> silent (bind m k).
Proof.
  intros Hm Hk tr. unfold bind.
  specialize (Hm tr). destruct (m tr) as [tr' [a | e]]; cbn in *; subst.
  - apply Hk.
  - reflexivity.
Qed.

Lemma silent_try_except {A} (body : M A) handler :
  silent body ->
  (forall e h, handler e = Some h -> silent h) ->
  silent (try_except body handler).
Proof.
  intros Hb Hh tr. unfold try_except.
  specialize (Hb tr). destruct (body tr) as [tr' [a | e]]; cbn in *; subst.
  - reflexivity.
  - destruct (handler e) as [h |] eqn:E.
    + apply (Hh _ _ E).
    + reflexivity.
Qed.

Lemma silent_except_Exception {A} (f : exn -> A) e h :
  except_Exception f e = Some h -> silent h.
Proof.
  unfold except_Exception. destruct (is_Exception e); intros H; inversion H.
  apply silent_ret.
Qed.

Section ToolsSilent.

Variable env : Env.

Lemma silent_search_web query : silent (search_web env query).
Proof.
  unfold search_web. apply silent_try_except.
  - apply silent_bind; [apply silent_consult |].
    intros [| r rs]; [apply silent_ret |].
    apply silent_bind; [apply silent_lift | intros; apply silent_ret].
  - intros e h. apply silent_except_Exception.
Qed.

Lemma silent_mark_directories directory files :
  silent (mark_directories env directory files).
Proof.
  induction files as [| f rest IH]; cbn.
  - apply silent_ret.
  - apply silent_bind; [apply silent_lift | intros path].
    apply silent_bind; [apply silent_consult | intros isdir].
    apply silent_bind; [exact IH | intros; apply silent_ret].
Qed.

Lemma silent_list_files directory : silent (list_files env directory).
Proof.
  unfold list_files. apply silent_try_except.
  - apply silent_bind; [apply silent_consult | intros isdir].
    destruct (negb isdir); [apply silent_ret |].
    apply silent_bind; [apply silent_consult | intros files].
    destruct files; [apply silent_ret |].
    apply silent_bind; [apply silent_mark_directories | intros; apply silent_ret].
  - intros e h. apply silent_except_Exception.
Qed.

Lemma silent_read_file filepath : silent (read_file env filepath).
Proof.
  unfold read_file. apply silent_try_except.
  - apply silent_consult.
  - intros e h. destruct (is_a FileNotFoundError e).
    + intros H; inversion H. apply silent_ret.
    + apply silent_except_Exception.
Qed.

Lemma silent_write_file filepath content :
  silent (write_file env filepath content).
Proof.
  unfold write_file. apply silent_try_except.
  - apply silent_bind; [apply silent_lift | intros directory].
    apply silent_bind.
    + destruct (String.eqb directory ""); [apply silent_ret | apply silent_consult].
    + intros _. apply silent_bind; [apply silent_consult | intros; apply silent_ret].
  - intros e h. apply silent_except_Exception.
Qed.

Lemma silent_execute_shell_command command :
  silent (execute_shell_command env command).
Proof.
  unfold execute_shell_command. apply silent_try_except.
  - apply silent_bind; [apply silent_consult | intros result].
    cbv zeta.
    destruct (String.eqb (stdout result) "" && String.eqb (stderr result) "");
      apply silent_ret.
  - intros e h. destruct (is_a TimeoutExpired e).
    + intros H; inversion H. apply silent_ret.
    + apply silent_except_Exception.
Qed.

(** Every function of the registry is one of the five tools. *)
Lemma registry_lookup_cases name f :
  registry_lookup name (tools env) = Some f ->
  In name tool_names /\ forall a, silent (fn_body f a).
Proof.
  unfold tools, tool_names. cbn.
  repeat match goal with
         | |- context [String.eqb name ?k] =>
             destruct (String.eqb_spec name k) as [-> | ?]
         end;
    intros H; inversion H; subst; cbn; split; auto 10; intros a.
  - apply silent_search_web.
  - apply silent_list_files.
  - apply silent_read_file.
  - apply silent_write_file.
  - apply silent_execute_shell_command.
Qed.

Lemma registry_lookup_none name :
  registry_lookup name (tools env) = None <-> ~ In name tool_names.
Proof.
  unfold tools, tool_names. cbn.
  repeat match goal with
         | |- context [String.eqb name ?k] =>
             destruct (String.eqb_spec name k) as [-> | ?]
         end;
    (split; [intros H | intros H; try reflexivity]);
    try discriminate; try (exfalso; apply H; cbn; tauto).
  cbn. intros [E | [E | [E | [E | [E | []]]]]]; congruence.
Qed.

Lemma silent_call name f kwargs :
  registry_lookup name (tools env) = Some f -> silent (call f kwargs).
Proof.
  intros H. destruct (registry_lookup_cases _ _ H) as [_ Hf].
  unfold call. apply silent_bind; [apply silent_lift | apply Hf].
Qed.

End ToolsSilent.

(** ** The confirmation prompt and the dispatch, case by case *)

Lemma lower_char_y c :
  PyStr.lower_char c = "y"%char <-> c = "y"%char \/ c = "Y"%char.
Proof.
  split.
  - destruct c as [[] [] [] [] [] [] [] []]; vm_compute; intros H;
      try discriminate; auto.
  - intros [-> | ->]; reflexivity.
Qed.

Lemma lower_is_y confirm :
  PyStr.lower confirm = "y" <-> confirm = "y" \/ confirm = "Y".
Proof.
  split.
  - destruct confirm as [| c [| c' rest]]; cbn; intros H; try discriminate.
    injection H as H. apply lower_char_y in H. destruct H as [-> | ->]; auto.
  - intros [-> | ->]; reflexivity.
Qed.

Section Dispatch.

Variable env : Env.

(** The confirmation: when the console refuses the panel nothing is asked;
    otherwise the question is put and the answer of the prompt decides. *)
Lemma get_user_confirmation_eq tool_name args tr :
  get_user_confirmation env tool_name args tr
  = match console_print env (panel_text tool_name args) with
    | Ok _ =>
        ((tr ++ [Asked tool_name args])%list,
         match Prompt_ask env (tr ++ [Asked tool_name args])%list with
         | Ok confirm => Ok (String.eqb (PyStr.lower confirm) "y")
         | Raise e => Raise e
         end)
    | Raise e => (tr, Raise e)
    end.
Proof.
  unfold get_user_confirmation, bind, lift, emit, consult, ret.
  destruct (console_print env _); [| reflexivity].
  destruct (Prompt_ask env _); reflexivity.
Qed.

(** A confirmation that returns has printed its panel and put its
    question. *)
Lemma get_user_confirmation_returns tool_name args tr (b : bool) :
  snd (get_user_confirmation env tool_name args tr) = Ok b ->
  console_print env (panel_text tool_name args) = Ok tt
  /\ get_user_confirmation env tool_name args tr
     = ((tr ++ [Asked tool_name args])%list, Ok b).
Proof.
  rewrite get_user_confirmation_eq.
  destruct (console_print env _) as [[] | e]; [| discriminate].
  cbn [snd]. intros ->. split; reflexivity.
Qed.

Lemma in_dangerous_registered name :
  In name dangerous_tools ->
  existsb (String.eqb name) dangerous_tools = true
  /\ exists f, registry_lookup name (tools env) = Some f.
Proof.
  cbn. intros [<- | [<- | []]]; split; try reflexivity; eexists; reflexivity.
Qed.

Lemma not_dangerous name :
  ~ In name dangerous_tools ->
  existsb (String.eqb name) dangerous_tools = false.
Proof.
  intros H. cbn.
  destruct (String.eqb_spec name "write_file") as [-> | _];
    [exfalso; apply H; cbn; tauto |].
  destruct (String.eqb_spec name "execute_shell_command") as [-> | _];
    [exfalso; apply H; cbn; tauto |].
  reflexivity.
Qed.

Lemma dispatch_unknown name args tr :
  ~ In name tool_names ->
  dispatch env (VStr name) args tr
  = (tr, Ok ("Error: Tool '" ++ name ++ "' not found.")).
Proof.
  intros H. apply registry_lookup_none with (env := env) in H.
  unfold dispatch, bind, lift, in_tools. rewrite H. reflexivity.
Qed.

(** The dispatch of a dangerous tool, by the outcome of the confirmation. *)
Lemma dispatch_dangerous name args tr f :
  In name dangerous_tools ->
  registry_lookup name (tools env) = Some f ->
  dispatch env (VStr name) args tr
  = match get_user_confirmation env (VStr name) args tr with
    | (tr', Ok true) =>
        ((tr' ++ [Called (VStr name) args])%list,
         snd (call f args (tr' ++ [Called (VStr name) args])%list))
    | (tr', Ok false) =>
        (tr', Ok ("User denied permission for tool '" ++ name ++ "'."))
    | (tr', Raise e) => (tr', Raise e)
    end.
Proof.
  intros Hd Hf. destruct (in_dangerous_registered _ Hd) as [Hex _].
  unfold dispatch, bind at 1, lift, in_tools, in_dangerous_tools.
  rewrite Hf, Hex. unfold bind at 1.
  destruct (get_user_confirmation env (VStr name) args tr)
    as [tr' [[] | e]]; try reflexivity.
  cbn [negb]. unfold bind, emit.
  apply silent_eq, (silent_call env name f args Hf).
Qed.

Lemma dispatch_denied name args tr :
  In name dangerous_tools ->
  snd (get_user_confirmation env (VStr name) args tr) = Ok false ->
  dispatch env (VStr name) args tr
  = ((tr ++ [Asked (VStr name) args])%list,
     Ok ("User denied permission for tool '" ++ name ++ "'.")).
Proof.
  intros Hd Hgate. destruct (in_dangerous_registered _ Hd) as [_ [f Hf]].
  rewrite (dispatch_dangerous _ _ _ _ Hd Hf).
  destruct (get_user_confirmation_returns _ _ _ _ Hgate) as [_ ->].
  reflexivity.
Qed.

Lemma dispatch_approved name args tr f :
  In name dangerous_tools ->
  registry_lookup name (tools env) = Some f ->
  snd (get_user_confirmation env (VStr name) args tr) = Ok true ->
  dispatch env (VStr name) args tr
  = ((tr ++ [Asked (VStr name) args; Called (VStr name) args])%list,
     snd (call f args
            (tr ++ [Asked (VStr name) args; Called (VStr name) args])%list)).
Proof.
  intros Hd Hf Hgate.
  rewrite (dispatch_dangerous _ _ _ _ Hd Hf).
  destruct (get_user_confirmation_returns _ _ _ _ Hgate) as [_ ->].
  rewrite <- app_assoc. reflexivity.
Qed.

Lemma dispatch_gate_raises name args tr e :
  In name dangerous_tools ->
  snd (get_user_confirmation env (VStr name) args tr) = Raise e ->
  dispatch env (VStr name) args tr
  = (fst (get_user_confirmation env (VStr name) args tr), Raise e).
Proof.
  intros Hd Hgate. destruct (in_dangerous_registered _ Hd) as [_ [f Hf]].
  rewrite (dispatch_dangerous _ _ _ _ Hd Hf).
  destruct (get_user_confirmation env (VStr name) args tr) as [tr' r].
  cbn [fst snd] in *. now subst.
Qed.

Lemma dispatch_safe name args tr f :
  ~ In name dangerous_tools ->
  registry_lookup name (tools env) = Some f ->
  dispatch env (VStr name) args tr
  = ((tr ++ [Called (VStr name) args])%list,
     snd (call f args (tr ++ [Called (VStr name) args])%list)).
Proof.
  intros Hd Hf. apply not_dangerous in Hd.
  unfold dispatch, bind, lift, in_tools, in_dangerous_tools.
  rewrite Hf, Hd. cbn -[call]. unfold emit.
  apply silent_eq, (silent_call env name f args Hf).
Qed.

End Dispatch.

Section Observations.

Variable env : Env.
Variable loads : string -> result value.

Lemma iteration_observation tr p action tr' observation :
  requests env loads tr p action ->
  dispatch env (tool_of action) (args_of action) (tr ++ [Sent p])%list
  = (tr', Ok observation) ->
  iteration env loads p tr = (tr', Ok (Continue ("Observation: " ++ observation))).
Proof.
  intros Hreq Hd. rewrite (iteration_requests _ _ _ _ _ Hreq).
  unfold bind. rewrite Hd. reflexivity.
Qed.

Lemma iteration_dispatch_raises tr p action tr' e :
  requests env loads tr p action ->
  dispatch env (tool_of action) (args_of action) (tr ++ [Sent p])%list
  = (tr', Raise e) ->
  iteration env loads p tr = (tr', Raise e).
Proof.
  intros Hreq Hd. rewrite (iteration_requests _ _ _ _ _ Hreq).
  unfold bind. rewrite Hd. reflexivity.
Qed.

End Observations.

Lemma startswith_append p s : PyStr.startswith p (p ++ s) = true.
Proof.
  induction p as [| c p IH]; cbn; [reflexivity |].
  now rewrite Ascii.eqb_refl.
Qed.

Lemma contains_append a p s : PyStr.contains p (a ++ p ++ s) = true.
Proof.
  induction a as [| c a IH]; cbn [append].
  - destruct (p ++ s) eqn:E; cbn; rewrite <- E, startswith_append; reflexivity.
  - cbn [PyStr.contains]. rewrite IH. apply orb_true_r.
Qed.

(** ** What one pass adds to the trace *)

Section Gate.

Variable env : Env.
Variable loads : string -> result value.

Lemma iteration_trace tr p action :
  requests env loads tr p action ->
  fst (iteration env loads p tr)
  = fst (dispatch env (tool_of action) (args_of action) (tr ++ [Sent p])%list).
Proof.
  intros Hreq. rewrite (iteration_requests _ _ _ _ _ Hreq). unfold bind.
  destruct (dispatch env _ _ _) as [tr' [o | e]]; reflexivity.
Qed.

(** The trace of the dispatch of a dangerous tool: nothing when the console
    refuses the panel; otherwise the question, and the call behind it
    exactly when the confirmation returned [True]. *)
Lemma dispatch_dangerous_trace name args tr :
  In name dangerous_tools ->
  fst (dispatch env (VStr name) args tr)
  = match console_print env (panel_text (VStr name) args) with
    | Ok _ =>
        (tr ++ Asked (VStr name) args ::
           match snd (get_user_confirmation env (VStr name) args tr) with
           | Ok true => [Called (VStr name) args]
           | _ => []
           end)%list
    | Raise _ => tr
    end.
Proof.
  intros Hd. destruct (in_dangerous_registered env _ Hd) as [_ [f Hf]].
  rewrite (dispatch_dangerous env _ _ _ _ Hd Hf).
  rewrite get_user_confirmation_eq.
  destruct (console_print env _) as [[] | e]; [| reflexivity].
  destruct (Prompt_ask env _) as [confirm | e]; [| reflexivity].
  destruct (String.eqb (PyStr.lower confirm) "y"); cbn [fst snd];
    [now rewrite <- app_assoc | reflexivity].
Qed.

Lemma dispatch_safe_trace name args tr :
  In name tool_names ->
  ~ In name dangerous_tools ->
  fst (dispatch env (VStr name) args tr)
  = (tr ++ [Called (VStr name) args])%list.
Proof.
  intros Hin Hd.
  destruct (registry_lookup name (tools env)) as [f |] eqn:Hf.
  - rewrite (dispatch_safe env _ _ _ _ Hd Hf). reflexivity.
  - apply registry_lookup_none in Hf. contradiction.
Qed.

Lemma dispatch_events tool_name args tr :
  exists evs,
    fst (dispatch env tool_name args tr) = (tr ++ evs)%list
    /\ dispatched env tr evs.
Proof.
  assert (Hnone : forall r : result string,
             exists evs, fst (tr, r) = (tr ++ evs)%list /\ dispatched env tr evs).
  { intros r. exists []. split; [now rewrite app_nil_r | constructor]. }
  destruct tool_name as [| b | z | t | name | l | d]; try apply Hnone.
  destruct (registry_lookup name (tools env)) as [f |] eqn:Hf.
  - destruct (registry_lookup_cases env _ _ Hf) as [Hin _].
    destruct (in_dec string_dec name dangerous_tools) as [Hd | Hd].
    + rewrite (dispatch_dangerous_trace _ _ _ Hd).
      rewrite get_user_confirmation_eq.
      destruct (console_print env _) as [[] | e0];
        [| exists []; split; [now rewrite app_nil_r | constructor]].
      cbn [snd].
      destruct (Prompt_ask env (tr ++ [Asked (VStr name) args])%list)
        as [confirm | e] eqn:Hask.
      * destruct (String.eqb_spec (PyStr.lower confirm) "y") as [Hy | Hy].
        -- eexists. split; [reflexivity |].
           apply (dispatched_approved _ _ _ _ confirm Hd Hask).
           now apply lower_is_y.
        -- eexists. split; [reflexivity | now constructor].
      * eexists. split; [reflexivity | now constructor].
    + rewrite (dispatch_safe env _ _ _ _ Hd Hf).
      eexists. split; [reflexivity | now constructor].
  - unfold dispatch, bind, lift, in_tools. rewrite Hf. apply Hnone.
Qed.

Lemma act_events v tr :
  exists evs,
    fst (act env v tr) = (tr ++ evs)%list /\ dispatched env tr evs.
Proof.
  assert (Hnone : forall r : result step,
             exists evs, fst (tr, r) = (tr ++ evs)%list /\ dispatched env tr evs).
  { intros r. exists []. split; [now rewrite app_nil_r | constructor]. }
  unfold act, bind, lift, ret.
  destruct (py_get v "thought" VNone) as [thought | e]; [| apply Hnone].
  destruct (show_thought env thought) as [u | e]; [| apply Hnone].
  destruct (py_contains "final_answer" v) as [[] | e]; [| | apply Hnone].
  - destruct (py_getitem v "final_answer"); apply Hnone.
  - destruct (py_contains "action" v) as [[] | e]; try apply Hnone.
    destruct (py_get v "action" (VDict [])) as [action | e]; [| apply Hnone].
    destruct (py_get action "tool" VNone) as [tool_name | e]; [| apply Hnone].
    destruct (py_get action "args" (VDict [])) as [tool_args | e];
      [| apply Hnone].
    destruct (dispatch_events tool_name tool_args tr) as [evs [Hevs Hd]].
    exists evs. split; [| exact Hd].
    destruct (dispatch env tool_name tool_args tr) as [tr' [o | e]];
      exact Hevs.
Qed.

(** One pass adds its message and what one dispatch can add. *)
Lemma iteration_events p tr :
  exists evs,
    fst (iteration env loads p tr) = (tr ++ Sent p :: evs)%list
    /\ dispatched env (tr ++ [Sent p])%list evs.
Proof.
  assert (Hnone : forall A (r : result A),
             exists evs,
               fst ((tr ++ [Sent p])%list, r) = (tr ++ Sent p :: evs)%list
               /\ dispatched env (tr ++ [Sent p])%list evs).
  { intros A r. exists []. split; [reflexivity | constructor]. }
  unfold iteration, bind, emit, consult, try_except, lift, ret.
  destruct (send_message env _ p) as [text | e]; [| apply Hnone].
  destruct (loads (json_text text)) as [v | e].
  - destruct (act_events v (tr ++ [Sent p])%list) as [evs [Hevs Hd]].
    exists evs. split; [| exact Hd].
    cbn [fst snd]. rewrite Hevs, <- app_assoc. reflexivity.
  - destruct (is_a JSONDecodeError e || is_a AttributeError e);
      [| apply Hnone].
    destruct (console_print env _); apply Hnone.
Qed.

(** The prompt that a pass hands to the next one. *)
Lemma iteration_next_prompt p tr tr' p' :
  iteration env loads p tr = (tr', Ok (Continue p')) -> feedback p'.
Proof.
  unfold iteration, bind, emit, consult, try_except, lift, ret, feedback.
  destruct (send_message env _ p) as [text | e]; [| discriminate].
  destruct (loads (json_text text)) as [v | e].
  - unfold act, bind, lift, ret.
    destruct (py_get v "thought" VNone) as [thought | e]; [| discriminate].
    destruct (show_thought env thought) as [u | e]; [| discriminate].
    destruct (py_contains "final_answer" v) as [[] | e]; [| | discriminate].
    + destruct (py_getitem v "final_answer"); discriminate.
    + destruct (py_contains "action" v) as [[] | e]; try discriminate.
      * destruct (py_get v "action" (VDict [])) as [action | e];
          [| discriminate].
        destruct (py_get action "tool" VNone) as [tool_name | e];
          [| discriminate].
        destruct (py_get action "args" (VDict [])) as [tool_args | e];
          [| discriminate].
        destruct (dispatch env tool_name tool_args _) as [tr'' [o | e]];
          [| discriminate].
        intros H. injection H as _ <-. right. right.
        apply (startswith_append "Observation: " o).
      * intros H. injection H as _ <-. right. now left.
  - destruct (is_a JSONDecodeError e || is_a AttributeError e);
      [| discriminate].
    destruct (console_print env _); [| discriminate].
    intros H. injection H as _ <-. now left.
Qed.

(** The events of a run begin with the events before it. *)
Lemma run_loop_extends n : forall p tr,
  exists rest, fst (run_loop env loads n p tr) = (tr ++ rest)%list.
Proof.
  induction n as [| n IH]; intros p tr.
  - exists []. cbn. now rewrite app_nil_r.
  - rewrite run_loop_unfold.
    destruct (iteration_events p tr) as [evs [Hevs _]].
    destruct (iteration env loads p tr) as [tr' [[p' | a] | e]];
      cbn [fst] in Hevs; subst tr'; try (now eexists).
    destruct (IH p' (tr ++ Sent p :: evs)%list) as [rest ->].
    exists ((Sent p :: evs) ++ rest)%list. now rewrite app_assoc.
Qed.

(** A pass that ends with a next prompt: the loop goes on with it. *)
Lemma iteration_goes_on p tr tr' q :
  iteration env loads p tr = (tr', Ok (Continue q)) ->
  goes_on env loads p tr tr' q.
Proof.
  intros H. split; [exact H |]. split.
  - rewrite run_loop_unfold, H. reflexivity.
  - intros n. rewrite (run_loop_unfold _ _ (S n) p tr), H.
    split; [reflexivity |].
    rewrite run_loop_unfold.
    destruct (iteration_events q tr') as [evs [Hevs _]].
    destruct (iteration env loads q tr') as [tr'' [[q' | a] | e]];
      cbn [fst] in Hevs; subst tr''; try (now eexists).
    destruct (run_loop_extends n q' (tr' ++ Sent q :: evs)%list) as [rest ->].
    exists (evs ++ rest)%list.
    now rewrite <- app_assoc.
Qed.

End Gate.

(** ** The shape of a response (C1) and the final answer (C9) *)




(** Claim C1, as the code has it, for an object whose thought the console
    prints: with a [final_answer] it is a final answer also when it has an
    [action], which is then not dispatched; with neither field it is
    answered with the corrective prompt and the loop goes on. *)
Theorem both_is_final_neither_retries env loads n p tr d :
  answers_with env loads tr p (VDict d) ->
  thought_shown env d ->
  (forall answer action,
      dict_lookup "final_answer" d = Some answer ->
      dict_lookup "action" d = Some action ->
      iteration env loads p tr = ((tr ++ [Sent p])%list, Ok (Return answer))
      /\ run_loop env loads (S n) p tr = ((tr ++ [Sent p])%list, Ok answer))
  /\ (dict_lookup "final_answer" d = None ->
      dict_lookup "action" d = None ->
      goes_on env loads p tr (tr ++ [Sent p])%list invalid_response_prompt).
Proof.
  intros Hans Hshown. split.
  - intros answer action Hfinal _.
    assert (Hit : iteration env loads p tr
                  = ((tr ++ [Sent p])%list, Ok (Return answer))).
    { rewrite (iteration_act _ _ _ _ _ Hans). now apply act_final_answer. }
    split; [exact Hit | now apply run_loop_return].
  - intros Hfinal Haction.
    apply iteration_goes_on.
    rewrite (iteration_act _ _ _ _ _ Hans).
    now apply act_neither.
Qed.

Lemma both_is_final_neither_retries_witness :
  goes_on (Script.env [Script.neither_field; Script.both_fields] [])
    Json.loads "goal" [] [Sent "goal"] invalid_response_prompt.
Proof.
  apply (proj2 (both_is_final_neither_retries
                  (Script.env [Script.neither_field; Script.both_fields] [])
                  Json.loads 1 "goal" []
                  [("thought", VStr "hmm")]
                  (ex_intro _ Script.neither_field (conj eq_refl eq_refl))
                  eq_refl));
    reflexivity.
Defined.

(** Counterexample to C1 as stated: a response with both fields is not
    rejected; the iteration returns its [final_answer]. *)
Lemma both_fields_not_rejected :
  Json.loads (json_text Script.both_fields)
  = Ok (VDict [("action", VDict [("tool", VStr "list_files");
                                 ("args", VDict [])]);
               ("final_answer", VStr "done")])
  /\ iteration (Script.env [Script.both_fields] []) Json.loads "goal" []
     = ([Sent "goal"], Ok (Return (VStr "done"))).
Proof. split; reflexivity. Qed.

(** ** Unknown tools (C8), denials (C3), the prompt (C5) *)




(** Claim C3: when a dangerous tool is dispatched and the confirmation
    returns a denial, the tool is not called: the pass adds the message and
    the question to the trace and nothing else, the observation
    [User denied permission for tool '<name>'.] becomes the next prompt,
    and the loop goes on; nothing is raised. *)
Theorem denied_tool_is_not_called env loads p tr action name :
  requests env loads tr p action ->
  tool_of action = VStr name ->
  In name dangerous_tools ->
  snd (get_user_confirmation env (VStr name) (args_of action)
         (tr ++ [Sent p])%list) = Ok false ->
  goes_on env loads p tr
    (tr ++ [Sent p; Asked (VStr name) (args_of action)])%list
    ("Observation: " ++ "User denied permission for tool '" ++ name ++ "'.").
Proof.
  intros Hreq Htool Hd Hgate.
  apply iteration_goes_on.
  apply (iteration_observation _ _ _ _ _ _ _ Hreq).
  rewrite Htool, (dispatch_denied _ _ _ _ Hd Hgate), <- app_assoc.
  reflexivity.
Qed.

Lemma denied_tool_is_not_called_witness :
  goes_on (Script.env [Script.ask_shell; Script.final_done] ["n"]) Json.loads
    "goal" []
    [Sent "goal";
     Asked (VStr "execute_shell_command") (VDict [("command", VStr "ls")])]
    "Observation: User denied permission for tool 'execute_shell_command'.".
Proof.
  apply (denied_tool_is_not_called
           (Script.env [Script.ask_shell; Script.final_done] ["n"]) Json.loads
           "goal" []
           [("tool", VStr "execute_shell_command");
            ("args", VDict [("command", VStr "ls")])]
           "execute_shell_command").
  - exists [("action", VDict [("tool", VStr "execute_shell_command");
                              ("args", VDict [("command", VStr "ls")])])].
    split; [exists Script.ask_shell; split; reflexivity |].
    split; [reflexivity |]. split; reflexivity.
  - reflexivity.
  - cbn. tauto.
  - reflexivity.
Defined.

(** The prompt passes over the lines it refuses. *)
Lemma ask_refused refused lines :
  Forall refuses refused ->
  Rich.ask ["y"; "n"] "n" (refused ++ lines)%list
  = Rich.ask ["y"; "n"] "n" lines.
Proof.
  induction 1 as [| line refused Hline _ IH]; [reflexivity |].
  cbn [app Rich.ask]. unfold refuses, Rich.accepted in Hline.
  apply orb_false_elim in Hline. destruct Hline as [He Hc].
  now rewrite He, Hc.
Qed.

(** The first line that the prompt accepts decides. *)
Lemma ask_accepted line rest :
  Rich.accepted ["y"; "n"] line = true ->
  Rich.ask ["y"; "n"] "n" (line :: rest)
  = Ok (if String.eqb line "" then "n" else PyStr.strip line).
Proof.
  unfold Rich.accepted. cbn [Rich.ask].
  destruct (String.eqb line ""); [reflexivity |].
  cbn [orb]. now intros ->.
Qed.

Lemma strip_empty : PyStr.strip "" = "".
Proof. reflexivity. Qed.

(** What the prompt hands back is [y] or [n], and [y] only for a line that
    is [y] once trimmed, behind refused lines only. *)
Lemma ask_inv lines : forall confirm,
  Rich.ask ["y"; "n"] "n" lines = Ok confirm ->
  exists refused line rest,
    lines = (refused ++ line :: rest)%list
    /\ Forall refuses refused
    /\ Rich.accepted ["y"; "n"] line = true
    /\ confirm = (if String.eqb line "" then "n" else PyStr.strip line)
    /\ (confirm = "y" \/ confirm = "n").
Proof.
  induction lines as [| line lines IH]; intros confirm; [discriminate |].
  destruct (Rich.accepted ["y"; "n"] line) eqn:Hacc.
  - rewrite (ask_accepted _ _ Hacc). intros H. injection H as <-.
    exists [], line, lines. repeat split; [constructor | exact Hacc |].
    unfold Rich.accepted in Hacc.
    destruct (String.eqb line ""); [now right |].
    cbn [orb existsb] in Hacc. rewrite orb_false_r in Hacc.
    apply orb_prop in Hacc.
    destruct Hacc as [H | H]; apply String.eqb_eq in H; rewrite H; auto.
  - change (line :: lines) with ([line] ++ lines)%list.
    rewrite (ask_refused [line] lines); [| now repeat constructor].
    intros H. destruct (IH _ H) as [refused [l [rest [-> [Hr [Ha [Hc Hyn]]]]]]].
    exists (line :: refused), l, rest. repeat split; auto.
Qed.




(** ** Which tools pass the confirmation (C10), and how often (C4) *)

Lemma call_eq f kwargs tr :
  call f kwargs tr
  = match bind_kwargs f kwargs with
    | Ok bound => fn_body f bound tr
    | Raise e => (tr, Raise e)
    end.
Proof. unfold call, bind, lift. now destruct (bind_kwargs f kwargs). Qed.



(** Claim C4: the confirmation keeps no memory.  When an iteration asks for
    a dangerous tool and the run goes on, whether the operator approved or
    denied, and the next iteration asks for the same tool with the same
    arguments, each of the two puts its own question to the operator: the
    trace gains two questions, one behind each of the two messages. *)
Theorem gate_is_consulted_afresh
  env loads p1 tr1 p2 tr2 action1 action2 name args :
  requests env loads tr1 p1 action1 ->
  requests env loads tr2 p2 action2 ->
  tool_of action1 = VStr name -> args_of action1 = args ->
  tool_of action2 = VStr name -> args_of action2 = args ->
  In name dangerous_tools ->
  iteration env loads p1 tr1 = (tr2, Ok (Continue p2)) ->
  (exists rest1 rest2,
      tr2 = (tr1 ++ Sent p1 :: Asked (VStr name) args :: rest1)%list
      /\ fst (iteration env loads p2 tr2)
         = (tr2 ++ Sent p2 :: Asked (VStr name) args :: rest2)%list)
  /\ count is_asked (fst (iteration env loads p2 tr2))
     = 2 + count is_asked tr1.
Proof.
  intros Hreq1 Hreq2 Htool1 Hargs1 Htool2 Hargs2 Hd Hfirst.
  assert (Hpanel : console_print env (panel_text (VStr name) args) = Ok tt).
  { rewrite (iteration_requests _ _ _ _ _ Hreq1), Htool1, Hargs1 in Hfirst.
    unfold bind in Hfirst.
    destruct (in_dangerous_registered env _ Hd) as [_ [f Hf]].
    rewrite (dispatch_dangerous env _ _ _ _ Hd Hf) in Hfirst.
    rewrite get_user_confirmation_eq in Hfirst.
    destruct (console_print env _) as [[] | e]; [reflexivity | discriminate]. }
  pose proof (iteration_trace _ _ _ _ _ Hreq1) as H1.
  pose proof (iteration_trace _ _ _ _ _ Hreq2) as H2.
  rewrite Hfirst in H1. cbn [fst] in H1.
  rewrite Htool1, Hargs1, (dispatch_dangerous_trace env _ _ _ Hd), Hpanel,
    <- app_assoc in H1.
  rewrite Htool2, Hargs2, (dispatch_dangerous_trace env _ _ _ Hd), Hpanel,
    <- app_assoc in H2.
  cbn [app] in H1, H2.
  split.
  - eexists. eexists. split; [exact H1 | exact H2].
  - rewrite H2. rewrite H1 at 1. unfold count.
    rewrite ?filter_app, ?length_app. cbn [filter is_asked length].
    rewrite ?filter_app, ?length_app. cbn [filter is_asked length].
    assert (Hrest : forall r : result bool,
               List.length
                 (filter is_asked
                    match r with
                    | Ok true => [Called (VStr name) args]
                    | _ => []
                    end) = 0%nat).
    { intros [[] | e]; reflexivity. }
    rewrite !Hrest. lia.
Qed.

Lemma gate_is_consulted_afresh_witness :
  (exists rest1 rest2,
      [Sent "goal";
       Asked (VStr "execute_shell_command") (VDict [("command", VStr "ls")]);
       Called (VStr "execute_shell_command") (VDict [("command", VStr "ls")])]
      = ([] ++ Sent "goal"
            :: Asked (VStr "execute_shell_command")
                 (VDict [("command", VStr "ls")]) :: rest1)%list
      /\ fst (iteration (Script.env [Script.ask_shell] ["y"; "y"]) Json.loads
                ("Observation: Command executed successfully with no output."
                 ++ nl ++ "Return Code: 0")
                [Sent "goal";
                 Asked (VStr "execute_shell_command")
                   (VDict [("command", VStr "ls")]);
                 Called (VStr "execute_shell_command")
                   (VDict [("command", VStr "ls")])])
         = ([Sent "goal";
             Asked (VStr "execute_shell_command")
               (VDict [("command", VStr "ls")]);
             Called (VStr "execute_shell_command")
               (VDict [("command", VStr "ls")])]
            ++ Sent ("Observation: Command executed successfully with no output."
                     ++ nl ++ "Return Code: 0")
            :: Asked (VStr "execute_shell_command")
                 (VDict [("command", VStr "ls")]) :: rest2)%list)
  /\ count is_asked
       (fst (iteration (Script.env [Script.ask_shell] ["y"; "y"]) Json.loads
               ("Observation: Command executed successfully with no output."
                ++ nl ++ "Return Code: 0")
               [Sent "goal";
                Asked (VStr "execute_shell_command")
                  (VDict [("command", VStr "ls")]);
                Called (VStr "execute_shell_command")
                  (VDict [("command", VStr "ls")])]))
     = 2 + count is_asked [].
Proof.
  apply (gate_is_consulted_afresh
           (Script.env [Script.ask_shell] ["y"; "y"]) Json.loads
           "goal" []
           ("Observation: Command executed successfully with no output."
            ++ nl ++ "Return Code: 0")
           [Sent "goal";
            Asked (VStr "execute_shell_command")
              (VDict [("command", VStr "ls")]);
            Called (VStr "execute_shell_command")
              (VDict [("command", VStr "ls")])]
           [("tool", VStr "execute_shell_command");
            ("args", VDict [("command", VStr "ls")])]
           [("tool", VStr "execute_shell_command");
            ("args", VDict [("command", VStr "ls")])]
           "execute_shell_command"
           (VDict [("command", VStr "ls")])).
  - exists [("action", VDict [("tool", VStr "execute_shell_command");
                              ("args", VDict [("command", VStr "ls")])])].
    split; [exists Script.ask_shell; split; reflexivity |].
    split; [reflexivity |]. split; reflexivity.
  - exists [("action", VDict [("tool", VStr "execute_shell_command");
                              ("args", VDict [("command", VStr "ls")])])].
    split; [exists Script.ask_shell; split; reflexivity |].
    split; [reflexivity |]. split; reflexivity.
  - reflexivity.
  - reflexivity.
  - reflexivity.
  - reflexivity.
  - cbn. tauto.
  - reflexivity.
Defined.

(** ** The iteration ceiling (C6) *)

Section Counting.

Variable env : Env.
Variable loads : string -> result value.

Lemma count_app f (l1 l2 : list event) :
  count f (l1 ++ l2)%list = count f l1 + count f l2.
Proof. unfold count. now rewrite filter_app, length_app. Qed.

Lemma dispatched_counts tr evs :
  dispatched env tr evs ->
  count is_sent evs = 0 /\ count is_asked evs <= 1 /\ count is_called evs <= 1.
Proof. intros []; cbn; lia. Qed.

Lemma iteration_counts p tr :
  count is_sent (fst (iteration env loads p tr)) = S (count is_sent tr)
  /\ count is_asked (fst (iteration env loads p tr)) <= S (count is_asked tr)
  /\ count is_called (fst (iteration env loads p tr)) <= S (count is_called tr).
Proof.
  destruct (iteration_events env loads p tr) as [evs [-> Hd]].
  apply dispatched_counts in Hd. destruct Hd as [Hs [Ha Hc]].
  change (tr ++ Sent p :: evs)%list with (tr ++ [Sent p] ++ evs)%list.
  rewrite !count_app. cbn [count filter is_sent is_asked is_called length].
  fold (count is_sent evs) (count is_asked evs) (count is_called evs).
  lia.
Qed.

(** One pass through the loop sends exactly one message. *)
Lemma iteration_sends p tr :
  count is_sent (fst (iteration env loads p tr)) = S (count is_sent tr).
Proof. apply iteration_counts. Qed.

(** A pass returns only the [final_answer] of an object. *)
Lemma iteration_return_inv p tr tr' answer :
  iteration env loads p tr = (tr', Ok (Return answer)) ->
  exists d, answers_with env loads tr p (VDict d)
            /\ dict_lookup "final_answer" d = Some answer.
Proof.
  unfold iteration, bind, emit, consult, try_except, lift, ret, answers_with.
  destruct (send_message env _ p) as [text | e] eqn:Hsend; [| discriminate].
  destruct (loads (json_text text)) as [v | e] eqn:Hload.
  - destruct v as [| b | z | t | s | l | d]; try discriminate.
    destruct (show_thought env (dict_get "thought" VNone d)) as [[] | e]
      eqn:Hshown; [| now rewrite (act_thought_raises env _ _ _ Hshown)].
    destruct (dict_lookup "final_answer" d) as [a |] eqn:Hf.
    + rewrite (act_final_answer env _ _ _ Hshown Hf).
      intros H. injection H as _ <-. exists d. split; [| exact Hf].
      exists text. now split.
    + destruct (dict_lookup "action" d) as [a |] eqn:Ha.
      * destruct a as [| b | z | t | s | l | action];
          try (rewrite (act_shown env _ _ Hshown);
               unfold bind, lift, ret, py_contains, py_get, dict_has,
                 dict_get; cbn; rewrite Hf, Ha; discriminate).
        rewrite (act_action env _ _ _ Hshown Hf Ha). unfold bind.
        destruct (dispatch env _ _ _) as [tr'' [o | e]]; discriminate.
      * rewrite (act_neither env _ _ Hshown Hf Ha). discriminate.
  - destruct (is_a JSONDecodeError e || is_a AttributeError e);
      [| discriminate].
    destruct (console_print env _); discriminate.
Qed.

End Counting.

(** Claim C6, as the code has it: when no response to a message of the
    run has a [final_answer] and the run does not raise, which is to say
    that none of its iterations does, a loop with a ceiling of [n] makes
    exactly [n] passes, sends exactly [n] messages and returns the fixed
    exhaustion message; [run] has the ceiling ten.  The result is a string
    like any final answer. *)
Theorem exhaustion_after_n_iterations env loads n p tr :
  (forall p' tr' d,
      In (p', tr') (passes env loads n p tr) ->
      answers_with env loads tr' p' (VDict d) ->
      dict_lookup "final_answer" d = None) ->
  (forall e, snd (run_loop env loads n p tr) <> Raise e) ->
  snd (run_loop env loads n p tr) = Ok (VStr exhausted_message)
  /\ List.length (passes env loads n p tr) = n
  /\ count is_sent (fst (run_loop env loads n p tr)) = count is_sent tr + n.
Proof.
  revert p tr.
  induction n as [| n IH]; intros p tr Hnever Hsafe.
  - split; [reflexivity |]. split; [reflexivity | now rewrite Nat.add_0_r].
  - rewrite run_loop_unfold in Hsafe |- *. cbn [passes] in Hnever |- *.
    pose proof (iteration_sends env loads p tr) as Hs.
    destruct (iteration env loads p tr) as [tr' [[p' | answer] | e]] eqn:Hit;
      cbn [fst snd] in *.
    + destruct (IH p' tr') as [Hres [Hlen Hcount]].
      * intros p0 tr0 d Hin. apply Hnever. now right.
      * exact Hsafe.
      * split; [exact Hres |]. cbn [List.length]. rewrite Hlen, Hcount.
        split; lia.
    + exfalso. destruct (iteration_return_inv _ _ _ _ _ _ Hit) as [d [Ha Hf]].
      rewrite (Hnever p tr d (or_introl eq_refl) Ha) in Hf. discriminate.
    + exfalso. now apply (Hsafe e).
Qed.

Lemma exhaustion_after_n_iterations_witness :
  snd (run_loop (Script.always Script.ask_list) Json.loads 10 "goal" [])
  = Ok (VStr exhausted_message)
  /\ List.length (passes (Script.always Script.ask_list) Json.loads 10 "goal" [])
     = 10
  /\ count is_sent
       (fst (run_loop (Script.always Script.ask_list) Json.loads 10 "goal" []))
     = count is_sent [] + 10.
Proof.
  apply (exhaustion_after_n_iterations
           (Script.always Script.ask_list) Json.loads 10 "goal" []).
  - intros p' tr' d _ [text [Hsend Hload]].
    injection Hsend as <-. vm_compute in Hload. injection Hload as <-.
    reflexivity.
  - intros e. vm_compute. discriminate.
Defined.

(** Counterexample to C6 as stated: the result of an exhausted run is the
    result of a run whose model gave that text as its final answer in the
    first iteration; the caller cannot tell the two apart. *)
Lemma exhaustion_is_an_ordinary_answer :
  snd (Script.run ["no JSON here"] [] "goal")
  = snd (Script.run [Script.final_like_exhaustion] [] "goal")
  /\ count is_sent (fst (Script.run ["no JSON here"] [] "goal")) = 10
  /\ count is_sent (fst (Script.run [Script.final_like_exhaustion] [] "goal")) = 1.
Proof. repeat split; reflexivity. Qed.

(** ** Failures inside a tool (C7) *)

Lemma tame_ret {A} (a : A) : tame (ret a).
Proof. intros tr tr' e H. discriminate. Qed.

Lemma tame_bind {A B} (m : M A) (k : A -> M B) :
  tame m -> (forall a, tame (k a)) -> tame (bind m k).
Proof.
  intros Hm Hk tr tr' e. unfold bind.
  destruct (m tr) as [tr1 [a | e1]] eqn:E.
  - apply Hk.
  - intros H. injection H as _ <-. apply (Hm _ _ _ E).
Qed.

Lemma tame_consult {A} (oracle : list event -> result A) :
  (forall tr e, oracle tr = Raise e -> is_Exception e = true) ->
  tame (consult oracle).
Proof.
  intros Ho tr tr' e. unfold consult. intros H. injection H as _ H.
  apply (Ho _ _ H).
Qed.

Lemma tame_lift {A} (r : result A) :
  (forall e, r = Raise e -> is_Exception e = true) -> tame (lift r).
Proof.
  intros Hr tr tr' e. unfold lift. intros H. injection H as _ H.
  apply (Hr _ H).
Qed.

(** A silent [try] whose last clause is [except Exception] returns, when
    its body is tame. *)
Lemma try_except_returns {A} (body : M A) handler tr :
  silent (try_except body handler) -> tame body ->
  (forall e, is_Exception e = true -> exists a, handler e = Some (ret a)) ->
  exists a, try_except body handler tr = (tr, Ok a).
Proof.
  intros Hs Ht Hh. specialize (Hs tr). revert Hs. unfold try_except.
  destruct (body tr) as [tr' [a | e]] eqn:E.
  - cbn. intros ->. now exists a.
  - destruct (Hh e (Ht _ _ _ E)) as [a Ha]. rewrite Ha. cbn.
    intros ->. now exists a.
Qed.

Lemma py_get_tame v key default e :
  py_get v key default = Raise e -> is_Exception e = true.
Proof. destruct v; cbn; intros H; inversion H; reflexivity. Qed.

Lemma format_results_tame results : forall i e,
  format_results i results = Raise e -> is_Exception e = true.
Proof.
  induction results as [| r rest IH]; intros i e; cbn; [discriminate |].
  destruct (py_get r "title" _) eqn:E1;
    [| intros H; injection H as <-; exact (py_get_tame _ _ _ _ E1)].
  destruct (py_get r "body" _) eqn:E2;
    [| intros H; injection H as <-; exact (py_get_tame _ _ _ _ E2)].
  destruct (py_get r "href" _) eqn:E3;
    [| intros H; injection H as <-; exact (py_get_tame _ _ _ _ E3)].
  destruct (format_results (S i) rest) eqn:E4; [discriminate |].
  intros H; injection H as <-. exact (IH _ _ E4).
Qed.

Lemma except_Exception_handles {A} (f : exn -> A) e :
  is_Exception e = true -> exists a, except_Exception f e = Some (ret a).
Proof. intros H. unfold except_Exception. rewrite H. now eexists. Qed.

Section Capabilities.

Variable env : Env.
Hypothesis Henv : raises_Exceptions_only env.

Lemma search_web_returns query tr :
  exists s, search_web env query tr = (tr, Ok s).
Proof.
  destruct Henv as [Hd _].
  apply try_except_returns.
  - apply silent_search_web.
  - apply tame_bind; [apply tame_consult; intros; eapply Hd; eauto |].
    intros [| r rs]; [apply tame_ret |].
    apply tame_bind; [apply tame_lift, format_results_tame |].
    intros; apply tame_ret.
  - apply except_Exception_handles.
Qed.

Lemma mark_directories_tame directory files :
  tame (mark_directories env directory files).
Proof.
  destruct Henv as [_ [Hisdir [_ [Hjoin _]]]].
  induction files as [| f rest IH]; cbn; [apply tame_ret |].
  apply tame_bind; [apply tame_lift; intros; eapply Hjoin; eauto |].
  intros path.
  apply tame_bind; [apply tame_consult; intros; eapply Hisdir; eauto |].
  intros isdir. apply tame_bind; [exact IH | intros; apply tame_ret].
Qed.

Lemma list_files_returns directory tr :
  exists s, list_files env directory tr = (tr, Ok s).
Proof.
  destruct Henv as [_ [Hisdir [Hlistdir _]]].
  apply try_except_returns.
  - apply silent_list_files.
  - apply tame_bind; [apply tame_consult; intros; eapply Hisdir; eauto |].
    intros isdir. destruct (negb isdir); [apply tame_ret |].
    apply tame_bind; [apply tame_consult; intros; eapply Hlistdir; eauto |].
    intros [| f fs]; [apply tame_ret |].
    apply tame_bind; [apply mark_directories_tame | intros; apply tame_ret].
  - apply except_Exception_handles.
Qed.

Lemma read_file_returns filepath tr :
  exists s, read_file env filepath tr = (tr, Ok s).
Proof.
  destruct Henv as [_ [_ [_ [_ [_ [_ [Hread _]]]]]]].
  apply try_except_returns.
  - apply silent_read_file.
  - apply tame_consult; intros; eapply Hread; eauto.
  - intros e He. destruct (is_a FileNotFoundError e); [now eexists |].
    now apply except_Exception_handles.
Qed.

Lemma write_file_returns filepath content tr :
  exists s, write_file env filepath content tr = (tr, Ok s).
Proof.
  destruct Henv as [_ [_ [_ [_ [Hdirname [Hmakedirs [_ [Hwrite _]]]]]]]].
  apply try_except_returns.
  - apply silent_write_file.
  - apply tame_bind; [apply tame_lift; intros; eapply Hdirname; eauto |].
    intros directory. apply tame_bind.
    + destruct (String.eqb directory ""); [apply tame_ret |].
      apply tame_consult; intros; eapply Hmakedirs; eauto.
    + intros _. apply tame_bind; [| intros; apply tame_ret].
      apply tame_consult; intros; eapply Hwrite; eauto.
  - apply except_Exception_handles.
Qed.

Lemma execute_shell_command_returns command tr :
  exists s, execute_shell_command env command tr = (tr, Ok s).
Proof.
  destruct Henv as [_ [_ [_ [_ [_ [_ [_ [_ Hrun]]]]]]]].
  apply try_except_returns.
  - apply silent_execute_shell_command.
  - apply tame_bind; [apply tame_consult; intros; eapply Hrun; eauto |].
    intros result. cbv zeta.
    destruct (String.eqb (stdout result) "" && String.eqb (stderr result) "");
      apply tame_ret.
  - intros e He. destruct (is_a TimeoutExpired e); [now eexists |].
    now apply except_Exception_handles.
Qed.

(** Once its arguments are bound, a tool of the registry returns a string:
    whatever fails inside it comes back as text. *)
Lemma tool_body_returns name f args tr :
  registry_lookup name (tools env) = Some f ->
  exists s, fn_body f args tr = (tr, Ok s).
Proof.
  unfold tools. cbn.
  repeat match goal with
         | |- context [String.eqb name ?k] =>
             destruct (String.eqb_spec name k) as [-> | ?]
         end;
    intros H; inversion H; subst; cbn.
  - apply search_web_returns.
  - apply list_files_returns.
  - apply read_file_returns.
  - apply write_file_returns.
  - apply execute_shell_command_returns.
Qed.

(** The call of a tool raises exactly when the binding of its arguments
    does. *)
Lemma call_raises_iff_unbound name f kwargs tr :
  registry_lookup name (tools env) = Some f ->
  match bind_kwargs f kwargs with
  | Ok args => exists s, call f kwargs tr = (tr, Ok s)
  | Raise e => call f kwargs tr = (tr, Raise e)
  end.
Proof.
  intros Hf. unfold call, bind, lift.
  destruct (bind_kwargs f kwargs) as [args | e]; [| reflexivity].
  apply (tool_body_returns _ _ _ _ Hf).
Qed.

End Capabilities.

(** Claim C7 fails on the code: when the arguments that the model gives
    for a registered tool do not bind to its parameters (a keyword the tool
    does not have, a required argument left out, or no object at all), the
    call raises [TypeError] before the [try] of the tool is entered; the
    loop has no handler around the call, so the exception leaves [run] and
    ends it.  The tool is one that needs no confirmation here; behind an
    approval a dangerous tool is called in the same way.  The response is
    one that reaches the dispatch: the console prints its thought, or it
    has none. *)
Theorem unbound_call_escapes env loads n p tr action name f e :
  requests env loads tr p action ->
  tool_of action = VStr name ->
  ~ In name dangerous_tools ->
  registry_lookup name (tools env) = Some f ->
  bind_kwargs f (args_of action) = Raise e ->
  run_loop env loads (S n) p tr
  = ((tr ++ [Sent p; Called (VStr name) (args_of action)])%list, Raise e).
Proof.
  intros Hreq Htool Hd Hf Hbind.
  apply run_loop_raise.
  apply (iteration_dispatch_raises _ _ _ _ _ _ _ Hreq).
  rewrite Htool, (dispatch_safe env _ _ _ _ Hd Hf), <- app_assoc.
  unfold call, bind, lift. rewrite Hbind. reflexivity.
Qed.

(** The model asks for [read_file] with the keyword [path]. *)
Lemma unbound_call_escapes_witness :
  Script.run [Script.ask_read_wrong_keyword] [] "goal"
  = ([Sent "goal";
      Called (VStr "read_file") (VDict [("path", VStr "notes.txt")])],
     Raise (Exn TypeError
              "read_file() got an unexpected keyword argument 'path'")).
Proof.
  apply (unbound_call_escapes
           (Script.env [Script.ask_read_wrong_keyword] []) Json.loads 9
           "goal" []
           [("tool", VStr "read_file");
            ("args", VDict [("path", VStr "notes.txt")])]
           "read_file"
           {| fn_module := "tools.file_system";
              fn_name := "read_file";
              fn_params := [("filepath", None)];
              fn_body := fun a =>
                read_file (Script.env [Script.ask_read_wrong_keyword] [])
                  (arg 0 a) |}).
  - exists [("action", VDict [("tool", VStr "read_file");
                              ("args", VDict [("path", VStr "notes.txt")])])].
    split; [exists Script.ask_read_wrong_keyword; split; reflexivity |].
    split; [reflexivity |]. split; reflexivity.
  - reflexivity.
  - cbn. intros [E | [E | []]]; discriminate E.
  - reflexivity.
  - reflexivity.
Defined.

(** ** The extraction of the JSON text (C2) *)

Lemma startswith_fence s : PyStr.startswith "```" s = true <-> 3 <= lead s.
Proof.
  destruct s as [| a [| b [| c s]]]; cbn [PyStr.startswith lead];
    unfold tick;
    repeat match goal with
           | |- context [Ascii.eqb ?x ?y] => destruct (Ascii.eqb x y)
           end; cbn [andb]; split; intros H; try discriminate;
    try reflexivity; lia.
Qed.

Lemma startswith_fence_false s :
  PyStr.startswith "```" s = false <-> lead s < 3.
Proof.
  pose proof (startswith_fence s) as H.
  destruct (PyStr.startswith "```" s); split; intros H1; try reflexivity;
    try discriminate.
  - assert (3 <= lead s) by now apply H. lia.
  - destruct (le_lt_dec 3 (lead s)) as [H3 | H3]; [| exact H3].
    apply H in H3. discriminate.
Qed.

Lemma remove_fence_at_fence s :
  PyStr.replace "```" "" ("```" ++ s) = PyStr.replace "```" "" s.
Proof. destruct s as [| a [| b s]]; reflexivity. Qed.

Lemma remove_fence_elsewhere c s :
  PyStr.startswith "```" (String c s) = false ->
  PyStr.replace "```" "" (String c s) = String c (PyStr.replace "```" "" s).
Proof.
  intros H. unfold PyStr.replace. cbn [PyStr.replace_from].
  rewrite H. reflexivity.
Qed.

Lemma fence_decompose s :
  PyStr.startswith "```" s = true -> exists s', s = "```" ++ s'.
Proof.
  destruct s as [| a [| b [| c s]]]; cbn [PyStr.startswith];
    try discriminate; try (destruct (Ascii.eqb _ _); discriminate).
  - destruct (Ascii.eqb_spec "`"%char a); [| discriminate].
    destruct (Ascii.eqb_spec "`"%char b); discriminate.
  - destruct (Ascii.eqb_spec "`"%char a) as [<- |]; [| discriminate].
    destruct (Ascii.eqb_spec "`"%char b) as [<- |]; [| discriminate].
    destruct (Ascii.eqb_spec "`"%char c) as [<- |]; [| discriminate].
    intros _. now exists s.
Qed.

(** After [replace("```", "")] no fence is left, and the head has no more
    backticks than before. *)
Lemma remove_fence_invariant n : forall s,
  String.length s <= n ->
  PyStr.contains "```" (PyStr.replace "```" "" s) = false
  /\ lead (PyStr.replace "```" "" s) <= lead s.
Proof.
  induction n as [| n IH]; intros s Hlen.
  - destruct s; [| cbn in Hlen; lia]. split; reflexivity.
  - destruct s as [| c s']; [split; reflexivity |].
    destruct (PyStr.startswith "```" (String c s')) eqn:Hfence.
    + destruct (fence_decompose _ Hfence) as [s'' Hs].
      rewrite Hs, remove_fence_at_fence.
      assert (Hlen'' : String.length s'' <= n).
      { rewrite Hs in Hlen. cbn in Hlen. lia. }
      destruct (IH s'' Hlen'') as [Hno Hlead]. split; [exact Hno |].
      change (lead ("```" ++ s'')) with (S (S (S (lead s'')))). lia.
    + rewrite (remove_fence_elsewhere _ _ Hfence).
      assert (Hlen' : String.length s' <= n) by (cbn in Hlen; lia).
      destruct (IH s' Hlen') as [Hno Hlead].
      apply startswith_fence_false in Hfence.
      assert (Hhead : lead (String c (PyStr.replace "```" "" s'))
                      <= lead (String c s')).
      { cbn [lead]. destruct (Ascii.eqb tick c); lia. }
      split; [| exact Hhead].
      cbn [PyStr.contains]. rewrite Hno, orb_false_r.
      apply startswith_fence_false. lia.
Qed.

Lemma remove_fence_complete s :
  PyStr.contains "```" (PyStr.replace "```" "" s) = false.
Proof. apply (remove_fence_invariant (String.length s) s (le_n _)). Qed.

(** [strip] keeps a part of the string, so it brings in no occurrence. *)
Lemma contains_tail p c s :
  PyStr.contains p (String c s) = false -> PyStr.contains p s = false.
Proof. cbn [PyStr.contains]. intros H. now apply orb_false_elim in H. Qed.

Lemma contains_lstrip p s :
  PyStr.contains p s = false -> PyStr.contains p (PyStr.lstrip s) = false.
Proof.
  induction s as [| c s IH]; [trivial |].
  intros H. cbn [PyStr.lstrip]. destruct (PyStr.isspace c); [| exact H].
  apply IH, (contains_tail _ _ _ H).
Qed.

Lemma rstrip_prefix s : exists w, s = PyStr.rstrip s ++ w.
Proof.
  induction s as [| c s [w IH]]; [now exists "" |].
  cbn [PyStr.rstrip]. destruct (PyStr.rstrip s) as [| a r] eqn:E.
  - destruct (PyStr.isspace c).
    + now exists (String c s).
    + exists w. cbn. now rewrite IH at 1.
  - exists w. cbn [append]. now rewrite IH at 1.
Qed.

Lemma startswith_prefix p a w :
  PyStr.startswith p a = true -> PyStr.startswith p (a ++ w) = true.
Proof.
  revert a. induction p as [| x p IH]; intros a; [reflexivity |].
  destruct a as [| y a]; cbn; [discriminate |].
  destruct (Ascii.eqb x y); [apply IH | discriminate].
Qed.

Lemma contains_prefix p a w :
  PyStr.contains p (a ++ w) = false -> PyStr.contains p a = false.
Proof.
  induction a as [| c a IH]; cbn [append].
  - intros H. destruct p as [| x p]; [| reflexivity].
    destruct w; discriminate.
  - cbn [PyStr.contains]. intros H. apply orb_false_elim in H.
    destruct H as [Hs Hc]. rewrite (IH Hc), orb_false_r.
    destruct (PyStr.startswith p (String c a)) eqn:E; [| reflexivity].
    apply (startswith_prefix _ _ w) in E. cbn [append] in E. congruence.
Qed.

Lemma contains_rstrip p s :
  PyStr.contains p s = false -> PyStr.contains p (PyStr.rstrip s) = false.
Proof.
  intros H. destruct (rstrip_prefix s) as [w Hw]. rewrite Hw in H.
  apply (contains_prefix _ _ _ H).
Qed.

Lemma contains_strip p s :
  PyStr.contains p s = false -> PyStr.contains p (PyStr.strip s) = false.
Proof. intros H. apply contains_rstrip, contains_lstrip, H. Qed.

(** [strip] twice is [strip] once. *)
Lemma rstrip_idempotent s : PyStr.rstrip (PyStr.rstrip s) = PyStr.rstrip s.
Proof.
  induction s as [| c s IH]; [reflexivity |].
  cbn [PyStr.rstrip]. destruct (PyStr.rstrip s) as [| a r] eqn:E.
  - destruct (PyStr.isspace c) eqn:Ec; [reflexivity |].
    cbn. now rewrite Ec.
  - cbn [PyStr.rstrip]. cbn [PyStr.rstrip] in IH. rewrite IH. reflexivity.
Qed.

Lemma lstrip_head s :
  match PyStr.lstrip s with
  | String c _ => PyStr.isspace c = false
  | EmptyString => True
  end.
Proof.
  induction s as [| c s IH]; [exact I |].
  cbn [PyStr.lstrip]. destruct (PyStr.isspace c) eqn:E; [exact IH | exact E].
Qed.

Lemma strip_idempotent s : PyStr.strip (PyStr.strip s) = PyStr.strip s.
Proof.
  unfold PyStr.strip.
  assert (H : PyStr.lstrip (PyStr.rstrip (PyStr.lstrip s))
              = PyStr.rstrip (PyStr.lstrip s)).
  { pose proof (lstrip_head s) as Hh.
    destruct (PyStr.lstrip s) as [| c u]; [reflexivity |].
    cbn [PyStr.rstrip]. destruct (PyStr.rstrip u).
    - rewrite Hh. cbn. now rewrite Hh.
    - cbn. now rewrite Hh. }
  rewrite H. apply rstrip_idempotent.
Qed.

(** A text without a backtick has nothing to replace. *)
Lemma replace_without_tick old new s :
  PyStr.contains "`" s = false ->
  PyStr.replace (String "`" old) new s = s.
Proof.
  unfold PyStr.replace.
  induction s as [| c s IH]; [reflexivity |].
  intros H. cbn [PyStr.contains] in H. apply orb_false_elim in H.
  destruct H as [Hc Hs]. cbn [PyStr.startswith] in Hc.
  rewrite andb_true_r in Hc.
  cbn [PyStr.replace_from PyStr.startswith]. rewrite Hc. cbn [andb].
  now rewrite (IH Hs).
Qed.

Lemma startswith_shorter p q s :
  PyStr.startswith (p ++ q) s = true -> PyStr.startswith p s = true.
Proof.
  revert s. induction p as [| x p IH]; intros s; [reflexivity |].
  destruct s as [| y s]; cbn; [discriminate |].
  destruct (Ascii.eqb x y); [apply IH | discriminate].
Qed.

Lemma contains_shorter p q s :
  PyStr.contains p s = false -> PyStr.contains (p ++ q) s = false.
Proof.
  induction s as [| c s IH]; cbn [PyStr.contains]; intros H;
    apply orb_false_elim in H; destruct H as [Hs Hc].
  - rewrite orb_false_r.
    destruct (PyStr.startswith (p ++ q) "") eqn:E; [| reflexivity].
    apply startswith_shorter in E. congruence.
  - rewrite (IH Hc), orb_false_r.
    destruct (PyStr.startswith (p ++ q) (String c s)) eqn:E; [| reflexivity].
    apply startswith_shorter in E. congruence.
Qed.

(** Where [old] does not occur, [replace] changes nothing. *)
Lemma replace_absent old new s :
  PyStr.contains old s = false -> PyStr.replace old new s = s.
Proof.
  destruct old as [| x old].
  - destruct s; discriminate.
  - unfold PyStr.replace.
    induction s as [| c s IH]; [reflexivity |].
    cbn [PyStr.contains]. intros H. apply orb_false_elim in H.
    destruct H as [Hs Hc].
    cbn [PyStr.replace_from]. rewrite Hs, (IH Hc). reflexivity.
Qed.

Lemma replace_from_skip old new a s :
  PyStr.replace_from old new (String.length a) (a ++ s)
  = PyStr.replace_from old new 0 s.
Proof.
  induction a as [| c a IH]; [reflexivity |].
  cbn [String.length append PyStr.replace_from]. exact IH.
Qed.

(** At an occurrence of [old] the scan writes [new] and goes on behind
    it. *)
Lemma replace_at_match x old new s :
  PyStr.replace (String x old) new (String x old ++ s)
  = new ++ PyStr.replace (String x old) new s.
Proof.
  unfold PyStr.replace. cbn [append PyStr.replace_from].
  change (String x (old ++ s)) with (String x old ++ s).
  rewrite startswith_append.
  replace (String.length (String x old) - 1) with (String.length old)
    by (cbn [String.length]; lia).
  rewrite replace_from_skip. reflexivity.
Qed.

(** A stretch without a backtick is copied. *)
Lemma replace_past_plain old new a s :
  PyStr.contains "`" a = false ->
  PyStr.replace (String "`" old) new (a ++ s)
  = a ++ PyStr.replace (String "`" old) new s.
Proof.
  unfold PyStr.replace.
  induction a as [| c a IH]; [reflexivity |].
  cbn [PyStr.contains]. intros H. apply orb_false_elim in H.
  destruct H as [Hc Ha]. cbn [PyStr.startswith] in Hc.
  rewrite andb_true_r in Hc.
  cbn [append PyStr.replace_from PyStr.startswith]. rewrite Hc. cbn [andb].
  now rewrite (IH Ha).
Qed.

Lemma lstrip_blank w s : blank w = true -> PyStr.lstrip (w ++ s) = PyStr.lstrip s.
Proof.
  induction w as [| c w IH]; [reflexivity |].
  cbn [blank append PyStr.lstrip]. intros H. apply andb_prop in H.
  destruct H as [Hc Hw]. rewrite Hc. now apply IH.
Qed.

Lemma rstrip_blank w : blank w = true -> PyStr.rstrip w = "".
Proof.
  induction w as [| c w IH]; [reflexivity |].
  cbn [blank PyStr.rstrip]. intros H. apply andb_prop in H.
  destruct H as [Hc Hw]. now rewrite (IH Hw), Hc.
Qed.

Lemma rstrip_append_blank a w :
  blank w = true -> PyStr.rstrip (a ++ w) = PyStr.rstrip a.
Proof.
  intros Hw. induction a as [| c a IH]; cbn [append].
  - now apply rstrip_blank.
  - cbn [PyStr.rstrip]. now rewrite IH.
Qed.

Lemma rstrip_append_kept a b :
  b <> "" -> PyStr.rstrip b = b -> PyStr.rstrip (a ++ b) = a ++ b.
Proof.
  intros Hb Hr. induction a as [| c a IH]; [exact Hr |].
  cbn [append PyStr.rstrip]. rewrite IH.
  destruct (a ++ b) eqn:E; [| reflexivity].
  destruct a; [now destruct Hb | discriminate].
Qed.

Lemma string_app_assoc (a b c : string) : (a ++ b) ++ c = a ++ b ++ c.
Proof. induction a as [| x a IH]; cbn; [reflexivity | now rewrite IH]. Qed.

Lemma string_app_empty (a : string) : a ++ "" = a.
Proof. induction a as [| x a IH]; cbn; [reflexivity | now rewrite IH]. Qed.

(** *** White space around the text *)

Lemma blank_ticks_free a : blank a = true -> PyStr.contains "`" a = false.
Proof.
  induction a as [| c a IH]; [reflexivity |].
  cbn [blank]. intros H. apply andb_prop in H. destruct H as [Hc Ha].
  cbn [PyStr.contains PyStr.startswith]. rewrite (IH Ha), andb_true_r.
  destruct (Ascii.eqb_spec "`"%char c) as [<- | _]; [discriminate | reflexivity].
Qed.

Lemma lstrip_split s : exists a, blank a = true /\ s = a ++ PyStr.lstrip s.
Proof.
  induction s as [| c s [a [Ha Hs]]]; [now exists "" |].
  cbn [PyStr.lstrip]. destruct (PyStr.isspace c) eqn:Hc.
  - exists (String c a). cbn [blank append]. rewrite Hc, Ha.
    split; [reflexivity | now rewrite Hs at 1].
  - now exists "".
Qed.

Lemma rstrip_split s : exists b, blank b = true /\ s = PyStr.rstrip s ++ b.
Proof.
  induction s as [| c s [b [Hb Hs]]]; [now exists "" |].
  cbn [PyStr.rstrip]. destruct (PyStr.rstrip s) as [| x r] eqn:E.
  - destruct (PyStr.isspace c) eqn:Hc.
    + exists (String c b). cbn [blank append]. rewrite Hc, Hb.
      split; [reflexivity | now rewrite Hs at 1].
    + exists b. split; [exact Hb |]. cbn [append]. now rewrite Hs at 1.
  - exists b. split; [exact Hb |]. cbn [append]. now rewrite Hs at 1.
Qed.

Lemma blank_app a b : blank a = true -> blank b = true -> blank (a ++ b) = true.
Proof.
  induction a as [| c a IH]; [trivial |].
  cbn [blank append]. intros H Hb. apply andb_prop in H.
  destruct H as [Hc Ha]. now rewrite Hc, IH.
Qed.

(** A text is its trimmed text with white space before and behind it. *)
Lemma strip_split s :
  exists a b, blank a = true /\ blank b = true /\ s = a ++ PyStr.strip s ++ b.
Proof.
  destruct (lstrip_split s) as [a [Ha Hs]].
  destruct (rstrip_split (PyStr.lstrip s)) as [b [Hb Hl]].
  exists a, b. split; [exact Ha |]. split; [exact Hb |].
  unfold PyStr.strip. now rewrite <- Hl.
Qed.

Lemma lstrip_all_blank b : blank b = true -> PyStr.lstrip b = "".
Proof.
  induction b as [| c b IH]; [reflexivity |].
  cbn [blank PyStr.lstrip]. intros H. apply andb_prop in H.
  destruct H as [Hc Hb]. now rewrite Hc, IH.
Qed.

(** White space around a text does not change what [strip] gives. *)
Lemma strip_within a s b :
  blank a = true -> blank b = true ->
  PyStr.strip (a ++ s ++ b) = PyStr.strip s.
Proof.
  intros Ha Hb. unfold PyStr.strip. rewrite (lstrip_blank _ _ Ha).
  destruct (lstrip_split s) as [a' [Ha' Hs]].
  rewrite Hs at 1. rewrite string_app_assoc, (lstrip_blank _ _ Ha').
  pose proof (lstrip_head s) as Hhead.
  destruct (PyStr.lstrip s) as [| c l].
  - cbn [append]. rewrite (lstrip_all_blank _ Hb).
    reflexivity.
  - cbn [append PyStr.lstrip]. rewrite Hhead.
    change (String c (l ++ b)) with (String c l ++ b).
    now apply rstrip_append_blank.
Qed.

Lemma startswith_length old s :
  PyStr.startswith old s = true -> String.length old <= String.length s.
Proof.
  revert s. induction old as [| x old IH]; intros s; [cbn; lia |].
  destruct s as [| y s]; cbn; [discriminate |].
  destruct (Ascii.eqb x y); [| discriminate].
  intros H. apply IH in H. lia.
Qed.

(** White space behind a text is no part of a match of a string without
    white space. *)
Lemma startswith_blank_suffix old u b :
  spaceless old = true -> blank b = true ->
  PyStr.startswith old (u ++ b) = PyStr.startswith old u.
Proof.
  intros Hold Hb. revert u. induction old as [| x old IH]; intros u;
    [reflexivity |].
  cbn [spaceless] in Hold. apply andb_prop in Hold.
  destruct Hold as [Hx Hold].
  destruct u as [| y u]; cbn [append PyStr.startswith].
  - destruct b as [| c b]; [reflexivity |].
    cbn [blank] in Hb. apply andb_prop in Hb. destruct Hb as [Hc _].
    destruct (Ascii.eqb_spec x c) as [-> | _]; [| reflexivity].
    rewrite Hc in Hx. discriminate.
  - now rewrite (IH Hold).
Qed.

Lemma replace_from_blank x old new b :
  spaceless (String x old) = true -> blank b = true ->
  PyStr.replace_from (String x old) new 0 b = b.
Proof.
  intros Hold. induction b as [| c b IH]; [reflexivity |].
  intros Hb. cbn [PyStr.replace_from].
  cbn [blank] in Hb. apply andb_prop in Hb.
  destruct Hb as [Hc Hb].
  assert (Hno : PyStr.startswith (String x old) (String c b) = false).
  { cbn [PyStr.startswith]. cbn [spaceless] in Hold.
    apply andb_prop in Hold. destruct Hold as [Hx _].
    destruct (Ascii.eqb_spec x c) as [-> | _]; [| reflexivity].
    rewrite Hc in Hx. discriminate. }
  rewrite Hno. now rewrite (IH Hb).
Qed.

Lemma replace_from_blank_suffix x old new b :
  spaceless (String x old) = true -> blank b = true ->
  forall s skip,
    skip <= String.length s ->
    PyStr.replace_from (String x old) new skip (s ++ b)
    = PyStr.replace_from (String x old) new skip s ++ b.
Proof.
  intros Hold Hb. induction s as [| c s IH]; intros skip Hskip.
  - cbn [String.length] in Hskip. assert (skip = 0) as -> by lia.
    cbn [append]. now apply replace_from_blank.
  - cbn [append PyStr.replace_from]. destruct skip as [| k].
    + change (String c (s ++ b)) with (String c s ++ b).
      rewrite (startswith_blank_suffix _ _ _ Hold Hb).
      destruct (PyStr.startswith (String x old) (String c s)) eqn:Hm.
      * apply startswith_length in Hm. cbn [String.length] in Hm.
        rewrite IH by (cbn [String.length]; lia).
        now rewrite string_app_assoc.
      * rewrite IH by lia. reflexivity.
    + apply IH. cbn [String.length] in Hskip. lia.
Qed.

(** The white space around a text stays where it is when the occurrences
    of a string without white space are replaced. *)
Lemma replace_within x old new a s b :
  spaceless (String x old) = true ->
  PyStr.contains (String x "") a = false ->
  blank a = true -> blank b = true ->
  PyStr.replace (String x old) new (a ++ s ++ b)
  = a ++ PyStr.replace (String x old) new s ++ b.
Proof.
  intros Hold Hxa Ha Hb. unfold PyStr.replace.
  assert (Hpast : forall t,
             PyStr.replace_from (String x old) new 0 (a ++ t)
             = a ++ PyStr.replace_from (String x old) new 0 t).
  { intros t. clear Ha. induction a as [| c a IH]; [reflexivity |].
    cbn [PyStr.contains] in Hxa. apply orb_false_elim in Hxa.
    destruct Hxa as [Hc Hxa]. cbn [PyStr.startswith] in Hc.
    rewrite andb_true_r in Hc.
    cbn [append PyStr.replace_from PyStr.startswith]. rewrite Hc. cbn [andb].
    now rewrite (IH Hxa). }
  rewrite Hpast. f_equal.
  apply (replace_from_blank_suffix x old new b Hold Hb). lia.
Qed.

(** The trimming before the markers are deleted changes nothing in the
    end: the extraction deletes the markers and trims once. *)
Lemma json_text_trims_once text :
  json_text text
  = PyStr.strip (PyStr.replace "```" "" (PyStr.replace "```json" "" text)).
Proof.
  unfold json_text.
  destruct (strip_split text) as [a [b [Ha [Hb Ht]]]].
  rewrite Ht at 2.
  rewrite (replace_within "`" "``json" "" a _ b eq_refl
             (blank_ticks_free _ Ha) Ha Hb).
  rewrite (replace_within "`" "``" "" a _ b eq_refl
             (blank_ticks_free _ Ha) Ha Hb).
  now rewrite (strip_within _ _ _ Ha Hb).
Qed.

(** *** The markers between the pieces *)

(** The text behind a marker: it does not begin with [json], and it begins
    with no backtick or with a marker. *)
Lemma woven_head piece more :
  well_woven piece more ->
  PyStr.startswith "json" piece = false ->
  PyStr.startswith "json" (woven piece more) = false
  /\ (lead (woven piece more) = 0 \/ 3 <= lead (woven piece more)).
Proof.
  intros [Hp Hmore] Hj.
  assert (Hlead : forall rest, piece <> "" -> lead (piece ++ rest) = 0).
  { intros rest Hne. destruct piece as [| c piece]; [now destruct Hne |].
    unfold ticks_free in Hp. cbn [PyStr.contains PyStr.startswith] in Hp.
    apply orb_false_elim in Hp. destruct Hp as [Hc _].
    rewrite andb_true_r in Hc. cbn [append lead]. unfold tick.
    now rewrite Hc. }
  destruct more as [| [f next] more]; cbn [woven].
  - split; [exact Hj |].
    destruct piece as [| c piece]; [now left |].
    left. rewrite <- (string_app_empty (String c piece)).
    apply Hlead. discriminate.
  - destruct piece as [| c piece].
    + cbn [append]. split; [now destruct f |].
      right. destruct f; cbn; unfold tick; cbn; lia.
    + split; [| left; apply Hlead; discriminate].
      unfold ticks_free in Hp. cbn [PyStr.contains PyStr.startswith] in Hp.
      apply orb_false_elim in Hp. destruct Hp as [Hc Hp].
      rewrite andb_true_r in Hc.
      revert Hj. cbn [append PyStr.startswith].
      destruct (Ascii.eqb "j" c); [| reflexivity]. cbn [andb].
      destruct piece as [| c1 piece]; [now destruct f |].
      cbn [append].
      destruct (Ascii.eqb "s" c1); [| reflexivity]. cbn [andb].
      destruct piece as [| c2 piece]; [now destruct f |].
      cbn [append].
      destruct (Ascii.eqb "o" c2); [| reflexivity]. cbn [andb].
      destruct piece as [| c3 piece]; [now destruct f |].
      cbn [append].
      destruct (Ascii.eqb "n" c3); [| reflexivity]. discriminate.
Qed.

(** A bare marker is no occurrence of the tagged one. *)
Lemma tagged_passes_bare w :
  PyStr.startswith "json" w = false ->
  lead w = 0 \/ 3 <= lead w ->
  PyStr.replace "```json" "" ("```" ++ w)
  = "```" ++ PyStr.replace "```json" "" w.
Proof.
  intros Hj Hlead. unfold PyStr.replace.
  assert (H1 : PyStr.startswith "```json" ("```" ++ w) = false).
  { cbn [append PyStr.startswith]. rewrite !Ascii.eqb_refl. exact Hj. }
  assert (H2 : PyStr.startswith "```json" ("``" ++ w) = false
               /\ PyStr.startswith "```json" ("`" ++ w) = false).
  { destruct w as [| a [| b [| c w]]]; cbn [append PyStr.startswith lead] in *;
      unfold tick in *;
      repeat match goal with
             | |- context [Ascii.eqb ?x ?y] =>
                 destruct (Ascii.eqb_spec x y); subst
             | H : context [Ascii.eqb ?x ?y] |- _ =>
                 destruct (Ascii.eqb_spec x y); subst
             end; cbn [andb]; try (split; reflexivity);
      try discriminate; try (destruct Hlead; lia). }
  destruct H2 as [H2 H3].
  cbn [append] in *. cbn [PyStr.replace_from].
  rewrite H1. cbn [PyStr.replace_from]. rewrite H2.
  cbn [PyStr.replace_from]. rewrite H3. reflexivity.
Qed.

(** The first pass deletes the tagged markers and nothing else. *)
Lemma tagged_markers_deleted more : forall first,
  well_woven first more ->
  PyStr.replace "```json" "" (woven first more) = bare_only first more.
Proof.
  induction more as [| [f piece] more IH]; intros first [Hf Hmore].
  - cbn [woven bare_only].
    now apply replace_absent, contains_shorter with (p := "`") (q := "``json").
  - inversion Hmore as [| fp more' [Hp Hj] Hrest]; subst. cbn [fst snd] in *.
    cbn [woven].
    rewrite (replace_past_plain "``json" "" first _ Hf).
    destruct f; cbn [marker bare_only].
    + rewrite (replace_at_match "`" "``json" "").
      cbn [append]. now rewrite (IH piece (conj Hp Hrest)).
    + destruct (woven_head piece more (conj Hp Hrest) (Hj eq_refl))
        as [Hhead Hlead].
      rewrite (tagged_passes_bare _ Hhead Hlead).
      now rewrite (IH piece (conj Hp Hrest)).
Qed.

(** The second pass deletes the bare markers and nothing else. *)
Lemma bare_markers_deleted more : forall first,
  well_woven first more ->
  PyStr.replace "```" "" (bare_only first more) = unfenced first more.
Proof.
  induction more as [| [f piece] more IH]; intros first [Hf Hmore].
  - cbn [bare_only unfenced]. now apply replace_absent,
      contains_shorter with (p := "`") (q := "``").
  - inversion Hmore as [| fp more' [Hp Hj] Hrest]; subst. cbn [fst snd] in *.
    destruct f; cbn [bare_only unfenced];
      rewrite (replace_past_plain "``" "" first _ Hf).
    + now rewrite (IH piece (conj Hp Hrest)).
    + rewrite remove_fence_at_fence. now rewrite (IH piece (conj Hp Hrest)).
Qed.




(** ** Two scenarios, run from the first message to the result *)

(** The model asks for [write_file], the operator approves, the model
    answers [done]. *)
Example scenario_write_then_done :
  Script.run [Script.ask_write; Script.fenced_final] ["y"] "goal"
  = ([Sent "goal";
      Asked (VStr "write_file")
        (VDict [("filepath", VStr "a.txt"); ("content", VStr "hi")]);
      Called (VStr "write_file")
        (VDict [("filepath", VStr "a.txt"); ("content", VStr "hi")]);
      Sent "Observation: File 'a.txt' written successfully."],
     Ok (VStr "done")).
Proof. reflexivity. Qed.

(** The first response is no JSON text: the corrective prompt is sent and
    the second response ends the run. *)
Example scenario_retry_after_prose :
  Script.run ["I will now write the file"; Script.final_done] [] "goal"
  = ([Sent "goal"; Sent invalid_json_prompt], Ok (VStr "done")).
Proof. reflexivity. Qed.

(** * Further properties *)

(** ** What ends a run early and what does not *)

(** When the completion service fails, the run fails with it at once: the
    message is the last event, and no second attempt is made. *)
Theorem transport_failure_ends_run env loads n p tr e :
  send_message env (tr ++ [Sent p])%list p = Raise e ->
  run_loop env loads (S n) p tr = ((tr ++ [Sent p])%list, Raise e).
Proof.
  intros Hsend. apply run_loop_raise.
  unfold iteration, bind, emit, consult. rewrite Hsend. reflexivity.
Qed.

Lemma transport_failure_ends_run_witness :
  run Cases.offline Json.loads "goal" []
  = ([Sent "goal"], Raise (Exn OtherException "503 Service Unavailable")).
Proof.
  apply (transport_failure_ends_run Cases.offline Json.loads 9 "goal" []).
  reflexivity.
Defined.

(** A response that the deserializer refuses with [JSONDecodeError] (or
    [AttributeError]) is printed with the error, and when the console
    prints it the pass costs one iteration: the corrective prompt is the
    next message.  When the console refuses the text of the response, its
    error ends the run.  Any other exception of the deserializer leaves the
    run at once. *)
Theorem undecodable_response_is_retried env loads n p tr text e :
  send_message env (tr ++ [Sent p])%list p = Ok text ->
  loads (json_text text) = Raise e ->
  (is_a JSONDecodeError e || is_a AttributeError e = true ->
   (console_print env (parse_error_text text e) = Ok tt ->
    goes_on env loads p tr (tr ++ [Sent p])%list invalid_json_prompt)
   /\ (forall e',
         console_print env (parse_error_text text e) = Raise e' ->
         run_loop env loads (S n) p tr = ((tr ++ [Sent p])%list, Raise e')))
  /\ (is_a JSONDecodeError e || is_a AttributeError e = false ->
      run_loop env loads (S n) p tr = ((tr ++ [Sent p])%list, Raise e)).
Proof.
  intros Hsend Hload. split; intros Hcls; [split |].
  - intros Hprint. apply iteration_goes_on.
    unfold iteration, bind, emit, consult, try_except, lift, ret.
    rewrite Hsend, Hload, Hcls, Hprint. reflexivity.
  - intros e' Hprint. apply run_loop_raise.
    unfold iteration, bind, emit, consult, try_except, lift, ret.
    rewrite Hsend, Hload, Hcls, Hprint. reflexivity.
  - apply run_loop_raise.
    unfold iteration, bind, emit, consult, try_except, lift, ret.
    rewrite Hsend, Hload, Hcls. reflexivity.
Qed.

Lemma undecodable_response_is_retried_witness :
  goes_on (Script.env ["I will now write the file"; Script.final_done] [])
    Json.loads "goal" [] ([] ++ [Sent "goal"])%list invalid_json_prompt.
Proof.
  apply (proj1 (proj1 (undecodable_response_is_retried
                         (Script.env ["I will now write the file";
                                      Script.final_done] [])
                         Json.loads 9 "goal" [] "I will now write the file"
                         (Exn JSONDecodeError "Expecting value")
                         eq_refl eq_refl)
                  eq_refl)).
  reflexivity.
Defined.

(** A response that is no JSON and has a closing tag in it: the handler of
    the parse error raises while it prints the response. *)
Example undecodable_response_with_tag :
  Script.run [Cases6.prose_with_tag; Script.final_done] [] "goal"
  = ([Sent "goal"],
     Raise (Exn MarkupError
              "closing tag '[/INST]' at position 55 doesn't match any open tag")).
Proof. reflexivity. Qed.

(** A response that is JSON but no object (a list, a string, a number,
    [true], [null]) is not retried: [parsed_response.get] stands outside the
    [try], so its [AttributeError] leaves the run. *)
Theorem non_object_response_ends_run env loads n p tr v :
  answers_with env loads tr p v ->
  (forall d, v <> VDict d) ->
  run_loop env loads (S n) p tr
  = ((tr ++ [Sent p])%list,
     Raise (Exn AttributeError
              ("'" ++ type_name v ++ "' object has no attribute 'get'"))).
Proof.
  intros Hans Hv. apply run_loop_raise.
  rewrite (iteration_act _ _ _ _ _ Hans).
  destruct v; try reflexivity. now destruct (Hv d).
Qed.

Lemma non_object_response_ends_run_witness :
  run (Script.env [Cases.a_list] []) Json.loads "goal" []
  = ([Sent "goal"],
     Raise (Exn AttributeError "'list' object has no attribute 'get'")).
Proof.
  apply (non_object_response_ends_run
           (Script.env [Cases.a_list] []) Json.loads 9 "goal" []
           (VList [VInt 1; VInt 2])).
  - exists Cases.a_list. split; reflexivity.
  - discriminate.
Defined.

(** An [action] that is no object ends the run in the same way, once the
    thought of the response is printed. *)
Theorem non_object_action_ends_run env loads n p tr d a :
  answers_with env loads tr p (VDict d) ->
  thought_shown env d ->
  dict_lookup "final_answer" d = None ->
  dict_lookup "action" d = Some a ->
  (forall x, a <> VDict x) ->
  run_loop env loads (S n) p tr
  = ((tr ++ [Sent p])%list,
     Raise (Exn AttributeError
              ("'" ++ type_name a ++ "' object has no attribute 'get'"))).
Proof.
  intros Hans Hshown Hf Ha Hno. apply run_loop_raise.
  rewrite (iteration_act _ _ _ _ _ Hans), (act_shown _ _ _ Hshown).
  unfold bind, lift, ret, py_contains, py_get, dict_has, dict_get.
  rewrite Hf, Ha.
  destruct a; try reflexivity. now destruct (Hno d0).
Qed.

Lemma non_object_action_ends_run_witness :
  run (Script.env [Cases.action_is_a_string] []) Json.loads "goal" []
  = ([Sent "goal"],
     Raise (Exn AttributeError "'str' object has no attribute 'get'")).
Proof.
  apply (non_object_action_ends_run
           (Script.env [Cases.action_is_a_string] []) Json.loads 9 "goal" []
           [("thought", VStr "list"); ("action", VStr "list_files")]
           (VStr "list_files")).
  - exists Cases.action_is_a_string. split; reflexivity.
  - reflexivity.
  - reflexivity.
  - reflexivity.
  - discriminate.
Defined.

(** A tool name that is a list or an object cannot be looked up in the
    registry: the [TypeError] of the lookup leaves the run. *)
Theorem unhashable_tool_name_ends_run env loads n p tr action :
  requests env loads tr p action ->
  (exists l, tool_of action = VList l) \/ (exists d, tool_of action = VDict d) ->
  run_loop env loads (S n) p tr
  = ((tr ++ [Sent p])%list,
     Raise (Exn TypeError
              ("unhashable type: '" ++ type_name (tool_of action) ++ "'"))).
Proof.
  intros Hreq Hname. apply run_loop_raise.
  apply (iteration_dispatch_raises _ _ _ _ _ _ _ Hreq).
  destruct Hname as [[l ->] | [d ->]]; reflexivity.
Qed.

Lemma unhashable_tool_name_ends_run_witness :
  run (Script.env [Cases.tool_is_a_list] []) Json.loads "goal" []
  = ([Sent "goal"], Raise (Exn TypeError "unhashable type: 'list'")).
Proof.
  apply (unhashable_tool_name_ends_run
           (Script.env [Cases.tool_is_a_list] []) Json.loads 9 "goal" []
           [("tool", VList [VStr "read_file"]); ("args", VDict [])]).
  - exists [("action", VDict [("tool", VList [VStr "read_file"]);
                              ("args", VDict [])])].
    split; [exists Cases.tool_is_a_list; split; reflexivity |].
    split; [reflexivity |]. split; reflexivity.
  - left. now eexists.
Defined.

(** A tool name that is missing, or is [null], a boolean or a number, is
    treated like an unknown tool: the pass adds its message to the trace
    and nothing else, the observation names the tool as Python prints it
    ([None] when it is missing), and the loop goes on. *)
Theorem nameless_action_is_observed env loads p tr action :
  requests env loads tr p action ->
  (forall s, tool_of action <> VStr s) ->
  (forall l, tool_of action <> VList l) ->
  (forall d, tool_of action <> VDict d) ->
  goes_on env loads p tr (tr ++ [Sent p])%list
    ("Observation: " ++ "Error: Tool '" ++ py_str (tool_of action)
     ++ "' not found.").
Proof.
  intros Hreq Hs Hl Hd. apply iteration_goes_on.
  apply (iteration_observation _ _ _ _ _ _ _ Hreq).
  destruct (tool_of action) as [| b | z | t | s | l | d]; try reflexivity.
  - now destruct (Hs s).
  - now destruct (Hl l).
  - now destruct (Hd d).
Qed.

Lemma nameless_action_is_observed_witness :
  goes_on (Script.env [Cases.tool_is_missing; Script.final_done] [])
    Json.loads "goal" [] ([] ++ [Sent "goal"])%list
    "Observation: Error: Tool 'None' not found.".
Proof.
  apply (nameless_action_is_observed
           (Script.env [Cases.tool_is_missing; Script.final_done] [])
           Json.loads "goal" []
           [("args", VDict [("filepath", VStr "a.txt")])]).
  - exists [("action", VDict [("args", VDict [("filepath", VStr "a.txt")])])].
    split; [exists Cases.tool_is_missing; split; reflexivity |].
    split; [reflexivity |]. split; reflexivity.
  - discriminate.
  - discriminate.
  - discriminate.
Defined.

Lemma snoc_decompose {A} (l pre post : list A) (x y : A) :
  (l ++ [x])%list = (pre ++ y :: post)%list ->
  (post = [] /\ l = pre /\ x = y)
  \/ (exists post', post = (post' ++ [x])%list /\ l = (pre ++ y :: post')%list).
Proof.
  intros H. destruct post as [| w post].
  - left. apply app_inj_tail in H. destruct H as [-> ->]. auto.
  - right.
    destruct (exists_last (l := w :: post)) as [post' [z' Hz']];
      [discriminate |].
    rewrite Hz' in H. exists post'.
    change (pre ++ y :: post' ++ [z'])%list
      with (pre ++ (y :: post') ++ [z'])%list in H.
    rewrite app_assoc in H. apply app_inj_tail in H.
    destruct H as [-> ->]. split; [exact Hz' | reflexivity].
Qed.

Section Invariants.

Variable env : Env.
Variable loads : string -> result value.


(** What every pass keeps, the run keeps. *)
Lemma run_loop_keeps (I : list event -> Prop) :
  (forall p tr, I tr -> I (fst (iteration env loads p tr))) ->
  forall n p tr, I tr -> I (fst (run_loop env loads n p tr)).
Proof.
  intros Hstep. induction n as [| n IH]; intros p tr Htr; [exact Htr |].
  rewrite run_loop_unfold. specialize (Hstep p tr Htr).
  destruct (iteration env loads p tr) as [tr' [[p' | a] | e]];
    cbn [fst] in *; auto.
Qed.

Lemma guarded_snoc tr e :
  guarded env tr ->
  (forall name args, e = Called (VStr name) args ->
                     In name dangerous_tools -> approved_at env tr name args) ->
  guarded env (tr ++ [e])%list.
Proof.
  intros Htr He pre post name args Heq Hd.
  apply snoc_decompose in Heq.
  destruct Heq as [[_ [-> Heq]] | [post' [_ ->]]].
  - now apply He.
  - now apply (Htr pre post' name args).
Qed.

Lemma guarded_iteration p tr :
  guarded env tr -> guarded env (fst (iteration env loads p tr)).
Proof.
  intros Htr. destruct (iteration_events env loads p tr) as [evs [-> Hd]].
  assert (H1 : guarded env (tr ++ [Sent p])%list).
  { apply guarded_snoc; [exact Htr | discriminate]. }
  destruct Hd as [| name args Hin | name args confirm Hin Hask Hy
                  | name args Hin Hno].
  - exact H1.
  - change (tr ++ [Sent p; Asked (VStr name) args])%list
      with (tr ++ [Sent p] ++ [Asked (VStr name) args])%list.
    rewrite app_assoc. apply guarded_snoc; [exact H1 | discriminate].
  - change (tr ++ [Sent p; Asked (VStr name) args; Called (VStr name) args])%list
      with (tr ++ [Sent p] ++ [Asked (VStr name) args]
               ++ [Called (VStr name) args])%list.
    rewrite !app_assoc. apply guarded_snoc.
    + apply guarded_snoc; [exact H1 | discriminate].
    + intros name' args' E _. injection E as <- <-.
      exists (tr ++ [Sent p])%list, confirm. auto.
  - change (tr ++ [Sent p; Called (VStr name) args])%list
      with (tr ++ [Sent p] ++ [Called (VStr name) args])%list.
    rewrite app_assoc. apply guarded_snoc; [exact H1 |].
    intros name' args' E Hd'. injection E as <- <-. contradiction.
Qed.

Lemma well_addressed_iteration p tr :
  well_addressed tr -> well_addressed (fst (iteration env loads p tr)).
Proof.
  intros [Hask Hcall].
  destruct (iteration_events env loads p tr) as [evs [-> Hd]].
  assert (Hdanger : forall name, In name dangerous_tools -> In name tool_names).
  { intros name H. cbn in *. tauto. }
  split; intros t a Hin; apply in_app_or in Hin;
    destruct Hin as [Hin | Hin]; eauto;
    destruct Hd; cbn in Hin;
    repeat match goal with
           | H : _ \/ _ |- _ => destruct H
           | H : False |- _ => destruct H
           | H : _ = _ |- _ => discriminate H
           | H : Asked _ _ = Asked _ _ |- _ => injection H as <- <-
           | H : Called _ _ = Called _ _ |- _ => injection H as <- <-
           end; eauto.
Qed.

End Invariants.

(** In every run, whatever the model, the operator and the system answer,
    a dangerous tool is called only right behind the question about this
    very tool and these very arguments, and only when the operator answered
    that question with [y] or [Y]. *)
Theorem dangerous_calls_are_approved env loads n p tr :
  guarded env tr ->
  guarded env (fst (run_loop env loads n p tr)).
Proof.
  apply (run_loop_keeps env loads (guarded env)).
  intros p' tr'. apply guarded_iteration.
Qed.

Lemma dangerous_calls_are_approved_witness :
  guarded (Script.env [Script.ask_write; Script.ask_shell; Script.final_done]
             ["y"; "n"])
    (fst (Script.run [Script.ask_write; Script.ask_shell; Script.final_done]
            ["y"; "n"] "goal")).
Proof.
  apply (dangerous_calls_are_approved
           (Script.env [Script.ask_write; Script.ask_shell; Script.final_done]
              ["y"; "n"]) Json.loads 10 "goal" []).
  intros pre post name args H. destruct pre; discriminate H.
Defined.

(** In every run, the operator is asked about dangerous tools only, and
    only tools of the registry are called. *)
Theorem questions_and_calls_are_well_addressed env loads n p tr :
  well_addressed tr ->
  well_addressed (fst (run_loop env loads n p tr)).
Proof.
  apply (run_loop_keeps env loads well_addressed).
  intros p' tr'. apply well_addressed_iteration.
Qed.

Lemma questions_and_calls_are_well_addressed_witness :
  well_addressed
    (fst (Script.run [Script.ask_unknown; Script.ask_list; Script.ask_shell]
            ["y"] "goal")).
Proof.
  apply (questions_and_calls_are_well_addressed
           (Script.env [Script.ask_unknown; Script.ask_list; Script.ask_shell]
              ["y"]) Json.loads 10 "goal" []).
  split; intros t a H; destruct H.
Defined.

(** Whatever the model answers, a loop with a ceiling of [n] sends at most
    [n] messages, and it puts at most one question to the operator and calls
    at most one tool for each message it sends. *)
Theorem run_stays_within_budget env loads n p tr :
  count is_sent (fst (run_loop env loads n p tr)) <= count is_sent tr + n
  /\ count is_asked (fst (run_loop env loads n p tr)) + count is_sent tr
     <= count is_asked tr + count is_sent (fst (run_loop env loads n p tr))
  /\ count is_called (fst (run_loop env loads n p tr)) + count is_sent tr
     <= count is_called tr + count is_sent (fst (run_loop env loads n p tr)).
Proof.
  revert p tr. induction n as [| n IH]; intros p tr.
  - cbn [run_loop ret fst]. lia.
  - rewrite run_loop_unfold.
    pose proof (iteration_counts env loads p tr) as [Hs [Ha Hc]].
    destruct (iteration env loads p tr) as [tr' [[p' | a] | e]];
      cbn [fst] in *; try lia.
    specialize (IH p' tr'). lia.
Qed.

Lemma dispatched_sends_nothing env tr evs q :
  dispatched env tr evs -> ~ In (Sent q) evs.
Proof.
  intros Hd Hin. destruct Hd; cbn in Hin;
    repeat match goal with
           | H : _ \/ _ |- _ => destruct H
           | H : False |- _ => destruct H
           | H : _ = _ |- _ => discriminate H
           end.
Qed.

(** The first message of a run is the prompt it was started with; every
    message behind it is written by the loop: it is one of the two
    corrective prompts or an observation. *)
Theorem later_messages_are_feedback env loads n p tr :
  exists rest,
    fst (run_loop env loads (S n) p tr) = (tr ++ Sent p :: rest)%list
    /\ forall q, In (Sent q) rest -> feedback q.
Proof.
  revert p tr. induction n as [| n IH]; intros p tr;
    rewrite run_loop_unfold;
    destruct (iteration_events env loads p tr) as [evs [Hevs Hd]];
    destruct (iteration env loads p tr) as [tr' [[p' | a] | e]] eqn:Hit;
    cbn [fst] in Hevs; subst tr';
    try (exists evs; split; [reflexivity |];
         intros q Hq; now destruct (dispatched_sends_nothing _ _ _ q Hd)).
  destruct (IH p' (tr ++ Sent p :: evs)%list) as [rest [-> Hrest]].
  exists (evs ++ Sent p' :: rest)%list. split.
  - rewrite <- app_assoc. reflexivity.
  - intros q Hq. apply in_app_or in Hq. destruct Hq as [Hq | [Hq | Hq]].
    + now destruct (dispatched_sends_nothing _ _ _ q Hd).
    + injection Hq as <-. apply (iteration_next_prompt _ _ _ _ _ _ Hit).
    + now apply Hrest.
Qed.

Example later_messages_example :
  fst (Script.run [Script.ask_unknown; "no JSON"; Script.neither_field;
                   Script.final_done] [] "goal")
  = [Sent "goal"; Sent "Observation: Error: Tool 'delete_file' not found.";
     Sent invalid_json_prompt; Sent invalid_response_prompt].
Proof. reflexivity. Qed.

(** ** More on the extraction of the JSON text *)

(** The extraction of an extracted text is that text: a second pass finds
    nothing to delete and nothing to trim. *)
Theorem json_text_idempotent text :
  json_text (json_text text) = json_text text.
Proof.
  assert (Hno : PyStr.contains "```" (json_text text) = false).
  { unfold json_text. apply contains_strip, remove_fence_complete. }
  assert (Hstrip : PyStr.strip (json_text text) = json_text text).
  { unfold json_text at 1 2. apply strip_idempotent. }
  unfold json_text at 1. rewrite Hstrip.
  rewrite (replace_absent "```json" "" _ (contains_shorter "```" "json" _ Hno)).
  rewrite (replace_absent "```" "" _ Hno).
  exact Hstrip.
Qed.

(** A response that is one block fenced with [```json] and [```], with
    white space around it at most, gives the payload of the block, trimmed;
    the payload has no backtick of its own. *)
Theorem json_text_of_fenced_block before payload after :
  blank before = true ->
  blank after = true ->
  PyStr.contains "`" payload = false ->
  json_text (before ++ "```json" ++ payload ++ "```" ++ after)
  = PyStr.strip payload.
Proof.
  intros Hb Ha Hp. unfold json_text.
  assert (Hstrip : PyStr.strip (before ++ "```json" ++ payload ++ "```" ++ after)
                   = "```json" ++ payload ++ "```").
  { unfold PyStr.strip. rewrite (lstrip_blank _ _ Hb).
    change (PyStr.lstrip ("```json" ++ payload ++ "```" ++ after))
      with ("```json" ++ payload ++ "```" ++ after).
    rewrite <- (string_app_assoc payload "```" after).
    rewrite <- (string_app_assoc "```json" (payload ++ "```") after).
    rewrite (rstrip_append_blank _ _ Ha).
    rewrite <- (string_app_assoc "```json" payload "```").
    apply rstrip_append_kept; [discriminate | reflexivity]. }
  rewrite Hstrip.
  rewrite (replace_at_match "`" "``json" "" (payload ++ "```")).
  cbn [append].
  rewrite (replace_past_plain "``json" "" payload "```" Hp).
  change (PyStr.replace "```json" "" "```") with "```".
  rewrite (replace_past_plain "``" "" payload "```" Hp).
  change (PyStr.replace "```" "" "```") with "".
  now rewrite string_app_empty.
Qed.

Lemma json_text_of_fenced_block_witness :
  json_text (nl ++ "```json" ++ (nl ++ Script.final_done ++ nl) ++ "```" ++ nl)
  = PyStr.strip (nl ++ Script.final_done ++ nl).
Proof.
  apply (json_text_of_fenced_block nl (nl ++ Script.final_done ++ nl) nl);
    reflexivity.
Defined.

(** ** Failures inside a tool become observations *)

Lemma script_env_raises_Exceptions_only responses answers :
  raises_Exceptions_only (Script.env responses answers).
Proof.
  unfold raises_Exceptions_only. cbn.
  repeat split; intros; try discriminate.
  match goal with H : Raise _ = Raise _ |- _ => injection H as <- end.
  reflexivity.
Qed.



Example read_of_a_missing_file :
  Script.run [Cases2.ask_read; Script.final_done] [] "goal"
  = ([Sent "goal";
      Called (VStr "read_file") (VDict [("filepath", VStr "notes.txt")]);
      Sent "Observation: Error: File 'notes.txt' not found."],
     Ok (VStr "done")).
Proof. reflexivity. Qed.

(** A command that runs into the time limit of sixty seconds does not end
    the run: behind the approval the call is the last event of the pass,
    the observation reports the timeout, and the loop goes on with it. *)
Theorem command_timeout_is_observed env loads p tr action command e :
  requests env loads tr p action ->
  tool_of action = VStr "execute_shell_command" ->
  args_of action = VDict [("command", command)] ->
  snd (get_user_confirmation env (VStr "execute_shell_command")
         (args_of action) (tr ++ [Sent p])%list) = Ok true ->
  subprocess_run env
    (tr ++ [Sent p; Asked (VStr "execute_shell_command") (args_of action);
            Called (VStr "execute_shell_command") (args_of action)])%list
    command = Raise e ->
  is_a TimeoutExpired e = true ->
  goes_on env loads p tr
    (tr ++ [Sent p; Asked (VStr "execute_shell_command") (args_of action);
            Called (VStr "execute_shell_command") (args_of action)])%list
    "Observation: Error: Command timed out after 60 seconds.".
Proof.
  intros Hreq Htool Hargs Hgate Hrun Htimeout.
  apply iteration_goes_on.
  apply (iteration_observation _ _ _ _ _ _ _ Hreq).
  rewrite Htool.
  rewrite (dispatch_approved env "execute_shell_command" _ _ _
             (or_intror (or_introl eq_refl)) eq_refl Hgate).
  rewrite <- app_assoc. cbn [app]. f_equal.
  revert Hrun. rewrite Hargs. intros Hrun.
  unfold call, bind, lift. cbn [bind_kwargs fn_params fn_name fn_body].
  cbn -[execute_shell_command].
  unfold execute_shell_command, try_except, bind, consult.
  rewrite Hrun, Htimeout. reflexivity.
Qed.

Lemma command_timeout_is_observed_witness :
  goes_on (Cases2.hanging [Script.ask_shell; Script.final_done] ["y"])
    Json.loads "goal" []
    [Sent "goal";
     Asked (VStr "execute_shell_command") (VDict [("command", VStr "ls")]);
     Called (VStr "execute_shell_command") (VDict [("command", VStr "ls")])]
    "Observation: Error: Command timed out after 60 seconds.".
Proof.
  apply (command_timeout_is_observed
           (Cases2.hanging [Script.ask_shell; Script.final_done] ["y"])
           Json.loads "goal" []
           [("tool", VStr "execute_shell_command");
            ("args", VDict [("command", VStr "ls")])]
           (VStr "ls")
           (Exn TimeoutExpired "Command 'ls' timed out after 60 seconds")).
  - exists [("action", VDict [("tool", VStr "execute_shell_command");
                              ("args", VDict [("command", VStr "ls")])])].
    split; [exists Script.ask_shell; split; reflexivity |].
    split; [reflexivity |]. split; reflexivity.
  - reflexivity.
  - reflexivity.
  - reflexivity.
  - reflexivity.
  - reflexivity.
Defined.

(** ** The report of a command *)

Lemma rstrip_digits d :
  PyStr.rstrip (NilEmpty.string_of_uint d) = NilEmpty.string_of_uint d.
Proof.
  induction d as [| d IH | d IH | d IH | d IH | d IH | d IH | d IH | d IH
                  | d IH | d IH]; [reflexivity | ..];
    cbn [NilEmpty.string_of_uint PyStr.rstrip]; rewrite IH;
    destruct (NilEmpty.string_of_uint d); reflexivity.
Qed.

Lemma str_of_Z_kept z :
  str_of_Z z <> "" /\ PyStr.rstrip (str_of_Z z) = str_of_Z z.
Proof.
  unfold str_of_Z, NilZero.string_of_int.
  assert (Hu : forall d, NilZero.string_of_uint d <> ""
                         /\ PyStr.rstrip (NilZero.string_of_uint d)
                            = NilZero.string_of_uint d).
  { intros d. split.
    - destruct d; discriminate.
    - destruct d; try reflexivity; apply rstrip_digits. }
  destruct (Z.to_int z) as [d | d].
  - apply Hu.
  - split; [discriminate |].
    destruct (Hu d) as [Hne Hr]. cbn [PyStr.rstrip]. rewrite Hr.
    destruct (NilZero.string_of_uint d); [now destruct Hne | reflexivity].
Qed.

Lemma strip_report blocks rc :
  rc <> "" -> PyStr.rstrip rc = rc ->
  PyStr.lstrip blocks = blocks -> blocks <> "" ->
  PyStr.strip (blocks ++ "Return Code: " ++ rc)
  = blocks ++ "Return Code: " ++ rc.
Proof.
  intros Hne Hkept Hhead Hblocks. unfold PyStr.strip.
  assert (Hl : PyStr.lstrip (blocks ++ "Return Code: " ++ rc)
               = blocks ++ "Return Code: " ++ rc).
  { destruct blocks as [| c b]; [now destruct Hblocks |].
    cbn [append PyStr.lstrip] in *.
    destruct (PyStr.isspace c) eqn:Ec; [| reflexivity].
    exfalso. pose proof (lstrip_head b) as Hh. rewrite Hhead in Hh.
    congruence. }
  rewrite Hl, <- (string_app_assoc blocks "Return Code: " rc).
  apply rstrip_append_kept; assumption.
Qed.

(** Whatever a command prints and whatever its exit code is, the tool
    returns a report, and the report ends with [Return Code:] and the
    code: a failing command is reported, not raised. *)
Theorem shell_report_ends_with_return_code env command tr result :
  subprocess_run env tr command = Ok result ->
  exists body,
    execute_shell_command env command tr
    = (tr, Ok (body ++ "Return Code: " ++ str_of_Z (returncode result))).
Proof.
  intros Hrun.
  destruct (str_of_Z_kept (returncode result)) as [Hne Hkept].
  unfold execute_shell_command, try_except, bind, consult, ret.
  rewrite Hrun. cbv zeta.
  set (rc := str_of_Z (returncode result)) in *. clearbody rc.
  set (out := PyStr.strip (stdout result)). clearbody out.
  set (err := PyStr.strip (stderr result)). clearbody err.
  destruct (String.eqb (stdout result) "");
    destruct (String.eqb (stderr result) ""); cbn [andb].
  - exists ("Command executed successfully with no output." ++ nl).
    now rewrite string_app_assoc.
  - exists ("STDERR:" ++ nl ++ "---" ++ nl ++ err ++ nl ++ "---" ++ nl).
    change ("" ++ "STDERR:" ++ nl ++ "---" ++ nl ++ err ++ nl ++ "---" ++ nl)
      with ("STDERR:" ++ nl ++ "---" ++ nl ++ err ++ nl ++ "---" ++ nl).
    rewrite (strip_report _ rc Hne Hkept); [reflexivity | reflexivity |].
    discriminate.
  - exists ("STDOUT:" ++ nl ++ "---" ++ nl ++ out ++ nl ++ "---" ++ nl).
    change ("" ++ "STDOUT:" ++ nl ++ "---" ++ nl ++ out ++ nl ++ "---" ++ nl)
      with ("STDOUT:" ++ nl ++ "---" ++ nl ++ out ++ nl ++ "---" ++ nl).
    rewrite (strip_report _ rc Hne Hkept); [reflexivity | reflexivity |].
    discriminate.
  - exists (("STDOUT:" ++ nl ++ "---" ++ nl ++ out ++ nl ++ "---" ++ nl)
            ++ "STDERR:" ++ nl ++ "---" ++ nl ++ err ++ nl ++ "---" ++ nl).
    change ("" ++ "STDOUT:" ++ nl ++ "---" ++ nl ++ out ++ nl ++ "---" ++ nl)
      with ("STDOUT:" ++ nl ++ "---" ++ nl ++ out ++ nl ++ "---" ++ nl).
    rewrite (strip_report _ rc Hne Hkept); [reflexivity | reflexivity |].
    discriminate.
Qed.

Lemma shell_report_ends_with_return_code_witness :
  exists body,
    execute_shell_command (Cases3.failing [] []) (VStr "ls x") []
    = ([], Ok (body ++ "Return Code: " ++ str_of_Z 2)).
Proof.
  apply (shell_report_ends_with_return_code
           (Cases3.failing [] []) (VStr "ls x") []
           {| stdout := "";
              stderr := "ls: cannot access 'x': No such file or directory" ++ nl;
              returncode := 2 |}).
  reflexivity.
Defined.

(** ** The listing of a directory *)

Lemma insert_sorted_permutation x l :
  Permutation (insert_sorted x l) (x :: l).
Proof.
  induction l as [| y l IH]; cbn [insert_sorted]; [reflexivity |].
  destruct (String.leb x y); [reflexivity |].
  rewrite IH. apply perm_swap.
Qed.

Lemma sorted_permutation l : Permutation (sorted l) l.
Proof.
  induction l as [| x l IH]; [reflexivity |].
  cbn [sorted fold_right]. fold (sorted l).
  rewrite insert_sorted_permutation. now constructor.
Qed.

Lemma insert_sorted_ordered x l :
  Sorted (fun a b => String.leb a b = true) l ->
  Sorted (fun a b => String.leb a b = true) (insert_sorted x l).
Proof.
  induction l as [| y l IH]; intros Hl; cbn [insert_sorted].
  - repeat constructor.
  - destruct (String.leb x y) eqn:Hxy.
    + constructor; [exact Hl | now constructor].
    + inversion Hl as [| y' l' Hl' Hhd]; subst.
      constructor; [now apply IH |].
      destruct l as [| z l]; cbn [insert_sorted].
      * constructor. destruct (String.leb_total x y); congruence.
      * destruct (String.leb x z).
        -- constructor. destruct (String.leb_total x y); congruence.
        -- inversion Hhd; subst. now constructor.
Qed.

Lemma sorted_ordered l :
  Sorted (fun a b => String.leb a b = true) (sorted l).
Proof.
  induction l as [| x l IH]; [constructor |].
  cbn [sorted fold_right]. fold (sorted l). now apply insert_sorted_ordered.
Qed.

Lemma mark_directories_map env directory tr (path_of : string -> string)
  (is_dir : string -> bool) files :
  (forall f, In f files -> os_path_join env directory f = Ok (path_of f)) ->
  (forall f, In f files ->
             os_path_isdir env tr (VStr (path_of f)) = Ok (is_dir f)) ->
  mark_directories env directory files tr
  = (tr, Ok (map (fun f => if is_dir f then f ++ "/" else f) files)).
Proof.
  induction files as [| f rest IH]; intros Hjoin Hisdir; [reflexivity |].
  cbn [mark_directories map]. unfold bind, lift, consult, ret.
  rewrite (Hjoin f (or_introl eq_refl)), (Hisdir f (or_introl eq_refl)).
  rewrite IH; [reflexivity | |]; intros g Hg; [apply Hjoin | apply Hisdir];
    now right.
Qed.

(** For a directory that has entries, [list_files] returns one line for
    each entry, in ascending order of the names, and a directory has [/]
    behind its name. *)
Theorem list_files_lists_every_entry_in_order
  env directory tr files (path_of : string -> string) (is_dir : string -> bool) :
  os_path_isdir env tr directory = Ok true ->
  os_listdir env tr directory = Ok files ->
  files <> [] ->
  (forall f, In f files -> os_path_join env directory f = Ok (path_of f)) ->
  (forall f, In f files ->
             os_path_isdir env tr (VStr (path_of f)) = Ok (is_dir f)) ->
  list_files env directory tr
  = (tr, Ok (String.concat nl
               (map (fun f => if is_dir f then f ++ "/" else f)
                    (sorted files))))
  /\ Permutation (sorted files) files
  /\ Sorted (fun a b => String.leb a b = true) (sorted files).
Proof.
  intros Hdir Hlist Hne Hjoin Hisdir.
  split; [| split; [apply sorted_permutation | apply sorted_ordered]].
  unfold list_files, try_except, bind, consult, ret.
  rewrite Hdir. cbn [negb]. rewrite Hlist.
  destruct files as [| f0 rest]; [now destruct Hne |].
  rewrite (mark_directories_map env directory tr path_of is_dir).
  - reflexivity.
  - intros f Hf. apply Hjoin.
    apply (Permutation_in _ (sorted_permutation _) Hf).
  - intros f Hf. apply Hisdir.
    apply (Permutation_in _ (sorted_permutation _) Hf).
Qed.

Lemma list_files_lists_every_entry_in_order_witness :
  list_files Cases4.project (VStr ".") []
  = ([], Ok (String.concat nl
               (map (fun f => if String.eqb f "src" then f ++ "/" else f)
                    (sorted ["src"; "main.py"; "README.md"]))))
  /\ Permutation (sorted ["src"; "main.py"; "README.md"])
       ["src"; "main.py"; "README.md"]
  /\ Sorted (fun a b => String.leb a b = true)
       (sorted ["src"; "main.py"; "README.md"]).
Proof.
  apply (list_files_lists_every_entry_in_order
           Cases4.project (VStr ".") [] ["src"; "main.py"; "README.md"]
           (fun f => f) (fun f => String.eqb f "src")).
  - reflexivity.
  - reflexivity.
  - discriminate.
  - intros f _. reflexivity.
  - intros f [<- | [<- | [<- | []]]]; reflexivity.
Defined.

Example list_files_example :
  list_files Cases4.project (VStr ".") []
  = ([], Ok ("README.md" ++ nl ++ "main.py" ++ nl ++ "src/")).
Proof. reflexivity. Qed.

(** ** Which arguments bind *)

Lemma filter_none {A} (f : A -> bool) l :
  filter f l = [] <-> forall x, In x l -> f x = false.
Proof.
  induction l as [| a l IH]; cbn [filter].
  - split; [intros _ x [] | reflexivity].
  - destruct (f a) eqn:E.
    + split; [discriminate |]. intros H.
      rewrite (H a (or_introl eq_refl)) in E. discriminate.
    + rewrite IH. split.
      * intros H x [<- | Hx]; auto.
      * intros H x Hx. apply H. now right.
Qed.

Lemma find_none_iff {A} (f : A -> bool) l :
  find f l = None <-> forall x, In x l -> f x = false.
Proof.
  split; [apply find_none |].
  intros H. destruct (find f l) as [x |] eqn:E; [| reflexivity].
  apply find_some in E. destruct E as [Hin Hx].
  rewrite (H x Hin) in Hx. discriminate.
Qed.

Lemma is_param_iff k (params : list string) :
  existsb (String.eqb k) params = true <-> In k params.
Proof.
  rewrite existsb_exists. split.
  - intros [x [Hin Heq]]. apply String.eqb_eq in Heq. now subst.
  - intros H. exists k. split; [exact H | apply String.eqb_refl].
Qed.

(** The call of a function with the keyword arguments [kwargs] binds
    exactly when [kwargs] is an object, every key of it is a parameter of
    the function, and every parameter without a default is a key of it; in
    every other case the call raises [TypeError]. *)
(** The binding of keyword arguments: it succeeds exactly when [kwargs] is
    an object, every key of it is a parameter of the function, and every
    parameter without a default is a key of it; in every other case it
    raises [TypeError]. *)
Lemma bind_kwargs_iff f kwargs :
  ((exists args, bind_kwargs f kwargs = Ok args)
   <-> exists d,
        kwargs = VDict d
        /\ (forall k, In k (map fst d) -> In k (map fst (fn_params f)))
        /\ (forall p, In (p, None) (fn_params f) -> dict_has p d = true))
  /\ (forall e, bind_kwargs f kwargs = Raise e -> exn_cls e = TypeError).
Proof.
  split.
  - split.
    + intros [args Hargs].
      destruct kwargs as [| b | z | t | s | l | d]; try discriminate.
      exists d. split; [reflexivity |].
      cbn [bind_kwargs] in Hargs.
      destruct (find _ d) as [[k v] |] eqn:Hfind; [discriminate |].
      destruct (filter _ (fn_params f)) as [| m ms] eqn:Hmiss;
        [| discriminate].
      split.
      * intros k Hk. apply in_map_iff in Hk. destruct Hk as [[k' v] [<- Hin]].
        apply (proj1 (find_none_iff _ _) Hfind) in Hin. cbn [fst] in Hin.
        apply negb_false_iff in Hin. now apply is_param_iff.
      * intros p Hp.
        apply (proj1 (filter_none _ _) Hmiss) in Hp. cbn [fst snd] in Hp.
        now apply negb_false_iff in Hp.
    + intros [d [-> [Hkeys Hreq]]]. cbn [bind_kwargs].
      assert (Hfind : find (fun kv : string * value =>
                              negb (existsb (String.eqb (fst kv))
                                      (map fst (fn_params f)))) d = None).
      { apply find_none_iff. intros [k v] Hin. cbn [fst].
        apply negb_false_iff, is_param_iff, Hkeys.
        apply in_map_iff. now exists (k, v). }
      rewrite Hfind.
      assert (Hmiss : filter (fun p : string * option value =>
                                match snd p with
                                | None => negb (dict_has (fst p) d)
                                | Some _ => false
                                end) (fn_params f) = []).
      { apply filter_none. intros [p [default |]] Hin; [reflexivity |].
        cbn [fst snd]. now rewrite (Hreq p Hin). }
      rewrite Hmiss. now eexists.
  - intros e.
    destruct kwargs as [| b | z | t | s | l | d]; cbn [bind_kwargs];
      try (intros H; injection H as <-; reflexivity).
    destruct (find _ d) as [[k v] |];
      [intros H; injection H as <-; reflexivity |].
    destruct (filter _ (fn_params f)); [discriminate |].
    intros H; injection H as <-; reflexivity.
Qed.

(** Which arguments each tool of the registry takes, after the signatures
    in [tools/]: the call of a tool with the keyword arguments that the
    model gives binds exactly when they are an object that has a key for
    each parameter without a default and no key that is no parameter.
    [search_web] needs [query], [read_file] needs [filepath], [write_file]
    needs [filepath] and [content], [execute_shell_command] needs
    [command], and [list_files] takes [directory] or nothing.  In every
    other case the call raises [TypeError]. *)
Theorem tools_bind_exactly_their_parameters env kwargs :
  (binds env "search_web" kwargs
   <-> exists d, kwargs = VDict d /\ keys_within d ["query"]
                 /\ dict_has "query" d = true)
  /\ (binds env "list_files" kwargs
      <-> exists d, kwargs = VDict d /\ keys_within d ["directory"])
  /\ (binds env "read_file" kwargs
      <-> exists d, kwargs = VDict d /\ keys_within d ["filepath"]
                    /\ dict_has "filepath" d = true)
  /\ (binds env "write_file" kwargs
      <-> exists d, kwargs = VDict d /\ keys_within d ["filepath"; "content"]
                    /\ dict_has "filepath" d = true
                    /\ dict_has "content" d = true)
  /\ (binds env "execute_shell_command" kwargs
      <-> exists d, kwargs = VDict d /\ keys_within d ["command"]
                    /\ dict_has "command" d = true)
  /\ (forall name f e,
        registry_lookup name (tools env) = Some f ->
        bind_kwargs f kwargs = Raise e -> exn_cls e = TypeError).
Proof.
  assert (Hone : forall name f,
             registry_lookup name (tools env) = Some f ->
             binds env name kwargs
             <-> exists d,
                   kwargs = VDict d
                   /\ keys_within d (map fst (fn_params f))
                   /\ (forall p, In (p, None) (fn_params f) ->
                                 dict_has p d = true)).
  { intros name f Hf. rewrite <- (proj1 (bind_kwargs_iff f kwargs)).
    unfold binds. split.
    - intros [f' [args [Hf' Hargs]]]. rewrite Hf in Hf'.
      injection Hf' as <-. now exists args.
    - intros [args Hargs]. now exists f, args. }
  split; [| split; [| split; [| split; [| split]]]].
  1-5: split; intros H.
  1, 3, 5, 7, 9:
    eapply Hone in H; [| reflexivity];
    destruct H as [d [-> [Hk Hr]]]; exists d; cbn in Hk, Hr;
    repeat split; auto.
  1-5:
    destruct H as [d H]; decompose [and] H; clear H; subst;
    eapply Hone; [reflexivity |]; exists d; cbn;
    repeat split; auto;
    intros p Hp;
    repeat match goal with
           | H : _ \/ _ |- _ => destruct H
           | H : False |- _ => destruct H
           | H : (_, _) = (_, _) |- _ => inversion H; clear H; subst
           end; auto.
  intros name f e _. apply bind_kwargs_iff.
Qed.

Example write_file_without_content :
  binds (Script.env [] []) "write_file" (VDict [("filepath", VStr "a.txt")])
  <-> False.
Proof.
  split; [| tauto].
  intros [f [args [Hf Hbind]]]. injection Hf as <-. discriminate Hbind.
Qed.

(** ** The session: [TUI.start] and [main] *)

Section SessionFacts.

Variable env : Env.
Variable loads : string -> result value.
Variable render : value -> result unit.

Lemma start_cons prompt rest tr :
  is_exit prompt = false ->
  start env loads render (prompt :: rest) tr
  = match run env loads prompt tr with
    | (tr1, Ok response) =>
        match render response with
        | Ok _ =>
            match start env loads render rest tr1 with
            | (tr2, Ok answers) => (tr2, Ok (response :: answers))
            | (tr2, Raise e) => (tr2, Raise e)
            end
        | Raise e => (tr1, Raise e)
        end
    | (tr1, Raise e) => (tr1, Raise e)
    end.
Proof.
  intros Hexit. cbn [start]. rewrite Hexit. unfold bind, lift, ret.
  destruct (run env loads prompt tr) as [tr1 [response | e]]; [| reflexivity].
  destruct (render response) as [u | e]; [| reflexivity].
  destruct (start env loads render rest tr1) as [tr2 [answers | e]];
    reflexivity.
Qed.

(** [run]: the goal is printed, then the loop runs. *)
Lemma run_eq p tr :
  run env loads p tr
  = match console_print env (goal_text p) with
    | Ok _ => run_loop env loads max_iterations p tr
    | Raise e => (tr, Raise e)
    end.
Proof.
  unfold run, bind, lift. now destruct (console_print env (goal_text p)).
Qed.

Lemma run_loop_sent_bound n p tr :
  count is_sent (fst (run_loop env loads n p tr)) <= count is_sent tr + n.
Proof.
  revert p tr. induction n as [| n IH]; intros p tr.
  - cbn [run_loop ret fst]. lia.
  - rewrite run_loop_unfold.
    pose proof (iteration_sends env loads p tr) as Hs.
    destruct (iteration env loads p tr) as [tr' [[p' | a] | e]];
      cbn [fst] in *; try lia.
    specialize (IH p' tr'). lia.
Qed.

Lemma run_sent_bound p tr :
  count is_sent (fst (run env loads p tr)) <= count is_sent tr + 10.
Proof.
  rewrite run_eq. destruct (console_print env (goal_text p)).
  - apply (run_loop_sent_bound max_iterations).
  - cbn [fst]. lia.
Qed.

Lemma run_keeps (I : list event -> Prop) :
  (forall p tr, I tr -> I (fst (iteration env loads p tr))) ->
  forall p tr, I tr -> I (fst (run env loads p tr)).
Proof.
  intros Hstep p tr Htr. rewrite run_eq.
  destruct (console_print env (goal_text p)); [| exact Htr].
  now apply run_loop_keeps.
Qed.

Lemma start_keeps (I : list event -> Prop) :
  (forall p tr, I tr -> I (fst (iteration env loads p tr))) ->
  forall inputs tr, I tr -> I (fst (start env loads render inputs tr)).
Proof.
  intros Hstep. induction inputs as [| prompt rest IH]; intros tr Htr;
    [exact Htr |].
  destruct (is_exit prompt) eqn:Hexit.
  - cbn [start]. rewrite Hexit. exact Htr.
  - rewrite (start_cons _ _ _ Hexit).
    pose proof (run_keeps I Hstep prompt tr Htr) as Hrun.
    destruct (run env loads prompt tr) as [tr1 [response | e]];
      cbn [fst] in *; [| exact Hrun].
    destruct (render response) as [u | e]; [| exact Hrun].
    specialize (IH tr1 Hrun).
    destruct (start env loads render rest tr1) as [tr2 [answers | e]];
      exact IH.
Qed.

End SessionFacts.

(** A line that is [exit] or [quit] in any mix of upper and lower case ends
    the session: typed first, nothing is sent and nothing is printed; typed
    later, whatever is typed behind it plays no part. *)
Theorem exit_word_ends_session env loads render before word after tr :
  PyStr.lower word = "exit" \/ PyStr.lower word = "quit" ->
  start env loads render (word :: after) tr = (tr, Ok [])
  /\ start env loads render (before ++ word :: after) tr
     = start env loads render (before ++ [word]) tr.
Proof.
  intros Hword.
  assert (Hexit : is_exit word = true).
  { unfold is_exit. cbn [existsb].
    destruct Hword as [-> | ->]; reflexivity. }
  split.
  - cbn [start]. now rewrite Hexit.
  - revert tr. induction before as [| prompt before IH]; intros tr.
    + cbn [app start]. now rewrite Hexit.
    + cbn [app]. destruct (is_exit prompt) eqn:Hp.
      * cbn [start]. now rewrite Hp.
      * rewrite !(start_cons _ _ _ _ _ _ Hp).
        destruct (run env loads prompt tr) as [tr1 [response | e]];
          [| reflexivity].
        destruct (render response) as [u | e]; [| reflexivity].
        now rewrite IH.
Qed.

(** A session sends at most ten messages for each line typed. *)
Theorem session_stays_within_budget env loads render inputs tr :
  count is_sent (fst (start env loads render inputs tr))
  <= count is_sent tr + 10 * List.length inputs.
Proof.
  revert tr. induction inputs as [| prompt rest IH]; intros tr.
  - cbn [start raise fst List.length]. lia.
  - destruct (is_exit prompt) eqn:Hexit.
    + cbn [start]. rewrite Hexit. cbn [ret fst List.length]. lia.
    + rewrite (start_cons _ _ _ _ _ _ Hexit).
      pose proof (run_sent_bound env loads prompt tr) as Hrun.
      cbn [List.length].
      destruct (run env loads prompt tr) as [tr1 [response | e]];
        cbn [fst] in *; [| lia].
      destruct (render response) as [u | e]; cbn [fst]; [| lia].
      specialize (IH tr1).
      destruct (start env loads render rest tr1) as [tr2 [answers | e]];
        cbn [fst] in *; lia.
Qed.

(** The session loop catches nothing: when a run raises, the session ends
    with that exception and the lines typed behind it are never sent. *)
Theorem failed_run_ends_session env loads render prompt rest tr tr' e :
  is_exit prompt = false ->
  run env loads prompt tr = (tr', Raise e) ->
  start env loads render (prompt :: rest) tr = (tr', Raise e).
Proof.
  intros Hexit Hrun. rewrite (start_cons _ _ _ _ _ _ Hexit), Hrun.
  reflexivity.
Qed.

(** Over a whole session, as in one run, a dangerous tool is called only
    right behind the approved question about it. *)
Theorem session_calls_are_approved env loads render inputs tr :
  guarded env tr ->
  guarded env (fst (start env loads render inputs tr)).
Proof.
  apply (start_keeps env loads render (guarded env)).
  intros p tr'. apply guarded_iteration.
Qed.

(** [main] catches every [Exception] that ends the session, also one that
    a tool call raised in the middle of a run, and prints it as an error
    during agent initialization; when the console prints the report, [main]
    returns, and when the console refuses the text of the exception, its
    error leaves [main].  What is no [Exception] passes through. *)
Theorem main_reports_session_failures
  env loads render key genai inputs tr tr' e :
  key <> "" ->
  genai = Ok tt ->
  start env loads render inputs tr = (tr', Raise e) ->
  (is_Exception e = true ->
   main env loads render (Some key) genai inputs tr
   = (tr',
      match console_print env (report_text e) with
      | Ok _ =>
          Ok (Reported ("An error occurred during agent initialization: "
                        ++ exn_str e))
      | Raise e' => Raise e'
      end))
  /\ (is_Exception e = false ->
      main env loads render (Some key) genai inputs tr = (tr', Raise e)).
Proof.
  intros Hkey -> Hstart.
  destruct key as [| c key]; [now destruct Hkey |].
  unfold main, try_except, bind, lift, ret, ReActAgent_init.
  rewrite Hstart.
  split; intros ->; [| reflexivity].
  now destruct (console_print env (report_text e)).
Qed.

Lemma exit_word_ends_session_witness :
  start (Script.env [Script.final_done] []) Json.loads Cases5.plain
    ("Quit" :: ["more"]) []
  = ([], Ok [])
  /\ start (Script.env [Script.final_done] []) Json.loads Cases5.plain
       (["hello"] ++ "Quit" :: ["more"]) []
     = start (Script.env [Script.final_done] []) Json.loads Cases5.plain
         (["hello"] ++ ["Quit"]) [].
Proof.
  apply (exit_word_ends_session
           (Script.env [Script.final_done] []) Json.loads Cases5.plain
           ["hello"] "Quit" ["more"] []).
  right. reflexivity.
Defined.

Lemma failed_run_ends_session_witness :
  start (Script.env [Script.ask_read_wrong_keyword] []) Json.loads
    Cases5.plain ("read my notes" :: ["and then tidy up"; "exit"]) []
  = ([Sent "read my notes";
      Called (VStr "read_file") (VDict [("path", VStr "notes.txt")])],
     Raise (Exn TypeError
              "read_file() got an unexpected keyword argument 'path'")).
Proof.
  apply (failed_run_ends_session
           (Script.env [Script.ask_read_wrong_keyword] []) Json.loads
           Cases5.plain "read my notes" ["and then tidy up"; "exit"] []);
    reflexivity.
Defined.

Lemma session_calls_are_approved_witness :
  guarded (Script.env [Script.ask_write; Script.final_done] ["y"])
    (fst (start (Script.env [Script.ask_write; Script.final_done] ["y"])
            Json.loads Cases5.plain ["write it"; "exit"] [])).
Proof.
  apply (session_calls_are_approved
           (Script.env [Script.ask_write; Script.final_done] ["y"])
           Json.loads Cases5.plain ["write it"; "exit"] []).
  intros pre post name args H. destruct pre; discriminate H.
Defined.

Lemma main_reports_session_failures_witness :
  main (Script.env [Script.ask_read_wrong_keyword] []) Json.loads Cases5.plain
    (Some "key") (Ok tt) ["read my notes"; "exit"] []
  = ([Sent "read my notes";
      Called (VStr "read_file") (VDict [("path", VStr "notes.txt")])],
     Ok (Reported ("An error occurred during agent initialization: "
                   ++ "read_file() got an unexpected keyword argument 'path'"))).
Proof.
  apply (proj1 (main_reports_session_failures
                  (Script.env [Script.ask_read_wrong_keyword] []) Json.loads
                  Cases5.plain "key" (Ok tt) ["read my notes"; "exit"] []
                  [Sent "read my notes";
                   Called (VStr "read_file")
                     (VDict [("path", VStr "notes.txt")])]
                  (Exn TypeError
                     "read_file() got an unexpected keyword argument 'path'")
                  ltac:(discriminate) eq_refl eq_refl)).
  reflexivity.
Defined.

(** A session of two goals. *)
Example session_example :
  start (Script.env [Script.ask_list; Script.final_done] []) Json.loads
    Cases5.plain ["what is here?"; "EXIT"] []
  = ([Sent "what is here?"; Called (VStr "list_files") (VDict []);
      Sent "Observation: Error: Directory '.' not found."],
     Ok [VStr "done"]).
Proof. reflexivity. Qed.

(** A goal with a closing tag in it is refused by the console before the
    first message is sent. *)
Example goal_with_tag :
  Script.run [Script.final_done] [] "explain [/code] please"
  = ([], Raise (Exn MarkupError
                  "closing tag '[/code]' at position 38 doesn't match any open tag")).
Proof. reflexivity. Qed.

(** The model asks for [read_file] with a keyword that has a closing tag
    in it: the call raises [TypeError], and [main], which catches it, raises
    while it prints the report. *)
Example report_with_tag :
  main (Script.env [Cases6.ask_read_with_tag_key] []) Json.loads Cases5.plain
    (Some "key") (Ok tt) ["read my notes"; "exit"] []
  = ([Sent "read my notes";
      Called (VStr "read_file") (VDict [("[/x]", VInt 1)])],
     Raise (Exn MarkupError
              "closing tag '[/x]' at position 105 doesn't match any open tag")).
Proof. reflexivity. Qed.

(** The model asks for a command with a closing tag in it: the panel of
    the confirmation raises, the operator is not asked, and the run ends. *)
Example command_with_tag :
  Script.run [Cases6.ask_shell_with_tag; Script.final_done] ["y"] "goal"
  = ([Sent "goal"],
     Raise (Exn MarkupError
              "closing tag '[/etc]' at position 81 doesn't match any open tag")).
Proof. reflexivity. Qed.
